(** * AI BOM generator: detection pipeline and BOM synthesis

    A shallow embedding of the analysis core of the AI BOM generator
    (js/analyzer.js, the detector functions, js/utils.js) together with
    the properties its specification states about it.

    JavaScript values are modelled as follows.
    - strings are [string] (bytes); [toLowerCase] is the ASCII one;
    - numbers that the code only uses as integers are [Z] or [nat];
    - a [Map] is an association list kept in insertion order, a [Set] a
      duplicate-free list in insertion order;
    - an optional object field is an [option];
    - the random identifier generator and the search service are
      functions handed to the code, with the state they need threaded
      explicitly. *)

From Stdlib Require Import String Ascii List ZArith Lia Bool Arith.
From Stdlib Require Import DecimalString Relations.
Import ListNotations.

Local Open Scope string_scope.
Local Open Scope list_scope.

(* ================================================================== *)
(** ** JavaScript string primitives *)
(* ================================================================== *)

Module Js.

Definition toLowerChar (c : ascii) : ascii :=
  let n := nat_of_ascii c in
  if (65 <=? n)%nat && (n <=? 90)%nat then ascii_of_nat (n + 32) else c.

(** [String.prototype.toLowerCase] on ASCII text. *)
Fixpoint toLowerCase (s : string) : string :=
  match s with
  | EmptyString => EmptyString
  | String c r => String (toLowerChar c) (toLowerCase r)
  end.

(** [s.startsWith(p)], also the regular expression [/^p/] for a
    literal [p]. *)
Definition startsWith (s p : string) : bool := String.prefix p s.

(** [s.includes(sub)]. *)
Fixpoint includes (s sub : string) : bool :=
  String.prefix sub s ||
  match s with
  | EmptyString => false
  | String _ r => includes r sub
  end.

(** [s.endsWith(p)], the regular expression [/p$/] for a literal [p]. *)
Definition endsWith (s p : string) : bool :=
  let ls := String.length s in
  let lp := String.length p in
  (lp <=? ls)%nat && String.eqb (String.substring (ls - lp) lp s) p.

(** [s.split(sep)] for a one-character separator: never empty. *)
Fixpoint splitAcc (sep : ascii) (cur : string) (s : string) : list string :=
  match s with
  | EmptyString => [cur]
  | String c r =>
      if Ascii.eqb c sep then cur :: splitAcc sep EmptyString r
      else splitAcc sep (cur ++ String c EmptyString)%string r
  end.

Definition split (s : string) (sep : ascii) : list string :=
  splitAcc sep EmptyString s.

(** The character class [[a-zA-Z0-9]]. *)
Definition isAlnum (c : ascii) : bool :=
  let n := nat_of_ascii c in
  ((48 <=? n) && (n <=? 57) || (65 <=? n) && (n <=? 90)
   || (97 <=? n) && (n <=? 122))%nat.

(** [Array.prototype.includes] on strings. *)
Definition arrIncludes (l : list string) (x : string) : bool :=
  existsb (String.eqb x) l.

(** [n.toString()] for a non-negative integer. *)
Definition natToString (n : nat) : string :=
  NilZero.string_of_uint (Nat.to_uint n).

(** [z.toString()]. *)
Definition numToString (z : Z) : string :=
  NilZero.string_of_int (Z.to_int z).

(** Truthiness of a string value. *)
Definition truthy (s : string) : bool := negb (String.eqb s "").

End Js.

(* ================================================================== *)
(** ** Model-name validation (detector: model identification) *)
(* ================================================================== *)

Module ModelName.

Definition mimeTypePrefixes : list string :=
  ["application/"; "image/"; "text/"; "font/"; "audio/"; "video/";
   "multipart/"].

(** The anchored literals of [frameworkPatterns]. *)
Definition frameworkPatterns : list string :=
  ["next/"; "react/"; "vue/"; "angular/"; "@angular/"; "lodash/";
   "jquery/"; "bootstrap/"; "tailwind/"].

(** The alternatives of [/^(text|bg|...|h)-/]. *)
Definition cssPrefixes : list string :=
  ["text"; "bg"; "border"; "shadow"; "rounded"; "flex"; "grid"; "gap";
   "p"; "m"; "w"; "h"].

Definition invalidNames : list string :=
  ["n/a"; "none"; "null"; "undefined"; "todo"; "fixme"; "tbd"].

(** The alternatives of [/\.(js|ts|...|yaml)$/i]. *)
Definition fileExtensions : list string :=
  ["js"; "ts"; "jsx"; "tsx"; "py"; "java"; "go"; "css"; "html"; "json";
   "xml"; "yml"; "yaml"].

Definition firstIsAlnum (s : string) : bool :=
  match s with
  | EmptyString => false
  | String c _ => Js.isAlnum c
  end.

Definition isValidModelName (name provider : string) : bool :=
  if negb (Js.truthy name) then false
  else if negb (String.eqb provider "HuggingFace") then true
  else
    let lowerName := Js.toLowerCase name in
    if existsb (fun prefix => Js.startsWith lowerName prefix) mimeTypePrefixes
    then false
    else if existsb (fun pattern => Js.startsWith lowerName pattern)
              frameworkPatterns
    then false
    else if existsb (fun p => Js.startsWith lowerName (p ++ "-")%string) cssPrefixes
    then false
    else if Js.arrIncludes invalidNames lowerName then false
    else
      match Js.split name "/" with
      | [org; model] =>
          if (String.length org <? 2)%nat || (50 <? String.length org)%nat
             || negb (firstIsAlnum org)
          then false
          else if (String.length model <? 2)%nat
                  || (100 <? String.length model)%nat
          then false
          else if Js.includes name "://" || Js.includes name "www."
                  || Js.includes name ".com" || Js.includes name ".org"
          then false
          else if existsb
                    (fun e => Js.endsWith (Js.toLowerCase name) ("." ++ e)%string)
                    fileExtensions
          then false
          else true
      | _ => false
      end.

End ModelName.

(* ================================================================== *)
(** ** Containers: [Map] and [Set] with string keys *)
(* ================================================================== *)

Module JsMap.

(** A [Map] keyed by strings; iteration follows insertion order and
    [set] on a key already present replaces the value in place. *)
Definition t (V : Type) : Type := list (string * V).

Fixpoint get {V} (m : t V) (k : string) : option V :=
  match m with
  | [] => None
  | (k', v) :: r => if String.eqb k' k then Some v else get r k
  end.

Definition has {V} (m : t V) (k : string) : bool :=
  match get m k with Some _ => true | None => false end.

Fixpoint set {V} (m : t V) (k : string) (v : V) : t V :=
  match m with
  | [] => [(k, v)]
  | (k', v') :: r =>
      if String.eqb k' k then (k, v) :: r else (k', v') :: set r k v
  end.

Definition keys {V} (m : t V) : list string := map fst m.
Definition values {V} (m : t V) : list V := map snd m.

End JsMap.

Module JsSet.

Definition t : Type := list string.

Definition has (s : t) (x : string) : bool := existsb (String.eqb x) s.

Definition add (s : t) (x : string) : t := if has s x then s else s ++ [x].

Definition addAll (s : t) (xs : list string) : t := fold_left add xs s.

End JsSet.

(* ================================================================== *)
(** ** Data model: findings *)
(* ================================================================== *)

Record Evidence := mkEvidence {
  file : string;
  line : option nat;
  snippet : option string;
  url : option string
}.

(** [dependencyInfo]: the fields every producer sets. [version] is a
    string whose emptiness is its JavaScript falsiness. *)
Record DependencyInfo := mkDependencyInfo {
  name : string;
  version : string;
  ecosystem : string;
  source : string
}.

Record RelatedModel := mkRelatedModel {
  rm_provider : string;
  rm_modelName : string
}.

Record HuggingFaceInfo := mkHuggingFaceInfo {
  pipeline_tag : option string;
  library_name : option string;
  hf_author : option string;
  license : option string;
  tags : option (list string);
  downloads : option Z;
  likes : option Z;
  verified : bool
}.

Record ModelInfo := mkModelInfo {
  provider : string;
  modelName : string;
  modelType : option string;
  huggingface : option HuggingFaceInfo;
  locations : list Evidence;
  detectionSource : option string;
  relatedModels : list RelatedModel
}.

Record HardwareInfo := mkHardwareInfo {
  hw_type : string;
  hw_libraries : list string
}.

Record InfraInfo := mkInfraInfo {
  infra_type : string;
  infra_platforms : list string
}.

Record RiskInfo := mkRiskInfo {
  risk_type : string;
  risk_count : nat
}.

Record CodeUsage := mkCodeUsage {
  files : list string;
  cu_locations : list Evidence
}.

Record Finding := mkFinding {
  id : string;
  title : string;
  category : string;
  severity : string;
  weight : Z;
  description : string;
  evidence : list Evidence;
  dependencyInfo : option DependencyInfo;
  modelInfo : option ModelInfo;
  hardwareInfo : option HardwareInfo;
  infraInfo : option InfraInfo;
  riskInfo : option RiskInfo;
  codeUsage : option CodeUsage;
  filesFound : option nat
}.

(** A finding carrying only the common fields. *)
Definition plainFinding (i t c s : string) (w : Z) (d : string)
    (ev : list Evidence) : Finding :=
  mkFinding i t c s w d ev None None None None None None None.

(* ================================================================== *)
(** ** Scoring (js/analyzer.js) *)
(* ================================================================== *)

Definition calculateScore (findings : list Finding) : Z :=
  fold_left (fun sum finding => (sum + weight finding)%Z) findings 0%Z.

Inductive ConfidenceLevel := VeryHigh | High | Low | NoDetection.

Definition getConfidenceLevel (score : Z) : ConfidenceLevel :=
  if (10 <=? score)%Z then VeryHigh
  else if (5 <=? score)%Z then High
  else if (1 <=? score)%Z then Low
  else NoDetection.

(* ================================================================== *)
(** ** Finding reconciler (js/analyzer.js, mergeDependencyAndCodeFindings) *)
(* ================================================================== *)

Module Reconciler.

(** First pass: package name (lower case) -> dependency finding. *)
Definition collectDependency (dependencyMap : JsMap.t Finding)
    (finding : Finding) : JsMap.t Finding :=
  match dependencyInfo finding with
  | Some info =>
      if String.eqb (category finding) "dependencies" then
        let pkgName := Js.toLowerCase (name info) in
        JsMap.set dependencyMap pkgName finding
      else dependencyMap
  | None => dependencyMap
  end.

Definition buildDependencyMap (findings : list Finding) : JsMap.t Finding :=
  fold_left collectDependency findings [].

(** The [matches] expression of the second pass. *)
Definition matches (title depNameLower : string) : bool :=
  (Js.includes title "langchain" && Js.includes depNameLower "langchain")
  || (Js.includes title "openai" && negb (Js.includes title "compatible")
      && Js.includes depNameLower "openai")
  || (Js.includes title "anthropic" && Js.includes depNameLower "anthropic")
  || (Js.includes title "google" && Js.includes depNameLower "google")
  || (Js.includes title "cohere" && Js.includes depNameLower "cohere")
  || (Js.includes title "mistral" && Js.includes depNameLower "mistral")
  || (Js.includes title "huggingface"
      && (Js.includes depNameLower "transformers"
          || Js.includes depNameLower "huggingface"))
  || (Js.includes title "litellm" && Js.includes depNameLower "litellm").

(** [codeMap.get(k).push(finding)], creating the entry when absent. *)
Definition pushCode (codeMap : JsMap.t (list Finding)) (depPkgName : string)
    (finding : Finding) : JsMap.t (list Finding) :=
  let codeMap' :=
    if negb (JsMap.has codeMap depPkgName)
    then JsMap.set codeMap depPkgName [] else codeMap in
  match JsMap.get codeMap' depPkgName with
  | Some l => JsMap.set codeMap' depPkgName (l ++ [finding])
  | None => codeMap'
  end.

(** Second pass, body of the outer [forEach]. *)
Definition matchCode (dependencyMap : JsMap.t Finding)
    (codeMap : JsMap.t (list Finding)) (finding : Finding)
    : JsMap.t (list Finding) :=
  if String.eqb (category finding) "code" && Js.truthy (title finding) then
    let title := Js.toLowerCase (title finding) in
    if Js.includes title "openai-compatible" || Js.includes title "compatible"
    then codeMap
    else
      fold_left
        (fun codeMap (entry : string * Finding) =>
           let depPkgName := fst entry in
           let depNameLower := Js.toLowerCase depPkgName in
           if matches title depNameLower
           then pushCode codeMap depPkgName finding
           else codeMap)
        dependencyMap codeMap
  else codeMap.

Definition buildCodeMap (dependencyMap : JsMap.t Finding)
    (findings : list Finding) : JsMap.t (list Finding) :=
  fold_left (matchCode dependencyMap) findings [].

Definition mergedDescription (info : DependencyInfo) : string :=
  (name info
   ++ (if Js.truthy (version info) then " (" ++ version info ++ ")" else "")
   ++ " is installed and used in code")%string.

(** The unified finding built for a dependency with code usage. When
    the dependency finding has no payload the map never holds it; the
    name is then the empty string. *)
Definition mergedFinding (depFinding : Finding) (codeFindings : list Finding)
    : Finding :=
  let info :=
    match dependencyInfo depFinding with
    | Some i => i
    | None => mkDependencyInfo "" "" "" ""
    end in
  {| id := id depFinding;
     title := (name info ++ " - Usage Detected")%string;
     category := "dependencies";
     severity := "high";
     weight := weight depFinding;
     description := mergedDescription info;
     evidence := evidence depFinding ++ flat_map evidence codeFindings;
     dependencyInfo := dependencyInfo depFinding;
     modelInfo := None;
     hardwareInfo := None;
     infraInfo := None;
     riskInfo := None;
     codeUsage :=
       Some {| files := flat_map (fun cf => map file (evidence cf)) codeFindings;
               cu_locations := flat_map evidence codeFindings |};
     filesFound := None |}.

(** Third pass, body of [dependencyMap.forEach]: the state is the
    output list and the set of processed code ids. ([processedDeps] is
    only ever written.) *)
Definition mergeEntry (codeMap : JsMap.t (list Finding))
    (st : list Finding * JsSet.t) (entry : string * Finding)
    : list Finding * JsSet.t :=
  let '(merged, processedCode) := st in
  let '(pkgName, depFinding) := entry in
  let codeFindings :=
    match JsMap.get codeMap pkgName with Some l => l | None => [] end in
  if (0 <? List.length codeFindings)%nat then
    (merged ++ [mergedFinding depFinding codeFindings],
     JsSet.addAll processedCode (map id codeFindings))
  else (merged ++ [depFinding], processedCode).

(** Last pass: code findings not merged, and every other category. *)
Definition keepRest (processedCode : JsSet.t) (merged : list Finding)
    (finding : Finding) : list Finding :=
  if String.eqb (category finding) "code"
     && negb (JsSet.has processedCode (id finding))
  then merged ++ [finding]
  else if negb (String.eqb (category finding) "dependencies")
          && negb (String.eqb (category finding) "code")
  then merged ++ [finding]
  else merged.

Definition mergeDependencyAndCodeFindings (findings : list Finding)
    : list Finding :=
  let dependencyMap := buildDependencyMap findings in
  let codeMap := buildCodeMap dependencyMap findings in
  let '(merged, processedCode) :=
    fold_left (mergeEntry codeMap) dependencyMap ([], []) in
  fold_left (keepRest processedCode) findings merged.

End Reconciler.

(* ================================================================== *)
(** ** Risk assessment unit: the findings it creates *)
(* ================================================================== *)

Record DocExtract := mkDocExtract {
  doc_file : string;
  text : string
}.

Record ParsedDocs := mkParsedDocs {
  pd_files : list string;
  intendedUse : list DocExtract;
  limitations : list DocExtract;
  ethicalConsiderations : list DocExtract;
  biasInformation : list DocExtract;
  securityNotes : list DocExtract
}.

Module Risk.

(** [docs.slice(0, 3).map(d => ({file, snippet: text.substring(0, 200)}))] *)
Definition docEvidence (docs : list DocExtract) : list Evidence :=
  map (fun d => mkEvidence (doc_file d)
                  None (Some (String.substring 0 200 (text d))) None)
      (firstn 3 docs).

Definition governanceFinding (i t d : string) (docs : list DocExtract)
    (kind : string) : Finding :=
  {| id := i; title := t; category := "governance"; severity := "info";
     weight := 0%Z;
     description := (d ++ Js.natToString (List.length docs)
                       ++ " location(s)")%string;
     evidence := docEvidence docs;
     dependencyInfo := None; modelInfo := None; hardwareInfo := None;
     infraInfo := None;
     riskInfo := Some (mkRiskInfo kind (List.length docs));
     codeUsage := None; filesFound := None |}.

(** The findings the risk detector returns: only positive indicators
    from the parsed documentation; missing documentation is logged,
    never turned into a finding. *)
Definition riskFindings (parsedDocs : ParsedDocs) : list Finding :=
  (if (0 <? List.length (limitations parsedDocs))%nat then
     [governanceFinding "risk-limitations-documented"
        "Limitations Documented"
        "Model limitations are documented in "
        (limitations parsedDocs) "limitations"]
   else [])
  ++ (if (0 <? List.length (biasInformation parsedDocs))%nat then
        [governanceFinding "risk-bias-documented"
           "Bias/Fairness Documented"
           "Bias and fairness considerations documented in "
           (biasInformation parsedDocs) "bias-fairness"]
      else [])
  ++ (if (0 <? List.length (ethicalConsiderations parsedDocs))%nat then
        [governanceFinding "risk-ethics-documented"
           "Ethical Considerations Documented"
           "Ethical considerations documented in "
           (ethicalConsiderations parsedDocs) "ethical"]
      else []).

End Risk.

(* ================================================================== *)
(** ** BOM synthesis and serializers (js/utils.js) *)
(* ================================================================== *)

Record Repository := mkRepository {
  owner : string;
  repo : string;
  fullName : string;
  htmlUrl : string;
  repo_description : string
}.

Module Bom.

(** A property value before it is written out: a string, or the
    related-models array handed to [JSON.stringify]. *)
Inductive PropValue :=
| PStr (s : string)
| PJson (related : list RelatedModel).

Record ExternalReference := mkExternalReference {
  er_comment : option string;
  er_type : string;
  er_url : string
}.

(** A CycloneDX component as [createMLModelComponents] builds it (the
    [modelCard] sub-object, which no relationship depends on, is left
    out). *)
Record Component := mkComponent {
  c_type : string;
  bom_ref : string;
  author : option string;
  group : option string;
  c_name : string;
  c_version : option string;
  c_description : option string;
  scope : option string;
  purl : option string;
  properties : list (string * PropValue);
  licenses : option string;
  externalReferences : list ExternalReference
}.

Record ModelRef := mkModelRef {
  component : Component;
  bomRef : string
}.

(** The source of random short identifiers: the [n]-th call of
    [generateShortId] returns [ids n]. *)
Definition IdSupply := nat -> string.

Definition strTruthy (o : option string) : option string :=
  match o with
  | Some s => if Js.truthy s then Some s else None
  | None => None
  end.

Definition last_or (l : list string) (d : string) : string := last l d.

Definition nameCategory (mi : ModelInfo) : list (string * PropValue) :=
  if Js.includes (modelName mi) "gpt"
  then [("category", PStr "text-generation")]
  else if Js.includes (modelName mi) "embed"
  then [("category", PStr "embeddings")]
  else [].

(** The ML category property: explicit type, else the registry's
    pipeline tag, else inferred from the model name. *)
Definition categoryProperty (mi : ModelInfo) : list (string * PropValue) :=
  let explicit :=
    match strTruthy (modelType mi) with
    | Some t => if negb (String.eqb t "unknown") then Some t else None
    | None => None
    end in
  match explicit with
  | Some t => [("category", PStr t)]
  | None =>
      match huggingface mi with
      | Some hf =>
          match strTruthy (pipeline_tag hf) with
          | Some tag => [("category", PStr tag)]
          | None => nameCategory mi
          end
      | None => nameCategory mi
      end
  end.

Definition intendedUseProperty (mi : ModelInfo) : list (string * PropValue) :=
  let mt := match modelType mi with Some t => t | None => "" end in
  if String.eqb mt "text-generation" then
    [("intended-use",
      PStr "Text generation, chat completion, and language understanding")]
  else if String.eqb mt "embeddings" then
    [("intended-use",
      PStr "Text embeddings for semantic search, similarity, and vector databases")]
  else if String.eqb mt "text-to-image" then
    [("intended-use", PStr "Image generation from text descriptions")]
  else if String.eqb (provider mi) "OpenAI" then
    [("intended-use", PStr "General purpose AI model from OpenAI")]
  else if String.eqb (provider mi) "Anthropic" then
    [("intended-use",
      PStr "Safe and helpful AI assistant for various text tasks")]
  else if String.eqb (provider mi) "Google" then
    [("intended-use", PStr "Google AI model for various AI tasks")]
  else [].

Definition modelPurl (mi : ModelInfo) : option string :=
  if String.eqb (provider mi) "HuggingFace" then
    match huggingface mi with
    | Some _ => Some ("pkg:huggingface/" ++ modelName mi)%string
    | None => None
    end
  else if String.eqb (provider mi) "OpenAI"
  then Some ("pkg:ml/openai/" ++ modelName mi)%string
  else if String.eqb (provider mi) "Anthropic"
  then Some ("pkg:ml/anthropic/" ++ modelName mi)%string
  else if String.eqb (provider mi) "Google"
  then Some ("pkg:ml/google/" ++ modelName mi)%string
  else None.

Definition modelExternalReferences (mi : ModelInfo) : list ExternalReference :=
  if String.eqb (provider mi) "HuggingFace" then
    [mkExternalReference (Some "Model source") "vcs"
       ("https://huggingface.co/" ++ modelName mi)%string]
  else if String.eqb (provider mi) "OpenAI" then
    [mkExternalReference (Some "API Documentation") "documentation"
       "https://platform.openai.com/docs/models"]
  else if String.eqb (provider mi) "Anthropic" then
    [mkExternalReference (Some "Model Documentation") "documentation"
       "https://docs.anthropic.com/claude/docs/models-overview"]
  else if String.eqb (provider mi) "Google" then
    [mkExternalReference (Some "Model Documentation") "documentation"
       "https://ai.google.dev/models"]
  else [].

Definition optNum (o : option Z) : string :=
  match o with
  | Some z => Js.numToString z
  | None => "0"
  end.

(** [locations.forEach((loc, idx) => ...)] for [idx < limit]; [base] is
    what is added to the index in the property name. *)
Fixpoint evidenceProperties (locPrefix snipPrefix : string) (base : nat)
    (limit : nat) (idx : nat) (evs : list Evidence)
    : list (string * PropValue) :=
  match evs with
  | [] => []
  | ev :: r =>
      (if (idx <? limit)%nat then
         let location :=
           match line ev with
           | Some l =>
               if (0 <? l)%nat
               then (file ev ++ ":" ++ Js.natToString l)%string
               else file ev
           | None => file ev
           end in
         ((locPrefix ++ Js.natToString (idx + base))%string, PStr location)
         :: match strTruthy (snippet ev) with
            | Some sn =>
                [((snipPrefix ++ Js.natToString (idx + base))%string, PStr sn)]
            | None => []
            end
       else [])
      ++ evidenceProperties locPrefix snipPrefix base limit (S idx) r
  end.

(** The component created for the first finding of a model key. *)
Definition modelComponent (finding : Finding) (mi : ModelInfo)
    (bomRef : string) : Component :=
  let isHf := String.eqb (provider mi) "HuggingFace" in
  let hfPresent := match huggingface mi with Some _ => true | None => false end in
  {| c_type := "machine-learning-model";
     bom_ref := bomRef;
     author := Some (provider mi);
     group :=
       if isHf && hfPresent then
         match huggingface mi with
         | Some hf =>
             match strTruthy (hf_author hf) with
             | Some a => Some a
             | None => Some (hd "" (Js.split (modelName mi) "/"))
             end
         | None => None
         end
       else None;
     c_name :=
       if isHf && hfPresent
       then last_or (Js.split (modelName mi) "/") ""
       else modelName mi;
     c_version := Some "latest";
     c_description := Some (description finding);
     scope := Some "required";
     purl := modelPurl mi;
     properties :=
       (match strTruthy (detectionSource mi) with
        | Some src => [("cdx:detection:source", PStr src)]
        | None => []
        end)
       ++ (match relatedModels mi with
           | [] => []
           | rms => [("cdx:related:models", PJson rms)]
           end)
       ++ categoryProperty mi
       ++ intendedUseProperty mi
       ++ [("cdx:detection:method", PStr "automated-code-analysis");
           ("cdx:detection:confidence", PStr (severity finding));
           ("cdx:detection:weight", PStr (Js.numToString (weight finding)))]
       ++ (match huggingface mi with
           | Some hf =>
               [("huggingface:downloads", PStr (optNum (downloads hf)));
                ("huggingface:likes", PStr (optNum (likes hf)))]
           | None => []
           end)
       ++ evidenceProperties "evidence:location:" "evidence:snippet:" 1 5 0
            (locations mi);
     licenses :=
       match huggingface mi with
       | Some hf => strTruthy (license hf)
       | None => None
       end;
     externalReferences := modelExternalReferences mi |}.

(** The library or framework component of a finding without model
    payload. *)
Definition genericComponent (finding : Finding) (shortId : string)
    : Component :=
  {| c_type :=
       if String.eqb (category finding) "dependencies"
       then "library" else "framework";
     bom_ref := ("component-" ++ shortId)%string;
     author := None;
     group := None;
     c_name := title finding;
     c_version := Some "detected";
     c_description := Some (description finding);
     scope := Some "required";
     purl := None;
     properties :=
       [("cdx:detection:category", PStr (category finding));
        ("cdx:detection:severity", PStr (severity finding));
        ("cdx:detection:weight", PStr (Js.numToString (weight finding)))]
       ++ evidenceProperties "cdx:evidence:location:" "cdx:evidence:snippet:"
            0 3 0 (evidence finding);
     licenses := None;
     externalReferences := [] |}.

(** [knownLibraries]: the canonical library vocabulary. *)
Record LibInfo := mkLibInfo {
  lib_name : string;
  lib_description : string;
  lib_purl : string;
  lib_url : string
}.

Definition knownLibraries (lib : string) : option LibInfo :=
  if String.eqb lib "transformers" then
    Some (mkLibInfo "Transformers"
            "State-of-the-art Machine Learning for PyTorch, TensorFlow, and JAX"
            "pkg:pypi/transformers" "https://huggingface.co/docs/transformers")
  else if String.eqb lib "pytorch" then
    Some (mkLibInfo "PyTorch"
            "Tensors and Dynamic neural networks in Python with strong GPU acceleration"
            "pkg:pypi/torch" "https://pytorch.org")
  else if String.eqb lib "tensorflow" then
    Some (mkLibInfo "TensorFlow"
            "An Open Source Machine Learning Framework for Everyone"
            "pkg:pypi/tensorflow" "https://tensorflow.org")
  else if String.eqb lib "diffusers" then
    Some (mkLibInfo "Diffusers"
            "State-of-the-art diffusion models for image and audio generation"
            "pkg:pypi/diffusers" "https://huggingface.co/docs/diffusers")
  else if String.eqb lib "sentence-transformers" then
    Some (mkLibInfo "Sentence Transformers"
            "Compute dense vector representations for sentences, paragraphs, and images"
            "pkg:pypi/sentence-transformers" "https://www.sbert.net")
  else None.

(** Libraries named by one dependency finding's description. *)
Definition describedLibraries (finding : Finding) : list string :=
  if String.eqb (category finding) "dependencies" then
    let desc := Js.toLowerCase (description finding) in
    (if Js.includes desc "transformers" then ["transformers"] else [])
    ++ (if Js.includes desc "torch" || Js.includes desc "pytorch"
        then ["pytorch"] else [])
    ++ (if Js.includes desc "tensorflow" then ["tensorflow"] else [])
    ++ (if Js.includes desc "diffusers" then ["diffusers"] else [])
    ++ (if Js.includes desc "sentence-transformers"
        then ["sentence-transformers"] else [])
  else [].

Definition libraryComponent (lib : string) (libInfo : LibInfo) : Component :=
  {| c_type := "library";
     bom_ref := ("lib-" ++ lib)%string;
     author := None; group := None;
     c_name := lib_name libInfo;
     c_version := None;
     c_description := Some (lib_description libInfo);
     scope := None;
     purl := Some (lib_purl libInfo);
     properties := [];
     licenses := None;
     externalReferences :=
       [mkExternalReference None "website" (lib_url libInfo)] |}.

Definition createLibraryComponents (libraryDeps : JsSet.t)
    (findings : list Finding) : list Component :=
  let libraryDeps :=
    fold_left (fun deps finding => JsSet.addAll deps (describedLibraries finding))
      findings libraryDeps in
  flat_map (fun lib =>
              match knownLibraries lib with
              | Some libInfo => [libraryComponent lib libInfo]
              | None => []
              end) libraryDeps.

(** State of the loop of [createMLModelComponents]; [nextId] counts the
    calls made to [generateShortId]. *)
Record Synth := mkSynth {
  components : list Component;
  modelMap : JsMap.t ModelRef;
  libraryDeps : JsSet.t;
  nextId : nat
}.

Definition synthStep (ids : IdSupply) (st : Synth) (finding : Finding)
    : Synth :=
  match modelInfo finding with
  | Some mi =>
      let key := (provider mi ++ "-" ++ modelName mi)%string in
      if negb (JsMap.has (modelMap st) key) then
        let bomRef := ("model-" ++ ids (nextId st))%string in
        let component := modelComponent finding mi bomRef in
        {| components := components st;
           modelMap := JsMap.set (modelMap st) key (mkModelRef component bomRef);
           libraryDeps :=
             if String.eqb (provider mi) "HuggingFace" then
               match match huggingface mi with
                     | Some hf => strTruthy (library_name hf)
                     | None => None
                     end with
               | Some l => JsSet.add (libraryDeps st) l
               | None => JsSet.add (libraryDeps st) "transformers"
               end
             else libraryDeps st;
           nextId := S (nextId st) |}
      else st
  | None =>
      {| components :=
           components st ++ [genericComponent finding (ids (nextId st))];
         modelMap := modelMap st;
         libraryDeps := libraryDeps st;
         nextId := S (nextId st) |}
  end.

Record MLComponents := mkMLComponents {
  ml_components : list Component;
  modelRefs : list ModelRef;
  libraryRefs : list Component;
  ml_nextId : nat
}.

(** [createMLModelComponents], started when [start] identifiers have
    already been drawn. *)
Definition createMLModelComponents (ids : IdSupply) (start : nat)
    (findings : list Finding) : MLComponents :=
  let st := fold_left (synthStep ids) findings (mkSynth [] [] [] start) in
  let models := map component (JsMap.values (modelMap st)) in
  let libraryComponents := createLibraryComponents (libraryDeps st) findings in
  {| ml_components := components st ++ models ++ libraryComponents;
     modelRefs := JsMap.values (modelMap st);
     libraryRefs := libraryComponents;
     ml_nextId := nextId st |}.

(** One entry of the [dependencies] array. *)
Record Dependency := mkDependency {
  ref : string;
  dependsOn : list string
}.

(** The components and relationships of a CycloneDX document. *)
Record CycloneDX := mkCycloneDX {
  mainRef : string;
  bom_components : list Component;
  dependencies : list Dependency
}.

Definition propName (p : string * PropValue) : string := fst p.

(** [properties.find(p => p.name === 'category')?.value] *)
Definition categoryOf (c : Component) : option PropValue :=
  match find (fun p => String.eqb (propName p) "category") (properties c) with
  | Some p => Some (snd p)
  | None => None
  end.

Definition isCategory (c : Component) (cat : string) : bool :=
  match categoryOf c with
  | Some (PStr v) => String.eqb v cat
  | _ => false
  end.

Definition repoRef (repository : Repository) : string :=
  ("repo-" ++ owner repository ++ "-" ++ repo repository)%string.

(** Library dependencies of a model in the JSON serializer. *)
Definition jsonModelDeps (libraryRefIds : list string) (model : ModelRef)
    : list string :=
  let modelComp := component model in
  if isCategory modelComp "text-generation"
     || isCategory modelComp "feature-extraction" then
    (if Js.arrIncludes libraryRefIds "lib-transformers"
     then ["lib-transformers"] else [])
    ++ (if Js.arrIncludes libraryRefIds "lib-pytorch"
        then ["lib-pytorch"] else [])
  else if isCategory modelComp "text-to-image" then
    (if Js.arrIncludes libraryRefIds "lib-diffusers"
     then ["lib-diffusers"] else [])
    ++ (if Js.arrIncludes libraryRefIds "lib-pytorch"
        then ["lib-pytorch"] else [])
  else [].

(** [generateCycloneDXJson]: the document before [JSON.stringify]. *)
Definition generateCycloneDXJson (ids : IdSupply) (start : nat)
    (repository : Repository) (selectedFindings : list Finding) : CycloneDX :=
  let ml := createMLModelComponents ids start selectedFindings in
  let mainRef := repoRef repository in
  let libraryRefIds := map bom_ref (libraryRefs ml) in
  {| mainRef := mainRef;
     bom_components := ml_components ml;
     dependencies :=
       [mkDependency mainRef (map bom_ref (ml_components ml))]
       ++ map (fun model =>
                 mkDependency (bomRef model) (jsonModelDeps libraryRefIds model))
            (modelRefs ml)
       ++ map (fun lib => mkDependency (bom_ref lib) []) (libraryRefs ml) |}.

(** Library dependencies of a model in the XML serializer. *)
Definition xmlModelDeps (libraryRefIds : list string) (model : ModelRef)
    : list string :=
  let modelComp := component model in
  if isCategory modelComp "text-generation"
     || isCategory modelComp "feature-extraction" then
    (if Js.arrIncludes libraryRefIds "lib-transformers"
     then ["lib-transformers"] else [])
    ++ (if Js.arrIncludes libraryRefIds "lib-pytorch"
        then ["lib-pytorch"] else [])
  else if isCategory modelComp "text-to-image" then
    (if Js.arrIncludes libraryRefIds "lib-diffusers"
     then ["lib-diffusers"] else [])
  else [].

(** [generateCycloneDXXml]: the element tree before it is printed. The
    component list comes from a first call of
    [createMLModelComponents], the model and library references of the
    [dependencies] element from a second one. *)
Definition generateCycloneDXXml (ids : IdSupply) (start : nat)
    (repository : Repository) (selectedFindings : list Finding) : CycloneDX :=
  let first := createMLModelComponents ids start selectedFindings in
  let components := ml_components first in
  let second :=
    createMLModelComponents ids (ml_nextId first) selectedFindings in
  let libraryRefIds := map bom_ref (libraryRefs second) in
  {| mainRef := repoRef repository;
     bom_components := components;
     dependencies :=
       [mkDependency (repoRef repository) (map bom_ref components)]
       ++ map (fun model =>
                 mkDependency (bomRef model) (xmlModelDeps libraryRefIds model))
            (modelRefs second)
       ++ map (fun lib => mkDependency (bom_ref lib) []) (libraryRefs second) |}.

(** The extended AIBOM wraps the parsed CycloneDX JSON document as its
    [standard_bom]; the metadata sections around it carry no
    component and no relationship. *)
Record ExtendedAIBOM := mkExtendedAIBOM {
  format : string;
  standard_bom : CycloneDX
}.

Definition generateExtendedAIBOM (ids : IdSupply) (start : nat)
    (repository : Repository) (selectedFindings : list Finding)
    : ExtendedAIBOM :=
  {| format := "extended-aibom";
     standard_bom :=
       generateCycloneDXJson ids start repository selectedFindings |}.

(** SPDX 3.0.1: packages and relationships of the [element] array. *)
Record SpdxPackage := mkSpdxPackage {
  spdxId : string;
  spdx_type : string;
  spdx_name : string;
  summary : string;
  packageVersion : string
}.

Record SpdxRelationship := mkSpdxRelationship {
  rel_id : string;
  relationshipType : string;
  rel_from : string;
  rel_to : list string
}.

Record Spdx := mkSpdx {
  spdx_root : string;
  packages : list SpdxPackage;
  relationships : list SpdxRelationship
}.

(** Body of [selectedFindings.forEach((finding, idx) => ...)]. *)
Definition spdxStep (ids : IdSupply) (namespace repoId : string)
    (st : list SpdxPackage * list SpdxRelationship * nat * nat)
    (finding : Finding)
    : list SpdxPackage * list SpdxRelationship * nat * nat :=
  let '(pkgs, rels, idx, next) := st in
  match modelInfo finding with
  | Some mi =>
      let aiId := (namespace ++ "/AIPackage-" ++ ids next)%string in
      let relId := (namespace ++ "/Relationship-" ++ Js.natToString idx)%string in
      (pkgs ++ [mkSpdxPackage aiId "ai_AIPackage" (modelName mi)
                  (description finding) "latest"],
       rels ++ [mkSpdxRelationship relId "dependsOn" repoId [aiId]],
       S idx, S next)
  | None =>
      let libId := (namespace ++ "/Package-" ++ ids next)%string in
      let relId :=
        (namespace ++ "/Relationship-lib-" ++ Js.natToString idx)%string in
      (pkgs ++ [mkSpdxPackage libId "software_Package" (title finding)
                  (description finding) "detected"],
       rels ++ [mkSpdxRelationship relId "dependsOn" repoId [libId]],
       S idx, S next)
  end.

(** [generateSPDX]; [spdxDocId] is the value drawn from
    [generateSPDXId]. *)
Definition generateSPDX (ids : IdSupply) (start : nat) (spdxDocId : string)
    (repository : Repository) (selectedFindings : list Finding) : Spdx :=
  let namespace :=
    ("https://github.com/" ++ owner repository ++ "/" ++ repo repository
     ++ "/spdx/" ++ spdxDocId)%string in
  let repoId := (namespace ++ "/Repository")%string in
  let '(pkgs, rels, _, _) :=
    fold_left (spdxStep ids namespace repoId) selectedFindings
      ([], [], 0, start) in
  {| spdx_root := repoId; packages := pkgs; relationships := rels |}.

(** The relationship set of a CycloneDX document as directed edges. *)
Definition edges (doc : CycloneDX) : list (string * string) :=
  flat_map (fun d => map (fun t => (ref d, t)) (dependsOn d))
    (dependencies doc).

Definition spdxEdges (doc : Spdx) : list (string * string) :=
  flat_map (fun r => map (fun t => (rel_from r, t)) (rel_to r))
    (relationships doc).

(** A component with its random reference blanked: what two documents
    can be compared on. *)
Definition anonymize (c : Component) : Component :=
  {| c_type := c_type c;
     bom_ref :=
       if Js.startsWith (bom_ref c) "lib-" then bom_ref c else "";
     author := author c; group := group c; c_name := c_name c;
     c_version := c_version c; c_description := c_description c;
     scope := scope c; purl := purl c; properties := properties c;
     licenses := licenses c; externalReferences := externalReferences c |}.

End Bom.

(* ================================================================== *)
(** ** Effects: the search service, the clock, thrown errors *)
(* ================================================================== *)

Module Eff.

(** What the run does to the outside: the queries sent to the code
    search service, in order, and the waits it made (milliseconds). *)
Record World := mkWorld {
  searchLog : list string;
  sleeps : list Z
}.

Inductive Outcome (A : Type) :=
| Returned (a : A)
| Threw (err : string).
Arguments Returned {A} a.
Arguments Threw {A} err.

(** A computation that may throw and acts on the world. *)
Definition M (A : Type) : Type := World -> Outcome A * World.

Definition ret {A} (a : A) : M A := fun w => (Returned a, w).

Definition throw {A} (err : string) : M A := fun w => (Threw err, w).

Definition bind {A B} (m : M A) (k : A -> M B) : M B :=
  fun w =>
    match m w with
    | (Returned a, w') => k a w'
    | (Threw e, w') => (Threw e, w')
    end.

(** [try { m } catch (error) { h error }] *)
Definition tryCatch {A} (m : M A) (h : string -> M A) : M A :=
  fun w =>
    match m w with
    | (Returned a, w') => (Returned a, w')
    | (Threw e, w') => h e w'
    end.

(** [await new Promise(resolve => setTimeout(resolve, ms))] *)
Definition sleep (ms : Z) : M unit :=
  fun w => (Returned tt, mkWorld (searchLog w) (sleeps w ++ [ms])).

(** [for (const x of xs) { st = body(st, x) }] *)
Fixpoint forEach {A S} (xs : list A) (body : S -> A -> M S) (st : S) : M S :=
  match xs with
  | [] => ret st
  | x :: r => bind (body st x) (forEach r body)
  end.

End Eff.

Notation "x <- m ;; k" := (Eff.bind m (fun x => k))
  (at level 61, m at next level, right associativity).

(* ================================================================== *)
(** ** Code-usage detection through the search service *)
(* ================================================================== *)

Module CodeSearch.
Import Eff.

Record RateLimit := mkRateLimit {
  remaining : Z;
  limit : Z;
  resetTime : option Z
}.

Record SearchItem := mkSearchItem {
  path : string;
  html_url : option string;
  item_snippet : option string;
  line_number : option nat
}.

(** Result of [searchCodeInRepo]: [false] when the rate limit is hit,
    [null] on no result or transport error, the items otherwise. *)
Inductive SearchResult :=
| RateLimitHit
| NoResult
| SearchOk (items : list SearchItem) (rateLimit : option RateLimit).

(** The search service: its answer may depend on the queries already
    made. *)
Definition Api := list string -> string -> SearchResult.

Definition searchCodeInRepo (api : Api) (query : string) : M SearchResult :=
  fun w =>
    (Returned (api (searchLog w) query),
     mkWorld (searchLog w ++ [query]) (sleeps w)).

Record Query := mkQuery {
  query : string;
  q_provider : string
}.

(** Per-provider accumulator: the set of file infos found so far. *)
Record SdkEntry := mkSdkEntry {
  sdk_provider : string;
  sdk_files : list Evidence
}.

Record ResumeState := mkResumeState {
  sdkFindings : JsMap.t SdkEntry;
  lastSearchIndex : nat;
  lastRateLimit : RateLimit;
  rs_findings : list Finding
}.

Record SearchOutcome := mkSearchOutcome {
  so_findings : list Finding;
  so_paused : bool;
  so_resumeState : option ResumeState
}.

Record SbomDependency := mkSbomDependency {
  sd_name : string;
  sd_version : string;
  sd_ecosystem : string
}.

Definition extensionMap (lang : string) : option (list string) :=
  if String.eqb lang "JavaScript" then Some ["js"; "jsx"; "mjs"; "cjs"]
  else if String.eqb lang "TypeScript" then Some ["ts"; "tsx"]
  else if String.eqb lang "Python" then Some ["py"; "pyw"]
  else if String.eqb lang "Java" then Some ["java"]
  else if String.eqb lang "Go" then Some ["go"]
  else if String.eqb lang "Rust" then Some ["rs"]
  else if String.eqb lang "Ruby" then Some ["rb"]
  else if String.eqb lang "PHP" then Some ["php"]
  else if String.eqb lang "C" then Some ["c"; "h"]
  else if String.eqb lang "C++" then Some ["cpp"; "cc"; "cxx"; "hpp"; "hxx"]
  else if String.eqb lang "C#" then Some ["cs"]
  else if String.eqb lang "Kotlin" then Some ["kt"; "kts"]
  else if String.eqb lang "Scala" then Some ["scala"]
  else if String.eqb lang "Swift" then Some ["swift"]
  else None.

Definition defaultExtensions : string :=
  "extension:py extension:js extension:ts extension:jsx extension:tsx extension:java extension:go".

(** The file extension filter appended to every query. *)
Definition codeExtensionsFor (languages : list string) : string :=
  let extensions :=
    fold_left
      (fun exts lang =>
         match extensionMap lang with
         | Some l =>
             JsSet.addAll exts (map (fun ext => ("extension:" ++ ext)%string) l)
         | None => exts
         end) languages [] in
  let joined := String.concat " " extensions in
  if Js.truthy joined then joined else defaultExtensions.

Definition q (codeExtensions pattern provider : string) : Query :=
  mkQuery (pattern ++ " " ++ codeExtensions)%string provider.

Definition someDep (depNames : list string) (p : string -> bool) : bool :=
  existsb p depNames.

(** Smart mode: targeted searches derived from the SBOM dependencies. *)
Definition smartSearches (codeExtensions : string)
    (detectedDependencies : list SbomDependency) : list Query :=
  let depNames := map (fun d => Js.toLowerCase (sd_name d)) detectedDependencies in
  let inc := Js.includes in
  let openai :=
    if someDep depNames (fun n => inc n "openai" && negb (inc n "langchain"))
    then [q codeExtensions "from openai import" "OpenAI";
          q codeExtensions "openai.chat.completions" "OpenAI";
          q codeExtensions "api.openai.com" "OpenAI"]
    else [] in
  let anthropic :=
    if someDep depNames (fun n => inc n "anthropic")
    then [q codeExtensions "from anthropic import" "Anthropic";
          q codeExtensions "@anthropic-ai/sdk" "Anthropic";
          q codeExtensions "api.anthropic.com" "Anthropic"]
    else [] in
  let langchain :=
    if someDep depNames (fun n => inc n "langchain") then
      [q codeExtensions "from langchain" "LangChain"]
      ++ (if someDep depNames
               (fun n => inc n "langchain-openai" || inc n "langchain_openai")
          then [q codeExtensions "ChatOpenAI" "LangChain-OpenAI"] else [])
      ++ (if someDep depNames
               (fun n => inc n "langchain-google" || inc n "langchain_google")
          then [q codeExtensions "ChatGoogleGenerativeAI" "LangChain-Google"]
          else [])
      ++ (if someDep depNames
               (fun n => inc n "langchain-anthropic"
                         || inc n "langchain_anthropic")
          then [q codeExtensions "ChatAnthropic" "LangChain-Anthropic"]
          else [])
    else [] in
  let google :=
    if someDep depNames
         (fun n => inc n "google" || inc n "generativeai" || inc n "gemini")
    then [q codeExtensions "google.generativeai" "Google";
          q codeExtensions "gemini" "Google"]
    else [] in
  let cohere :=
    if someDep depNames (fun n => inc n "cohere")
    then [q codeExtensions "from cohere import" "Cohere"] else [] in
  let mistral :=
    if someDep depNames (fun n => inc n "mistral")
    then [q codeExtensions "from mistralai import" "Mistral"] else [] in
  let huggingface :=
    if someDep depNames
         (fun n => inc n "transformers" || inc n "diffusers"
                   || inc n "huggingface")
    then [q codeExtensions "from transformers import" "HuggingFace";
          q codeExtensions "AutoModel" "HuggingFace"]
    else [] in
  let searches :=
    openai ++ anthropic ++ langchain ++ google ++ cohere ++ mistral
    ++ huggingface
    ++ [q codeExtensions "/v1/chat/completions" "OpenAI-compatible"] in
  if (10 <? List.length searches)%nat then firstn 10 searches else searches.

(** Fallback mode: the fixed broad query set. *)
Definition fallbackSearches (codeExtensions : string) : list Query :=
  [q codeExtensions "from openai import" "OpenAI";
   q codeExtensions "openai.chat.completions" "OpenAI";
   q codeExtensions "from anthropic import" "Anthropic";
   q codeExtensions "@anthropic-ai/sdk" "Anthropic";
   q codeExtensions "from langchain" "LangChain";
   q codeExtensions "ChatOpenAI" "OpenAI";
   q codeExtensions "google.generativeai" "Google";
   q codeExtensions "api.openai.com" "OpenAI";
   q codeExtensions "api.anthropic.com" "Anthropic";
   q codeExtensions "/v1/chat/completions" "OpenAI-compatible"].

(** The planned queries of one invocation. *)
Definition buildSearches (languages : list string) (sbomAvailable : bool)
    (detectedDependencies : list SbomDependency) : list Query :=
  let codeExtensions := codeExtensionsFor languages in
  if sbomAvailable && (0 <? List.length detectedDependencies)%nat
  then smartSearches codeExtensions detectedDependencies
  else fallbackSearches codeExtensions.

Definition optStrEqb (a b : option string) : bool :=
  match a, b with
  | Some x, Some y => String.eqb x y
  | None, None => true
  | _, _ => false
  end.

Definition optNatEqb (a b : option nat) : bool :=
  match a, b with
  | Some x, Some y => Nat.eqb x y
  | None, None => true
  | _, _ => false
  end.

Definition fileInfoEqb (a b : Evidence) : bool :=
  String.eqb (file a) (file b) && optNatEqb (line a) (line b)
  && optStrEqb (snippet a) (snippet b) && optStrEqb (url a) (url b).

(** [files.add(JSON.stringify(fileInfo))] *)
Definition addFile (files : list Evidence) (fileInfo : Evidence)
    : list Evidence :=
  if existsb (fileInfoEqb fileInfo) files then files else files ++ [fileInfo].

Definition convertSearchToFindings (sdkFindings : JsMap.t SdkEntry)
    : list Finding :=
  flat_map
    (fun entry : string * SdkEntry =>
       let '(key, data) := entry in
       let size := List.length (sdk_files data) in
       if Nat.eqb size 0 then []
       else
         [{| id := ("code-sdk-search-" ++ key)%string;
             title := (sdk_provider data
                       ++ " SDK Usage Detected (via Search API)")%string;
             category := "code";
             severity := "high";
             weight := 5%Z;
             description :=
               ("Found " ++ sdk_provider data ++ " SDK usage in "
                ++ Js.natToString size
                ++ " file(s) using GitHub Search API")%string;
             evidence :=
               map (fun fileInfo =>
                      mkEvidence (file fileInfo) (line fileInfo)
                        (Bom.strTruthy (snippet fileInfo)) (url fileInfo))
                   (firstn 5 (sdk_files data));
             dependencyInfo := None; modelInfo := None;
             hardwareInfo := None; infraInfo := None; riskInfo := None;
             codeUsage := None;
             filesFound := Some size |}])
    sdkFindings.

Definition pausedAt (sdkFindings : JsMap.t SdkEntry) (index : nat)
    (lastRateLimit : RateLimit) (findings : list Finding) : SearchOutcome :=
  {| so_findings := convertSearchToFindings sdkFindings;
     so_paused := true;
     so_resumeState :=
       Some (mkResumeState sdkFindings index lastRateLimit findings) |}.

Section Loop.
Variable api : Api.
(** The file info kept for one result item: its path with the line
    number, URL and snippet the code resolves for it. Where the code
    fetches the file for the line number, errors of the fetch are
    caught; only the resolved value is taken here, and the waiting the
    fetch does on its own is not recorded in the world. *)
Variable resolveFileInfo : SearchItem -> Evidence.
Variable findings : list Finding.

(** The body of [for (let i = startIdx; i < searches.length; i++)],
    on the queries from index [i] on. *)
Fixpoint searchLoop (rest : list Query) (i : nat)
    (sdkFindings : JsMap.t SdkEntry) (lastRateLimit : RateLimit)
    : M SearchOutcome :=
  match rest with
  | [] => ret (mkSearchOutcome (convertSearchToFindings sdkFindings)
                 false None)
  | search :: rest' =>
      result <- searchCodeInRepo api (query search) ;;
      match result with
      | RateLimitHit =>
          ret (pausedAt sdkFindings i lastRateLimit findings)
      | NoResult => searchLoop rest' (S i) sdkFindings lastRateLimit
      | SearchOk items rateLimit =>
          let lastRateLimit' :=
            match rateLimit with Some r => r | None => lastRateLimit end in
          if match rateLimit with
             | Some r => Z.eqb (remaining r) 0
             | None => false
             end
          then ret (pausedAt sdkFindings (i + 1) lastRateLimit' findings)
          else
            let key := (q_provider search ++ "-search")%string in
            let sdkFindings1 :=
              if negb (JsMap.has sdkFindings key)
              then JsMap.set sdkFindings key
                     (mkSdkEntry (q_provider search) [])
              else sdkFindings in
            let sdkFindings2 :=
              fold_left
                (fun m item =>
                   match JsMap.get m key with
                   | Some e =>
                       JsMap.set m key
                         (mkSdkEntry (sdk_provider e)
                            (addFile (sdk_files e) (resolveFileInfo item)))
                   | None => m
                   end) items sdkFindings1 in
            searchLoop rest' (S i) sdkFindings2 lastRateLimit'
      end
  end.
End Loop.

Definition searchCodeViaAPI (api : Api)
    (resolveFileInfo : SearchItem -> Evidence)
    (resumeState : option ResumeState) (languages : list string)
    (sbomAvailable : bool) (detectedDependencies : list SbomDependency)
    : M SearchOutcome :=
  let findings :=
    match resumeState with Some rs => rs_findings rs | None => [] end in
  let sdkFindings :=
    match resumeState with Some rs => sdkFindings rs | None => [] end in
  let searches := buildSearches languages sbomAvailable detectedDependencies in
  let startIdx :=
    match resumeState with Some rs => lastSearchIndex rs | None => 0 end in
  let lastRateLimit :=
    match resumeState with
    | Some rs => lastRateLimit rs
    | None => mkRateLimit 10 10 None
    end in
  searchLoop api resolveFileInfo findings (skipn startIdx searches) startIdx
    sdkFindings lastRateLimit.

End CodeSearch.

(* ================================================================== *)
(** ** Pipeline orchestrator (js/analyzer.js, analyzeRepository) *)
(* ================================================================== *)

Module Pipeline.
Import Eff CodeSearch.

Record TreeEntry := mkTreeEntry {
  te_path : string;
  te_size : option nat
}.

Record RepoMeta := mkRepoMeta {
  meta_fullName : string;
  meta_htmlUrl : string;
  meta_description : string;
  meta_languages : list string
}.

(** The input of an analysis; [getFileContent] is part of what the
    unit functions below stand for. *)
Record AnalysisInput := mkAnalysisInput {
  repoMeta : RepoMeta;
  tree : list TreeEntry;
  in_owner : string;
  in_repo : string;
  token : option string
}.

(** What a unit receives: the base input and the context fields its
    capability flags select ([None]: field absent). *)
Record DetectorInput := mkDetectorInput {
  base : AnalysisInput;
  in_aiFilesFound : option (list string);
  in_allFindings : option (list Finding);
  in_sbomAvailable : option bool;
  in_detectedDependencies : option (list SbomDependency);
  in_parsedDocs : option (option ParsedDocs);
  in_resumeState : option ResumeState
}.

(** An object result carrying a [findings] field. *)
Record ResultObject := mkResultObject {
  r_findings : list Finding;
  r_aiFilesFound : option (list string);
  r_sbomAvailable : option bool;
  r_dependencies : option (list SbomDependency);
  r_parsedDocs : option ParsedDocs;
  r_paused : bool;
  r_resumeState : option ResumeState
}.

(** The shapes a unit's result can take. *)
Inductive DetectorResult :=
| ResArray (findings : list Finding)
| ResObject (result : ResultObject)
| ResDocs (docs : ParsedDocs)
| ResOther.

Definition UnitFn := DetectorInput -> M DetectorResult.

Record Detector := mkDetector {
  det_name : string;
  fn : UnitFn;
  canResume : bool;
  needsDependencies : bool;
  needsAIFiles : bool;
  needsAllFindings : bool;
  isParser : bool;
  needsParsedDocs : bool
}.

(** The twelve unit functions. *)
Record Units := mkUnits {
  dependenciesDetector : UnitFn;
  codeDetector : UnitFn;
  metadataDetector : UnitFn;
  modelsIdentifierDetector : UnitFn;
  configDetector : UnitFn;
  ciDetector : UnitFn;
  modelsDetector : UnitFn;
  promptsDetector : UnitFn;
  hardwareDetector : UnitFn;
  infrastructureDetector : UnitFn;
  documentationParser : UnitFn;
  riskDetector : UnitFn
}.

Definition plain (n : string) (f : UnitFn) : Detector :=
  mkDetector n f false false false false false false.

Definition detectors (u : Units) : list Detector :=
  [ plain "Dependencies" (dependenciesDetector u);
    mkDetector "Code" (codeDetector u) true true false false false false;
    plain "Metadata" (metadataDetector u);
    mkDetector "AI Models" (modelsIdentifierDetector u)
      false false true false false false;
    plain "Configuration" (configDetector u);
    plain "CI/CD" (ciDetector u);
    plain "Model Files" (modelsDetector u);
    plain "Prompts" (promptsDetector u);
    mkDetector "Hardware" (hardwareDetector u)
      false false false true false false;
    mkDetector "Infrastructure" (infrastructureDetector u)
      false false false true false false;
    mkDetector "Documentation" (documentationParser u)
      false false false false true false;
    mkDetector "Risk Assessment" (riskDetector u)
      false false false true false true ].

(** The orchestrator's mutable context. *)
Record Context := mkContext {
  allFindings : list Finding;
  codeResumeState : option ResumeState;
  codeDetectorPaused : bool;
  aiFilesFound : list string;
  sbomAvailable : bool;
  detectedDependencies : list SbomDependency;
  parsedDocs : option ParsedDocs
}.

Definition initialContext : Context :=
  mkContext [] None false [] false [] None.

Definition detectorInput (input : AnalysisInput) : DetectorInput :=
  mkDetectorInput input None None None None None None.

(** The per-unit input built from the capability flags. *)
Definition buildInput (input : AnalysisInput) (ctx : Context)
    (detector : Detector) : DetectorInput :=
  {| base := input;
     in_aiFilesFound :=
       if needsAIFiles detector then Some (aiFilesFound ctx) else None;
     in_allFindings :=
       if needsAIFiles detector || needsAllFindings detector
       then Some (allFindings ctx) else None;
     in_sbomAvailable :=
       if needsDependencies detector then Some (sbomAvailable ctx) else None;
     in_detectedDependencies :=
       if needsDependencies detector
       then Some (detectedDependencies ctx) else None;
     in_parsedDocs :=
       if needsParsedDocs detector then Some (parsedDocs ctx) else None;
     in_resumeState := None |}.

(** What the [try] block does with a unit's result. A result of the
    parser that is not a documentation extract leaves no usable
    [parsedDocs]. *)
Definition handleResult (ctx : Context) (detector : Detector)
    (result : DetectorResult) : Context :=
  if isParser detector then
    {| allFindings := allFindings ctx;
       codeResumeState := codeResumeState ctx;
       codeDetectorPaused := codeDetectorPaused ctx;
       aiFilesFound := aiFilesFound ctx;
       sbomAvailable := sbomAvailable ctx;
       detectedDependencies := detectedDependencies ctx;
       parsedDocs :=
         match result with ResDocs docs => Some docs | _ => None end |}
  else
    match result with
    | ResObject r =>
        let isDeps := String.eqb (det_name detector) "Dependencies" in
        let captureSbom :=
          match r_sbomAvailable r with
          | Some b => if isDeps then Some b else None
          | None => None
          end in
        let pausedNow := r_paused r && canResume detector in
        {| allFindings := allFindings ctx ++ r_findings r;
           codeResumeState :=
             if pausedNow then r_resumeState r else codeResumeState ctx;
           codeDetectorPaused :=
             if pausedNow then true else codeDetectorPaused ctx;
           aiFilesFound :=
             match r_aiFilesFound r with
             | Some l => l
             | None => aiFilesFound ctx
             end;
           sbomAvailable :=
             match captureSbom with
             | Some b => b
             | None => sbomAvailable ctx
             end;
           detectedDependencies :=
             match captureSbom with
             | Some _ =>
                 match r_dependencies r with Some l => l | None => [] end
             | None => detectedDependencies ctx
             end;
           parsedDocs :=
             match r_parsedDocs r with
             | Some docs =>
                 if String.eqb (det_name detector) "Risk Assessment"
                 then Some docs else parsedDocs ctx
             | None => parsedDocs ctx
             end |}
    | ResArray findings =>
        {| allFindings := allFindings ctx ++ findings;
           codeResumeState := codeResumeState ctx;
           codeDetectorPaused := codeDetectorPaused ctx;
           aiFilesFound := aiFilesFound ctx;
           sbomAvailable := sbomAvailable ctx;
           detectedDependencies := detectedDependencies ctx;
           parsedDocs := parsedDocs ctx |}
    | _ => ctx
    end.

(** One iteration of the detector loop: the [try]/[catch] around the
    unit invocation. *)
Definition runDetector (input : AnalysisInput) (ctx : Context)
    (detector : Detector) : M Context :=
  tryCatch
    (result <- fn detector (buildInput input ctx detector) ;;
     ret (handleResult ctx detector result))
    (fun _ => ret ctx).

(** Findings of the resumed invocation not already present by id. *)
Definition mergeResumed (all : list Finding) (resumed : list Finding)
    : list Finding :=
  let existingIds := JsSet.addAll [] (map id all) in
  all ++ filter (fun f => negb (JsSet.has existingIds (id f))) resumed.

(** The bounded wait before resuming: only when the reset lies within
    120 s of [now]. *)
Definition waitForReset (now : Z) (rs : ResumeState) : M unit :=
  match resetTime (lastRateLimit rs) with
  | Some reset =>
      let waitMs := (reset - now)%Z in
      if (0 <? waitMs)%Z && (waitMs <? 120000)%Z
      then sleep (waitMs + 1000)%Z else ret tt
  | None => ret tt
  end.

(** Resumption of the code detector, after all other units. *)
Definition resumeCode (u : Units) (input : AnalysisInput) (now : Z)
    (ctx : Context) : M (list Finding) :=
  match codeResumeState ctx with
  | Some rs =>
      if codeDetectorPaused ctx then
        _ <- waitForReset now rs ;;
        tryCatch
          (resumedResult <-
             codeDetector u
               {| base := input; in_aiFilesFound := None;
                  in_allFindings := None; in_sbomAvailable := None;
                  in_detectedDependencies := None; in_parsedDocs := None;
                  in_resumeState := Some rs |} ;;
           match resumedResult with
           | ResObject r => ret (mergeResumed (allFindings ctx) (r_findings r))
           | _ => ret (allFindings ctx)
           end)
          (fun _ => ret (allFindings ctx))
      else ret (allFindings ctx)
  | None => ret (allFindings ctx)
  end.

Record AnalysisResult := mkAnalysisResult {
  score : Z;
  confidence : ConfidenceLevel;
  findings : list Finding;
  repository : Repository
}.

Definition analyzeRepository (u : Units) (input : AnalysisInput) (now : Z)
    : M AnalysisResult :=
  ctx <- forEach (detectors u) (runDetector input) initialContext ;;
  allFindings <- resumeCode u input now ctx ;;
  let mergedFindings := Reconciler.mergeDependencyAndCodeFindings allFindings in
  let score := calculateScore mergedFindings in
  ret {| score := score;
         confidence := getConfidenceLevel score;
         findings := mergedFindings;
         repository :=
           mkRepository (in_owner input) (in_repo input)
             (meta_fullName (repoMeta input)) (meta_htmlUrl (repoMeta input))
             (meta_description (repoMeta input)) |}.

(** [codeDetector] with a token: the search path. [scan] stands for the
    findings of the file-scanning fallback used without a token. *)
Definition codeDetectorFn (api : Api)
    (resolveFileInfo : SearchItem -> Evidence) (scan : list Finding)
    : UnitFn :=
  fun input =>
    match token (base input) with
    | Some _ =>
        let languages := meta_languages (repoMeta (base input)) in
        searchResult <-
          searchCodeViaAPI api resolveFileInfo (in_resumeState input)
            languages
            (match in_sbomAvailable input with Some b => b | None => false end)
            (match in_detectedDependencies input with
             | Some l => l
             | None => []
             end) ;;
        let aiFiles :=
          fold_left
            (fun acc finding =>
               fold_left
                 (fun acc ev =>
                    if Js.truthy (file ev) && negb (Js.arrIncludes acc (file ev))
                    then acc ++ [file ev] else acc)
                 (evidence finding) acc)
            (so_findings searchResult) [] in
        ret (ResObject
               {| r_findings := so_findings searchResult;
                  r_aiFilesFound := Some aiFiles;
                  r_sbomAvailable := None;
                  r_dependencies := None;
                  r_parsedDocs := None;
                  r_paused := so_paused searchResult;
                  r_resumeState :=
                    if so_paused searchResult
                    then so_resumeState searchResult else None |})
    | None =>
        ret (ResObject (mkResultObject scan (Some []) None None None false None))
    end.

End Pipeline.


(* ================================================================== *)
(** ** Notions the properties are stated with *)
(* ================================================================== *)

(** The sum of the weights of a finding list. *)
Fixpoint sumWeights (findings : list Finding) : Z :=
  match findings with
  | [] => 0%Z
  | f :: r => (weight f + sumWeights r)%Z
  end.

Module ReconcilerSpec.

(** The key under which the first pass registers a finding, if it
    does. *)
Definition depKey (f : Finding) : option string :=
  match dependencyInfo f with
  | Some info =>
      if String.eqb (category f) "dependencies"
      then Some (Js.toLowerCase (name info)) else None
  | None => None
  end.

Definition hasKey (k : string) (f : Finding) : bool :=
  match depKey f with
  | Some k' => String.eqb k' k
  | None => false
  end.

(** The last finding of the input registered under [k]. *)
Fixpoint lastDependency (findings : list Finding) (k : string)
    : option Finding :=
  match findings with
  | [] => None
  | f :: r =>
      match lastDependency r k with
      | Some d => Some d
      | None => if hasKey k f then Some f else None
      end
  end.

(** A code finding the second pass tries to match at all. *)
Definition eligibleCode (f : Finding) : bool :=
  String.eqb (category f) "code" && Js.truthy (title f)
  && negb (Js.includes (Js.toLowerCase (title f)) "openai-compatible"
           || Js.includes (Js.toLowerCase (title f)) "compatible").

(** [f] is matched to the dependency registered under [k]. *)
Definition matchesKey (k : string) (f : Finding) : bool :=
  eligibleCode f
  && Reconciler.matches (Js.toLowerCase (title f)) (Js.toLowerCase k).

(** The code findings matched to key [k], in input order. *)
Definition codeFor (findings : list Finding) (k : string) : list Finding :=
  filter (matchesKey k) findings.

(** [g] is matched to some dependency of the input. *)
Definition matchedCode (findings : list Finding) (g : Finding) : bool :=
  existsb (fun d => match depKey d with
                    | Some k => matchesKey k g
                    | None => false
                    end) findings.

(** The output finding for the dependency [d] registered under [k]. *)
Definition outputFor (findings : list Finding) (k : string) (d : Finding)
    : Finding :=
  match codeFor findings k with
  | [] => d
  | cfs => Reconciler.mergedFinding d cfs
  end.

(** The key of an output finding of category dependencies. *)
Definition isDependencyOf (k : string) (f : Finding) : bool :=
  String.eqb (category f) "dependencies"
  && match dependencyInfo f with
     | Some info => String.eqb (Js.toLowerCase (name info)) k
     | None => false
     end.

Definition titled (t : string) (f : Finding) : bool := String.eqb (title f) t.

(** [codeMap.get(k) || []] *)
Definition getOr (cm : JsMap.t (list Finding)) (k : string) : list Finding :=
  match JsMap.get cm k with Some l => l | None => [] end.

(** What the third pass pushes for one entry of the dependency map. *)
Definition entryOut (cm : JsMap.t (list Finding)) (entry : string * Finding)
    : Finding :=
  let cfs := getOr cm (fst entry) in
  if (0 <? List.length cfs)%nat then Reconciler.mergedFinding (snd entry) cfs
  else snd entry.

(** The test of the last pass. *)
Definition kept (pc : JsSet.t) (f : Finding) : bool :=
  (String.eqb (category f) "code" && negb (JsSet.has pc (id f)))
  || (negb (String.eqb (category f) "dependencies")
      && negb (String.eqb (category f) "code")).

(** The set of processed code ids, as the third pass leaves it. *)
Definition processedCode (fs : list Finding) : JsSet.t :=
  snd (fold_left
         (Reconciler.mergeEntry
            (Reconciler.buildCodeMap (Reconciler.buildDependencyMap fs) fs))
         (Reconciler.buildDependencyMap fs) ([], [])).

End ReconcilerSpec.


Module BomSpec.
Import Bom.

(** The edge relation of a document. *)
Definition edge (doc : CycloneDX) (a b : string) : Prop := In (a, b) (edges doc).

(** The edges from the root to [r]. *)
Definition incomingFromRoot (doc : CycloneDX) (r : string)
    : list (string * string) :=
  filter (fun e => String.eqb (fst e) (mainRef doc) && String.eqb (snd e) r)
    (edges doc).


(** Depth of a reference in the graph, read off its prefix: the root,
    then models, then everything else. *)
Definition rank (r : string) : nat :=
  if Js.startsWith r "repo-" then 0
  else if Js.startsWith r "model-" then 1
  else 2.

(** The form of a component, by kind. *)
Definition componentShape (c : Component) : Prop :=
  (exists x, bom_ref c = ("component-" ++ x)%string)
  \/ (c_type c = "machine-learning-model"
      /\ exists x, bom_ref c = ("model-" ++ x)%string)
  \/ (c_type c = "library" /\ exists x, bom_ref c = ("lib-" ++ x)%string).

(** A document assembled the way both CycloneDX serializers do it: the
    root's entry, one entry per model reference, one per library. *)
Definition assemble (repository : Repository) (comps : list Component)
    (models : list ModelRef) (deps : ModelRef -> list string)
    (libs : list Component) : CycloneDX :=
  {| mainRef := repoRef repository;
     bom_components := comps;
     dependencies :=
       [mkDependency (repoRef repository) (map bom_ref comps)]
       ++ map (fun model => mkDependency (bomRef model) (deps model)) models
       ++ map (fun lib => mkDependency (bom_ref lib) []) libs |}.

(** No cycle in the relationship set. *)
Definition acyclic (doc : CycloneDX) : Prop :=
  forall x, ~ clos_trans string (edge doc) x x.

(** Exactly one edge from the root to every listed component. *)
Definition rootOnce (doc : CycloneDX) : Prop :=
  forall c, In c (bom_components doc) ->
            List.length (incomingFromRoot doc (bom_ref c)) = 1.

(** No edge out of a library component. *)
Definition librarySinks (doc : CycloneDX) : Prop :=
  forall c t, In c (bom_components doc) -> c_type c = "library" ->
              ~ edge doc (bom_ref c) t.

(** Every reference of the [dependencies] array, as the source or as
    the target of an edge, names the root or a listed component. *)
Definition closed (doc : CycloneDX) : Prop :=
  forall d, In d (dependencies doc) ->
            (ref d = mainRef doc
             \/ In (ref d) (map bom_ref (bom_components doc)))
            /\ forall t, In t (dependsOn d) ->
                         In t (map bom_ref (bom_components doc)).

Definition spdxEdge (doc : Spdx) (a b : string) : Prop :=
  In (a, b) (spdxEdges doc).

(** The same three for an SPDX document, where no package at all has an
    outgoing edge. *)
Definition spdxAcyclic (doc : Spdx) : Prop :=
  forall x, ~ clos_trans string (spdxEdge doc) x x.

Definition spdxRootOnce (doc : Spdx) : Prop :=
  forall p, In p (packages doc) ->
            List.length
              (filter (fun e => String.eqb (fst e) (spdx_root doc)
                                && String.eqb (snd e) (spdxId p))
                 (spdxEdges doc)) = 1.

Definition spdxSinks (doc : Spdx) : Prop :=
  forall p t, In p (packages doc) -> ~ spdxEdge doc (spdxId p) t.

(** The form of the package ids [generateSPDX] hands out. *)
Definition spdxShape (ns : string) (pkgs : list SpdxPackage) : Prop :=
  forall p, In p pkgs ->
            exists x, spdxId p = (ns ++ "/AIPackage-" ++ x)%string
                      \/ spdxId p = (ns ++ "/Package-" ++ x)%string.

(** What the loop of [generateSPDX] maintains about package ids. *)
Definition spdxInv (ids : IdSupply) (ns : string) (lo : nat)
    (pkgs : list SpdxPackage) (next : nat) : Prop :=
  lo <= next
  /\ (forall p, In p pkgs ->
                exists i, lo <= i < next
                          /\ (spdxId p = (ns ++ "/AIPackage-" ++ ids i)%string
                              \/ spdxId p = (ns ++ "/Package-" ++ ids i)%string))
  /\ NoDup (map spdxId pkgs).

(** The name SPDX gives the package of a finding. *)
Definition spdxNameOf (f : Finding) : string :=
  match modelInfo f with
  | Some mi => modelName mi
  | None => title f
  end.

(** What the loop of [createMLModelComponents] maintains, for the
    identifiers drawn from position [lo] on. *)
Definition synthInv (ids : IdSupply) (lo : nat) (st : Synth) : Prop :=
  lo <= nextId st
  /\ (forall c, In c (components st) ->
                exists i, lo <= i < nextId st
                          /\ bom_ref c = ("component-" ++ ids i)%string)
  /\ (forall mr, In mr (JsMap.values (modelMap st)) ->
                 exists i, lo <= i < nextId st
                           /\ bomRef mr = ("model-" ++ ids i)%string
                           /\ bom_ref (component mr) = bomRef mr
                           /\ c_type (component mr) = "machine-learning-model")
  /\ NoDup (map bom_ref (components st))
  /\ NoDup (map bomRef (JsMap.values (modelMap st)))
  /\ NoDup (libraryDeps st).

(** The form of the references the loop has handed out. *)
Definition synthShape (st : Synth) : Prop :=
  (forall c, In c (components st) ->
             exists x, bom_ref c = ("component-" ++ x)%string)
  /\ (forall mr, In mr (JsMap.values (modelMap st)) ->
                 (exists x, bomRef mr = ("model-" ++ x)%string)
                 /\ bom_ref (component mr) = bomRef mr
                 /\ c_type (component mr) = "machine-learning-model").


End BomSpec.

Module PipelineSpec.
Import Eff CodeSearch.

(** A computation that returns in every world. *)
Definition neverThrows {A} (m : M A) : Prop :=
  forall w, exists a w', m w = (Returned a, w').

(** A search service that never signals the rate limit. *)
Definition unlimited (api : Api) : Prop :=
  forall history query,
    match api history query with
    | RateLimitHit => False
    | NoResult => True
    | SearchOk _ (Some r) => remaining r <> 0%Z
    | SearchOk _ None => True
    end.

(** How often a query occurs in a log. *)
Definition timesExecuted (log : list string) (query : string) : nat :=
  List.length (filter (String.eqb query) log).

End PipelineSpec.

(* ================================================================== *)
(** ** Sample inputs *)
(* ================================================================== *)

Module Samples.

Definition evRequirements : Evidence :=
  mkEvidence "requirements.txt" (Some 3) (Some "openai==1.40.0") None.

Definition evPyproject : Evidence :=
  mkEvidence "pyproject.toml" (Some 12) (Some "openai") None.

Definition evApp : Evidence :=
  mkEvidence "app.py" (Some 10) (Some "from openai import OpenAI") None.

Definition openaiInfo : DependencyInfo :=
  mkDependencyInfo "openai" "1.40.0" "python" "manual-parsing".

(** The dependency finding the dependency unit emits for [openai]
    found in requirements.txt. *)
Definition depOpenAI : Finding :=
  mkFinding "dep-python-openai" "Dependency: openai" "dependencies" "high" 5
    "LLM-related dependency: openai (version: 1.40.0)" [evRequirements]
    (Some openaiInfo) None None None None None None.

(** The same package found a second time, in pyproject.toml. *)
Definition depOpenAIPyproject : Finding :=
  mkFinding "dep-python-openai" "Dependency: openai" "dependencies" "high" 5
    "LLM-related dependency: openai" [evPyproject]
    (Some (mkDependencyInfo "openai" "unspecified" "python" "manual-parsing"))
    None None None None None None.

(** A dependency finding whose severity is not [high]. *)
Definition depOpenAIMedium : Finding :=
  mkFinding "dep-python-openai" "Dependency: openai" "dependencies" "medium" 5
    "LLM-related dependency: openai (version: 1.40.0)" [evRequirements]
    (Some openaiInfo) None None None None None None.

(** The same package spelt [OpenAI] in a second requirements file. *)
Definition depOpenAICapitalized : Finding :=
  mkFinding "dep-python-OpenAI" "Dependency: OpenAI" "dependencies" "high" 5
    "LLM-related dependency: OpenAI (version: 1.40.0)"
    [mkEvidence "services/api/requirements.txt" (Some 1)
       (Some "OpenAI==1.40.0") None]
    (Some (mkDependencyInfo "OpenAI" "1.40.0" "python" "manual-parsing"))
    None None None None None None.

(** A dependency finding without evidence. *)
Definition depOpenAINoEvidence : Finding :=
  mkFinding "dep-python-openai" "Dependency: openai" "dependencies" "high" 5
    "LLM-related dependency: openai (version: 1.40.0)" []
    (Some openaiInfo) None None None None None None.

(** A finding of another category that already bears the merged title. *)
Definition alreadyTitled : Finding :=
  plainFinding "config-note" "openai - Usage Detected" "config" "low" 1
    "A configuration note" [].

Definition codeOpenAI : Finding :=
  plainFinding "code-sdk-OpenAI-python" "OpenAI SDK Usage Detected" "code"
    "high" 5 "Found OpenAI SDK usage in 1 file(s)" [evApp].

Definition codeCompatible : Finding :=
  plainFinding "code-api-api-OpenAI-compatible"
    "OpenAI-compatible API Endpoint Detected" "code" "medium" 3
    "Found API calls to OpenAI-compatible in 1 file(s)" [evApp].

Definition metadataFinding : Finding :=
  plainFinding "metadata-ai-keywords" "AI/LLM Keywords in Metadata" "metadata"
    "low" 2 "Found 2 AI/LLM keywords: llm, openai"
    [mkEvidence "Repository Description" None (Some "Contains llm") None].

Definition docs : ParsedDocs :=
  mkParsedDocs ["README.md"] []
    [mkDocExtract "README.md" "The model may hallucinate."] []
    [mkDocExtract "README.md" "Outputs can reflect bias in the data."] [].

(** A registry model with a text-generation pipeline tag. *)
Definition hfTextModel : Finding :=
  mkFinding "model-huggingface-llama" "HuggingFace Model: meta-llama/Llama-3-8B"
    "models" "high" 5 "Found HuggingFace model meta-llama/Llama-3-8B" [evApp]
    None
    (Some (mkModelInfo "HuggingFace" "meta-llama/Llama-3-8B"
             (Some "text-generation")
             (Some (mkHuggingFaceInfo (Some "text-generation") None None None
                      None None None true))
             [evApp] None []))
    None None None None None.

(** A registry model with an image-generation pipeline tag. *)
Definition hfImageModel : Finding :=
  mkFinding "model-huggingface-sd" "HuggingFace Model: stabilityai/sd-turbo"
    "models" "high" 5 "Found HuggingFace model stabilityai/sd-turbo" [evApp]
    None
    (Some (mkModelInfo "HuggingFace" "stabilityai/sd-turbo"
             (Some "text-to-image")
             (Some (mkHuggingFaceInfo (Some "text-to-image") (Some "diffusers")
                      None None None None None true))
             [evApp] None []))
    None None None None None.

(** The dependency finding for the [torch] package. *)
Definition depTorch : Finding :=
  mkFinding "dep-python-torch" "Dependency: torch" "dependencies" "high" 5
    "LLM-related dependency: torch (version: 2.3.0)" [evRequirements]
    (Some (mkDependencyInfo "torch" "2.3.0" "python" "manual-parsing"))
    None None None None None None.

Definition repository : Repository :=
  mkRepository "acme" "chatbot" "acme/chatbot"
    "https://github.com/acme/chatbot" "A chatbot".

(** An identifier supply that never repeats. *)
Definition counterIds : Bom.IdSupply := Js.natToString.

(** An identifier supply that draws the same identifier every time,
    the one [generateShortId] makes of six zero bytes. *)
Definition repeatedIds : Bom.IdSupply := fun _ => "000000".

(** A repository whose dependency graph lists [openai] and [cohere]. *)
Definition sbomDependencies : list CodeSearch.SbomDependency :=
  [CodeSearch.mkSbomDependency "openai" "1.40.0" "python";
   CodeSearch.mkSbomDependency "cohere" "5.5.0" "python"].

Definition analysisInput : Pipeline.AnalysisInput :=
  Pipeline.mkAnalysisInput
    (Pipeline.mkRepoMeta "acme/chatbot" "https://github.com/acme/chatbot"
       "A chatbot" ["Python"])
    [] "acme" "chatbot" (Some "token").

(** A search service whose quota runs out with the third query of a
    run and is available again afterwards. *)
Definition quotaOfThree : CodeSearch.Api :=
  fun history _ =>
    match List.length history with
    | 0 => CodeSearch.SearchOk [] (Some (CodeSearch.mkRateLimit 2 10 None))
    | 1 => CodeSearch.SearchOk [] (Some (CodeSearch.mkRateLimit 1 10 None))
    | 2 => CodeSearch.SearchOk [] (Some (CodeSearch.mkRateLimit 0 10 None))
    | _ => CodeSearch.SearchOk [] (Some (CodeSearch.mkRateLimit 9 10 None))
    end.

Definition resolveFileInfo (item : CodeSearch.SearchItem) : Evidence :=
  mkEvidence (CodeSearch.path item) (CodeSearch.line_number item)
    (CodeSearch.item_snippet item) (CodeSearch.html_url item).

Definition quietUnit : Pipeline.UnitFn :=
  fun _ => Eff.ret (Pipeline.ResArray []).

Definition failingUnit : Pipeline.UnitFn :=
  fun _ => Eff.throw "TypeError".

(** The units of a run on that repository: the dependency unit reports
    the SBOM, the code unit searches, the others find nothing. *)
Definition units : Pipeline.Units :=
  {| Pipeline.dependenciesDetector :=
       fun _ =>
         Eff.ret (Pipeline.ResObject
                    (Pipeline.mkResultObject [depOpenAI] None (Some true)
                       (Some sbomDependencies) None false None));
     Pipeline.codeDetector :=
       Pipeline.codeDetectorFn quotaOfThree resolveFileInfo [];
     Pipeline.metadataDetector := quietUnit;
     Pipeline.modelsIdentifierDetector := quietUnit;
     Pipeline.configDetector := quietUnit;
     Pipeline.ciDetector := quietUnit;
     Pipeline.modelsDetector := quietUnit;
     Pipeline.promptsDetector := quietUnit;
     Pipeline.hardwareDetector := quietUnit;
     Pipeline.infrastructureDetector := quietUnit;
     Pipeline.documentationParser :=
       fun _ => Eff.ret (Pipeline.ResDocs docs);
     Pipeline.riskDetector := quietUnit |}.

(** The same run with a metadata unit that throws. *)
Definition unitsWithFailure : Pipeline.Units :=
  {| Pipeline.dependenciesDetector := Pipeline.dependenciesDetector units;
     Pipeline.codeDetector := Pipeline.codeDetector units;
     Pipeline.metadataDetector := failingUnit;
     Pipeline.modelsIdentifierDetector := quietUnit;
     Pipeline.configDetector := quietUnit;
     Pipeline.ciDetector := quietUnit;
     Pipeline.modelsDetector := quietUnit;
     Pipeline.promptsDetector := quietUnit;
     Pipeline.hardwareDetector := quietUnit;
     Pipeline.infrastructureDetector := quietUnit;
     Pipeline.documentationParser := Pipeline.documentationParser units;
     Pipeline.riskDetector := quietUnit |}.

Definition emptyWorld : Eff.World := Eff.mkWorld [] [].

End Samples.

(* ================================================================== *)
(** ** XML text escaping (js/utils.js, escapeXml) *)
(* ================================================================== *)

Module Xml.

(** The double quote character. *)
Definition dquote : ascii := "034"%char.

(** [s.replace(/c/g, rep)] for a one-character pattern [c]. *)
Fixpoint replaceAll (c : ascii) (rep : string) (s : string) : string :=
  match s with
  | EmptyString => EmptyString
  | String a r =>
      if Ascii.eqb a c then (rep ++ replaceAll c rep r)%string
      else String a (replaceAll c rep r)
  end.

(** [escapeXml] on a string argument: four replacement passes, the
    ampersand first. *)
Definition escapeXml (str : string) : string :=
  if negb (Js.truthy str) then ""
  else
    replaceAll dquote "&quot;"
      (replaceAll ">" "&gt;"
         (replaceAll "<" "&lt;"
            (replaceAll "&" "&amp;" str))).

End Xml.

Module XmlSpec.
Import Xml.

(** The characters of a string. *)
Definition chars (s : string) : list ascii := list_ascii_of_string s.

(** What the four passes make of one character. *)
Definition escapeChar (a : ascii) : string :=
  if Ascii.eqb a "&" then "&amp;"
  else if Ascii.eqb a "<" then "&lt;"
  else if Ascii.eqb a ">" then "&gt;"
  else if Ascii.eqb a dquote then "&quot;"
  else String a "".

Fixpoint escapeEach (s : string) : string :=
  match s with
  | EmptyString => EmptyString
  | String a r => (escapeChar a ++ escapeEach r)%string
  end.

(** The text after an ampersand names one of the four entities. *)
Definition entityFollows (post : string) : Prop :=
  Js.startsWith post "amp;" = true \/ Js.startsWith post "lt;" = true
  \/ Js.startsWith post "gt;" = true \/ Js.startsWith post "quot;" = true.

(** None of the four escaped characters occurs. *)
Definition plainText (s : string) : Prop :=
  ~ In "&"%char (chars s) /\ ~ In "<"%char (chars s)
  /\ ~ In ">"%char (chars s) /\ ~ In dquote (chars s).

End XmlSpec.

(* ================================================================== *)
(** ** Repository input (js/github-api.js, parseRepoInput) *)
(* ================================================================== *)

Module RepoInput.

(** White space of [String.prototype.trim] in ASCII text: tab, line
    feed, vertical tab, form feed, carriage return, space. *)
Definition isSpace (c : ascii) : bool :=
  let n := nat_of_ascii c in
  ((9 <=? n) && (n <=? 13) || (n =? 32))%nat.

Fixpoint trimStart (s : string) : string :=
  match s with
  | EmptyString => EmptyString
  | String c r => if isSpace c then trimStart r else s
  end.

Fixpoint trimEnd (s : string) : string :=
  match s with
  | EmptyString => EmptyString
  | String c r =>
      match trimEnd r with
      | EmptyString => if isSpace c then EmptyString else String c EmptyString
      | r' => String c r'
      end
  end.

(** [s.trim()] *)
Definition trim (s : string) : string := trimEnd (trimStart s).

(** The longest prefix without [/], as the greedy [[^\/]+] reads it,
    and what follows it. *)
Fixpoint segment (s : string) : string * string :=
  match s with
  | EmptyString => (EmptyString, EmptyString)
  | String c r =>
      if Ascii.eqb c "/" then (EmptyString, s)
      else let '(seg, rest) := segment r in (String c seg, rest)
  end.

(** [([^\/]+)\/([^\/]+)] matched at the start of [s]. *)
Definition ownerAndRepo (s : string) : option (string * string) :=
  let '(owner, rest) := segment s in
  match owner, rest with
  | String _ _, String _ rest' =>
      let '(repo, _) := segment rest' in
      match repo with
      | String _ _ => Some (owner, repo)
      | EmptyString => None
      end
  | _, _ => None
  end.

(** [s.match(/github\.com\/([^\/]+)\/([^\/]+)/)]: the leftmost
    position at which the pattern matches, with its two groups. *)
Fixpoint urlMatch (s : string) : option (string * string) :=
  let here :=
    if Js.startsWith s "github.com/"
    then ownerAndRepo (String.substring 11 (String.length s - 11) s)
    else None in
  match here with
  | Some m => Some m
  | None =>
      match s with
      | EmptyString => None
      | String _ r => urlMatch r
      end
  end.

(** [repo.replace(/\.git$/, '')] *)
Definition stripGit (repo : string) : string :=
  if Js.endsWith repo ".git"
  then String.substring 0 (String.length repo - 4) repo
  else repo.

(** The result of [parseRepoInput]: the two names, or the error it
    throws. *)
Inductive Parsed :=
| Repo (owner repo : string)
| InvalidFormat.

Definition parseRepoInput (input : string) : Parsed :=
  let input := trim input in
  match urlMatch input with
  | Some (owner, repo) => Repo owner (stripGit repo)
  | None =>
      match Js.split input "/" with
      | owner :: repo :: _ => Repo owner repo
      | _ => InvalidFormat
      end
  end.

End RepoInput.

Module RepoInputSpec.
Import RepoInput.

(** No [/] occurs in [s]. *)
Definition slashFree (s : string) : Prop :=
  ~ In "/"%char (list_ascii_of_string s).

End RepoInputSpec.

(* ================================================================== *)
(** ** Extended AIBOM: the metadata sections and the summary *)
(* ================================================================== *)

(** The functions below build the [extended_metadata] and [summary]
    fields that [generateExtendedAIBOM] places beside the CycloneDX
    document. An object that takes one of two shapes is an inductive
    type with one constructor per shape. *)
Module Extended.

(** [[...new Set(xs)]] *)
Definition dedupe (xs : list string) : list string := JsSet.addAll [] xs.

(** [evidence.map(e => ({ file: e.file, snippet: e.snippet }))] *)
Record EvidenceNote := mkEvidenceNote {
  note_file : string;
  note_snippet : option string
}.

Definition evidenceNotes (finding : Finding) : list EvidenceNote :=
  map (fun e => mkEvidenceNote (file e) (snippet e)) (evidence finding).

Definition inCategory (c : string) (f : Finding) : bool :=
  String.eqb (category f) c.

(** *** Hardware *)

Record HardwareDetail := mkHardwareDetail {
  hd_type : string;
  hd_libraries : list string;
  hd_description : string;
  hd_evidence : list EvidenceNote
}.

Inductive HardwareMetadata :=
| NoHardware (note : string)
| HardwareFound (compute_types : list string) (details : list HardwareDetail).

Definition extractHardwareMetadata (findings : list Finding)
    : HardwareMetadata :=
  let hardwareFindings := filter (inCategory "hardware") findings in
  if Nat.eqb (List.length hardwareFindings) 0 then
    NoHardware "No specialized hardware requirements detected"
  else
    HardwareFound
      (flat_map
         (fun finding =>
            match hardwareInfo finding with
            | Some hw => [hw_type hw]
            | None => []
            end) hardwareFindings)
      (flat_map
         (fun finding =>
            match hardwareInfo finding with
            | Some hw =>
                [mkHardwareDetail (hw_type hw) (hw_libraries hw)
                   (description finding) (evidenceNotes finding)]
            | None => []
            end) hardwareFindings).

(** *** Infrastructure *)

Record Deployment := mkDeployment {
  containerization : list string;
  orchestration : list string;
  cloud_platforms : list string;
  mlops_tools : list string
}.

Record InfraDetail := mkInfraDetail {
  id_type : string;
  id_platforms : list string;
  id_description : string;
  id_evidence : list EvidenceNote
}.

Inductive InfrastructureMetadata :=
| NoInfrastructure (note : string)
| InfrastructureFound (deployment : Deployment) (details : list InfraDetail).

(** The platforms pushed to the list of one deployment kind. *)
Definition platformsOf (kind : string) (infraFindings : list Finding)
    : list string :=
  flat_map
    (fun finding =>
       match infraInfo finding with
       | Some info =>
           if String.eqb (infra_type info) kind
           then infra_platforms info else []
       | None => []
       end) infraFindings.

Definition extractInfrastructureMetadata (findings : list Finding)
    : InfrastructureMetadata :=
  let infraFindings := filter (inCategory "infrastructure") findings in
  if Nat.eqb (List.length infraFindings) 0 then
    NoInfrastructure "No infrastructure or deployment configuration detected"
  else
    InfrastructureFound
      {| containerization := dedupe (platformsOf "containerization" infraFindings);
         orchestration := dedupe (platformsOf "orchestration" infraFindings);
         cloud_platforms := dedupe (platformsOf "cloud" infraFindings);
         mlops_tools := dedupe (platformsOf "mlops" infraFindings) |}
      (flat_map
         (fun finding =>
            match infraInfo finding with
            | Some info =>
                [mkInfraDetail (infra_type info) (infra_platforms info)
                   (description finding) (evidenceNotes finding)]
            | None => []
            end) infraFindings).

(** *** Model governance *)

Record GovernedModel := mkGovernedModel {
  gm_provider : string;
  gm_name : string;
  gm_type : option string;
  gm_intended_use : string;
  gm_detection_source : string;
  gm_locations : list Evidence
}.

Record DocumentationStatus := mkDocumentationStatus {
  intended_use_documented : bool;
  limitations_documented : bool;
  ethical_considerations_documented : bool;
  bias_fairness_documented : bool
}.

Record Transparency := mkTransparency {
  model_cards_present : bool;
  security_documentation : bool;
  readme_present : bool
}.

Record Consideration := mkConsideration {
  cons_type : string;
  cons_count : nat;
  cons_description : string
}.

Record Governance := mkGovernance {
  gov_models : list GovernedModel;
  documentation_status : DocumentationStatus;
  transparency : Transparency;
  detected_considerations : list Consideration
}.

(** [findings.flatMap(f => f.evidence?.map(e => e.file) || [])] *)
Definition allFiles (findings : list Finding) : list string :=
  flat_map (fun f => map file (evidence f)) findings.

(** [allFiles.some(f => f && f.toLowerCase().includes(word))] *)
Definition someFileMentions (word : string) (files : list string) : bool :=
  existsb (fun f => Js.truthy f && Js.includes (Js.toLowerCase f) word) files.

(** A governance finding whose [riskInfo] has the given type. *)
Definition hasRiskType (kind : string) (finding : Finding) : bool :=
  match riskInfo finding with
  | Some info => String.eqb (risk_type info) kind
  | None => false
  end.

Definition extractGovernanceMetadata (findings : list Finding) : Governance :=
  let governanceFindings := filter (inCategory "governance") findings in
  let files := allFiles findings in
  {| gov_models :=
       flat_map
         (fun finding =>
            match modelInfo finding with
            | Some mi =>
                [mkGovernedModel (provider mi) (modelName mi) (modelType mi)
                   (description finding)
                   (match Bom.strTruthy (detectionSource mi) with
                    | Some src => src
                    | None => "code-analysis"
                    end)
                   (locations mi)]
            | None => []
            end) findings;
     documentation_status :=
       {| intended_use_documented := false;
          limitations_documented :=
            existsb (hasRiskType "limitations") governanceFindings;
          ethical_considerations_documented :=
            existsb (hasRiskType "ethical") governanceFindings;
          bias_fairness_documented :=
            existsb (hasRiskType "bias-fairness") governanceFindings |};
     transparency :=
       {| model_cards_present := someFileMentions "model" files;
          security_documentation := someFileMentions "security" files;
          readme_present := someFileMentions "readme" files |};
     detected_considerations :=
       flat_map
         (fun finding =>
            match riskInfo finding with
            | Some info =>
                if String.eqb (risk_type info) "limitations" then
                  [mkConsideration "limitations" (risk_count info)
                     (description finding)]
                else if String.eqb (risk_type info) "bias-fairness" then
                  [mkConsideration "bias_fairness" (risk_count info)
                     (description finding)]
                else if String.eqb (risk_type info) "ethical" then
                  [mkConsideration "ethical" (risk_count info)
                     (description finding)]
                else []
            | None => []
            end) governanceFindings |}.

(** *** Risk assessment *)

Record IdentifiedRisk := mkIdentifiedRisk {
  ir_title : string;
  ir_severity : string;
  ir_description : string;
  ir_evidence_count : nat
}.

Record Indicator := mkIndicator {
  ind_title : string;
  ind_description : string
}.

Record Recommendation := mkRecommendation {
  rec_priority : string;
  rec_category : string;
  rec_recommendation : string;
  rec_details : string
}.

Record RiskAssessment := mkRiskAssessment {
  overall_risk_level : string;
  missing_documentation : list string;
  identified_risks : list IdentifiedRisk;
  positive_indicators : list Indicator;
  recommendations : list Recommendation
}.

(** A finding of category risk that only records missing
    documentation. *)
Definition isMissingDocumentation (finding : Finding) : bool :=
  hasRiskType "missing-documentation" finding.

(** [riskScore] after the two loops. *)
Definition riskScore (riskFindings governanceFindings : list Finding) : Z :=
  (fold_left
     (fun score finding =>
        if isMissingDocumentation finding then score
        else (score + (if Z.eqb (weight finding) 0 then 2 else weight finding))%Z)
     riskFindings 0
   - Z.of_nat (List.length governanceFindings))%Z.

Definition riskLevel (score : Z) : string :=
  if (score <=? 0)%Z then "low"
  else if (score <=? 3)%Z then "medium"
  else "high".

Definition hasModels (findings : list Finding) : bool :=
  existsb (fun f => match modelInfo f with Some _ => true | None => false end)
    findings.

(** [risks.missing_documentation] after the first loop. The [riskInfo]
    the units build has no [items] field; [items] reads it from a
    finding that carries one. Spreading an absent [items] into [push]
    throws a TypeError: [None]. *)
Fixpoint missingDocumentation (items : Finding -> option (list string))
    (riskFindings : list Finding) : option (list string) :=
  match riskFindings with
  | [] => Some []
  | finding :: rest =>
      if isMissingDocumentation finding then
        match items finding with
        | Some pushed => option_map (app pushed) (missingDocumentation items rest)
        | None => None
        end
      else missingDocumentation items rest
  end.

(** [extractRiskAssessment]; [None] when it throws. *)
Definition extractRiskAssessment (items : Finding -> option (list string))
    (findings : list Finding) : option RiskAssessment :=
  let riskFindings := filter (inCategory "risk") findings in
  let governanceFindings := filter (inCategory "governance") findings in
  let identified :=
    flat_map
      (fun finding =>
         if isMissingDocumentation finding then []
         else [mkIdentifiedRisk (title finding) (severity finding)
                 (description finding) (List.length (evidence finding))])
      riskFindings in
  let positive :=
    map (fun finding => mkIndicator (title finding) (description finding))
      governanceFindings in
  match missingDocumentation items riskFindings with
  | None => None
  | Some missing =>
      Some
        {| overall_risk_level :=
             riskLevel (riskScore riskFindings governanceFindings);
           missing_documentation := missing;
           identified_risks := identified;
           positive_indicators := positive;
           recommendations :=
             (if Nat.eqb (List.length positive) 0 && hasModels findings then
                [mkRecommendation "medium" "governance"
                   "Consider documenting model limitations, intended use, and ethical considerations"
                   "Models detected but no governance documentation found"]
              else [])
             ++ (if (0 <? List.length identified)%nat
                    && Nat.eqb (List.length positive) 0 then
                   [mkRecommendation "high" "risk-management"
                      "Address identified risks and improve documentation"
                      (Js.natToString (List.length identified)
                       ++ " risks identified without corresponding governance documentation")%string]
                 else []) |}
  end.

(** *** Data pipeline *)

Record PipelineLibrary := mkPipelineLibrary {
  pl_library : string;
  pl_version : option string
}.

Inductive DataPipeline :=
| NoDataPipeline (note : string)
| DataPipelineFound (data_loading preprocessing feature_engineering
                       frameworks : list PipelineLibrary).

(** [deduplicateByLibrary]: [seen] is the set of keys met so far. *)
Fixpoint deduplicateFrom (seen : JsSet.t) (items : list PipelineLibrary)
    : list PipelineLibrary :=
  match items with
  | [] => []
  | item :: rest =>
      let key := Js.toLowerCase (pl_library item) in
      if JsSet.has seen key then deduplicateFrom seen rest
      else item :: deduplicateFrom (JsSet.add seen key) rest
  end.

Definition deduplicateByLibrary (items : list PipelineLibrary)
    : list PipelineLibrary :=
  deduplicateFrom [] items.

(** [finding.dependencyInfo?.name?.toLowerCase() ||
     finding.title.toLowerCase()] *)
Definition pipelineDepName (finding : Finding) : string :=
  match dependencyInfo finding with
  | Some info =>
      if Js.truthy (Js.toLowerCase (name info))
      then Js.toLowerCase (name info)
      else Js.toLowerCase (title finding)
  | None => Js.toLowerCase (title finding)
  end.

Definition pipelineEntry (finding : Finding) : PipelineLibrary :=
  {| pl_library :=
       match dependencyInfo finding with
       | Some info => if Js.truthy (name info) then name info else title finding
       | None => title finding
       end;
     pl_version :=
       match dependencyInfo finding with
       | Some info => Some (version info)
       | None => None
       end |}.

Definition isDataLoading (depName : string) : bool :=
  Js.includes depName "datasets" || Js.includes depName "pandas"
  || Js.includes depName "numpy".

Definition isPreprocessing (depName : string) : bool :=
  Js.includes depName "sklearn" || Js.includes depName "scikit-learn"
  || Js.includes depName "nltk" || Js.includes depName "spacy"
  || Js.includes depName "torchvision" || Js.includes depName "albumentations".

Definition isFramework (depName : string) : bool :=
  Js.includes depName "torch" || Js.includes depName "tensorflow"
  || Js.includes depName "jax" || Js.includes depName "keras".

(** The entries pushed to one of the lists. *)
Definition pipelineEntries (test : string -> bool) (depFindings : list Finding)
    : list PipelineLibrary :=
  flat_map
    (fun finding =>
       if test (pipelineDepName finding) then [pipelineEntry finding] else [])
    depFindings.

Definition extractDataPipeline (findings : list Finding) : DataPipeline :=
  let depFindings := filter (inCategory "dependencies") findings in
  let detected :=
    existsb
      (fun finding =>
         isDataLoading (pipelineDepName finding)
         || isPreprocessing (pipelineDepName finding)
         || isFramework (pipelineDepName finding)) depFindings in
  if negb detected then NoDataPipeline "No data pipeline components detected"
  else
    DataPipelineFound
      (deduplicateByLibrary (pipelineEntries isDataLoading depFindings))
      (deduplicateByLibrary (pipelineEntries isPreprocessing depFindings))
      []
      (deduplicateByLibrary (pipelineEntries isFramework depFindings)).

(** *** Analysis notes *)

Record MissingDocument := mkMissingDocument {
  md_file : string;
  md_purpose : string;
  md_impact : string
}.

Record Undetectable := mkUndetectable {
  un_component : string;
  un_reason : string;
  un_alternative : string
}.

Record DetectionLimitation := mkDetectionLimitation {
  dl_area : string;
  dl_limitation : string;
  dl_note : string
}.

Record Improvement := mkImprovement {
  imp_priority : string;
  imp_action : string;
  imp_files : list string;
  imp_benefit : string
}.

Record AnalysisNotes := mkAnalysisNotes {
  notes_missing_documentation : list MissingDocument;
  undetectable_components : list Undetectable;
  detection_limitations : list DetectionLimitation;
  suggested_improvements : list Improvement
}.

Definition undetectableComponents : list Undetectable :=
  [mkUndetectable "Training Data"
     "Training datasets are typically not stored in code repositories"
     "May be referenced in documentation or configuration files";
   mkUndetectable "Model Weights"
     "Model weights are usually too large for git repositories"
     "Check for model file references or download scripts";
   mkUndetectable "Runtime Performance"
     "Performance metrics require running the model"
     "Look for performance benchmarks in documentation";
   mkUndetectable "Actual Training Infrastructure"
     "Training may happen on different infrastructure than deployment"
     "Deployment infrastructure detected from configs";
   mkUndetectable "Model Bias/Fairness Metrics"
     "Bias metrics require evaluation on representative data"
     "Documented bias considerations may be found in model cards"].

Definition extractAnalysisNotes (findings : list Finding) : AnalysisNotes :=
  let files := allFiles findings in
  let missing :=
    (if negb (someFileMentions "readme" files) then
       [mkMissingDocument "README.md"
          "Project overview and usage instructions"
          "Difficult to understand project purpose and usage"]
     else [])
    ++ (if negb (someFileMentions "model" files) then
          [mkMissingDocument "MODEL_CARD.md"
             "Model documentation including intended use, limitations, and performance"
             "Incomplete model governance and transparency"]
        else [])
    ++ (if negb (someFileMentions "security" files) then
          [mkMissingDocument "SECURITY.md"
             "Security policy and vulnerability reporting procedures"
             "No clear security disclosure process"]
        else []) in
  let hasModels := hasModels findings in
  let hasHardware := existsb (inCategory "hardware") findings in
  let hasGovernance := existsb (inCategory "governance") findings in
  {| notes_missing_documentation := missing;
     undetectable_components := undetectableComponents;
     detection_limitations :=
       (if hasModels && negb hasGovernance then
          [mkDetectionLimitation "Model Governance"
             "Models detected but no governance documentation found"
             "Governance documentation may exist but not in standard file names"]
        else [])
       ++ (if hasModels && negb hasHardware then
             [mkDetectionLimitation "Hardware Requirements"
                "Models detected but no specific hardware requirements found"
                "May use CPU-only inference or hardware not explicitly declared in dependencies"]
           else []);
     suggested_improvements :=
       (if (0 <? List.length missing)%nat then
          [mkImprovement "high" "Add missing documentation files"
             (map md_file missing)
             "Improves transparency and enables more complete AIBOM generation"]
        else [])
       ++ (if hasModels && negb hasGovernance then
             [mkImprovement "high" "Create model documentation"
                ["MODEL_CARD.md"]
                "Documents intended use, limitations, ethical considerations, and bias mitigation"]
           else [])
       ++ (if hasModels
              && existsb (fun d => String.eqb (md_file d) "SECURITY.md") missing
           then
             [mkImprovement "medium" "Establish security policy"
                ["SECURITY.md"]
                "Provides clear process for reporting AI-related security issues"]
           else []) |}.

(** *** The metadata record and the summary *)

Record ExtendedMetadata := mkExtendedMetadata {
  hardware : HardwareMetadata;
  infrastructure : InfrastructureMetadata;
  model_governance : Governance;
  risk_assessment : RiskAssessment;
  data_pipeline : DataPipeline;
  analysis_notes : AnalysisNotes
}.

(** [extractExtendedMetadata]; it throws where the risk assessment
    does. *)
Definition extractExtendedMetadata (items : Finding -> option (list string))
    (findings : list Finding) : option ExtendedMetadata :=
  match extractRiskAssessment items findings with
  | None => None
  | Some risks =>
      Some
        {| hardware := extractHardwareMetadata findings;
           infrastructure := extractInfrastructureMetadata findings;
           model_governance := extractGovernanceMetadata findings;
           risk_assessment := risks;
           data_pipeline := extractDataPipeline findings;
           analysis_notes := extractAnalysisNotes findings |}
  end.

Record Completeness := mkCompleteness {
  completeness_score : nat;
  completeness_level : string;
  checks_passed : nat;
  total_checks : nat
}.

(** [Math.round((n / d) * 100)] for small counts [n <= d]. *)
Definition roundedPercentage (n d : nat) : nat :=
  (2 * (n * 100) + d) / (2 * d).

Definition calculateDocumentationCompleteness (governance : Governance)
    : Completeness :=
  let checks :=
    [readme_present (transparency governance);
     model_cards_present (transparency governance);
     security_documentation (transparency governance);
     limitations_documented (documentation_status governance);
     ethical_considerations_documented (documentation_status governance)] in
  let passed := List.length (filter (fun c => c) checks) in
  let percentage := roundedPercentage passed (List.length checks) in
  {| completeness_score := percentage;
     completeness_level :=
       if (80 <=? percentage)%nat then "excellent"
       else if (60 <=? percentage)%nat then "good"
       else if (40 <=? percentage)%nat then "fair"
       else "poor";
     checks_passed := passed;
     total_checks := List.length checks |}.

Record CategoryCounts := mkCategoryCounts {
  n_dependencies : nat;
  n_models : nat;
  n_hardware : nat;
  n_infrastructure : nat;
  n_governance : nat;
  n_risks : nat
}.

Record Summary := mkSummary {
  total_findings : nat;
  categories : CategoryCounts;
  hardware_detected : bool;
  infrastructure_detected : bool;
  data_pipeline_detected : bool;
  risk_level : string;
  documentation_completeness : Completeness
}.

Definition hardwareDetected (h : HardwareMetadata) : bool :=
  match h with NoHardware _ => false | HardwareFound _ _ => true end.

Definition infrastructureDetected (i : InfrastructureMetadata) : bool :=
  match i with NoInfrastructure _ => false | InfrastructureFound _ _ => true end.

Definition dataPipelineDetected (d : DataPipeline) : bool :=
  match d with NoDataPipeline _ => false | DataPipelineFound _ _ _ _ => true end.

Definition generateSummary (metadata : ExtendedMetadata)
    (findings : list Finding) : Summary :=
  {| total_findings := List.length findings;
     categories :=
       {| n_dependencies :=
            List.length (filter (inCategory "dependencies") findings);
          n_models :=
            List.length
              (filter (fun f => match modelInfo f with
                                | Some _ => true
                                | None => false
                                end) findings);
          n_hardware := List.length (filter (inCategory "hardware") findings);
          n_infrastructure :=
            List.length (filter (inCategory "infrastructure") findings);
          n_governance :=
            List.length (filter (inCategory "governance") findings);
          n_risks := List.length (filter (inCategory "risk") findings) |};
     hardware_detected := hardwareDetected (hardware metadata);
     infrastructure_detected := infrastructureDetected (infrastructure metadata);
     data_pipeline_detected := dataPipelineDetected (data_pipeline metadata);
     risk_level := overall_risk_level (risk_assessment metadata);
     documentation_completeness :=
       calculateDocumentationCompleteness (model_governance metadata) |}.

End Extended.

(* ================================================================== *)
(** ** Context extraction for the model components (js/utils.js) *)
(* ================================================================== *)

Module ModelContext.

Record HardwareSummary := mkHardwareSummary {
  hs_detected : bool;
  hs_types : list string;
  hs_libraries : list string
}.

Definition extractHardwareInfo (findings : list Finding) : HardwareSummary :=
  let hardwareFindings := filter (Extended.inCategory "hardware") findings in
  {| hs_detected := (0 <? List.length hardwareFindings)%nat;
     hs_types :=
       Extended.dedupe
         (flat_map
            (fun finding =>
               match hardwareInfo finding with
               | Some hw => [hw_type hw]
               | None => []
               end) hardwareFindings);
     hs_libraries :=
       Extended.dedupe
         (flat_map
            (fun finding =>
               match hardwareInfo finding with
               | Some hw => hw_libraries hw
               | None => []
               end) hardwareFindings) |}.

Record GovernanceSummary := mkGovernanceSummary {
  hasLimitations : bool;
  hasBiasFairness : bool;
  hasEthical : bool;
  gs_count : nat
}.

Definition extractGovernanceInfo (findings : list Finding)
    : GovernanceSummary :=
  let governanceFindings := filter (Extended.inCategory "governance") findings in
  {| hasLimitations :=
       existsb (Extended.hasRiskType "limitations") governanceFindings;
     hasBiasFairness :=
       existsb (Extended.hasRiskType "bias-fairness") governanceFindings;
     hasEthical := existsb (Extended.hasRiskType "ethical") governanceFindings;
     gs_count := List.length governanceFindings |}.

End ModelContext.

Module ExtendedSpec.
Import Extended.

(** The key [deduplicateByLibrary] compares items by. *)
Definition libraryKey (item : PipelineLibrary) : string :=
  Js.toLowerCase (pl_library item).

(** The order of the three risk levels. *)
Definition levelRank (level : string) : nat :=
  if String.eqb level "low" then 0
  else if String.eqb level "medium" then 1
  else 2.

(** The files named missing by the analysis notes. *)
Definition missingFiles (notes : AnalysisNotes) : list string :=
  map md_file (notes_missing_documentation notes).

(** A dependency name that one of the three library lists takes. *)
Definition pipelineLibraryName (depName : string) : bool :=
  isDataLoading depName || isPreprocessing depName || isFramework depName.

End ExtendedSpec.

(* ================================================================== *)
(** ** Local model files (detector: model files) *)
(* ================================================================== *)

Module ModelFiles.

(** One entry of [MODEL_FILE_PATTERNS]: it names an extension or a
    file name, and may restrict the path. *)
Record ModelFilePattern := mkModelFilePattern {
  mp_extension : option string;
  mp_filename : option string;
  mp_description : string;
  mp_pathMatch : option (string -> bool)
}.

(** [/models?|checkpoints?/i] and [/models?/i] as tests on a path. *)
Definition modelOrCheckpointPath (path : string) : bool :=
  Js.includes (Js.toLowerCase path) "model"
  || Js.includes (Js.toLowerCase path) "checkpoint".

Definition modelPath (path : string) : bool :=
  Js.includes (Js.toLowerCase path) "model".

Definition byExtension (e d : string) (pathMatch : option (string -> bool))
    : ModelFilePattern :=
  mkModelFilePattern (Some e) None d pathMatch.

Definition byFilename (n d : string) (pathMatch : option (string -> bool))
    : ModelFilePattern :=
  mkModelFilePattern None (Some n) d pathMatch.

Definition MODEL_FILE_PATTERNS : list ModelFilePattern :=
  [byExtension ".gguf" "GGUF model file (llama.cpp format)" None;
   byExtension ".safetensors" "SafeTensors model file" None;
   byExtension ".bin" "Binary model file" (Some modelOrCheckpointPath);
   byFilename "tokenizer.json" "Tokenizer configuration" None;
   byFilename "tokenizer.model" "Tokenizer model" None;
   byFilename "tokenizer_config.json" "Tokenizer configuration" None;
   byFilename "config.json" "Model configuration" (Some modelPath);
   byFilename "generation_config.json" "Generation configuration" None;
   byFilename "Modelfile" "Ollama Modelfile" None;
   byFilename "ollama.yaml" "Ollama configuration" None;
   byFilename "model_index.json" "Model index file" None].

(** [path.split('/').pop()] *)
Definition fileNameOf (path : string) : string :=
  last (Js.split path "/") "".

Fixpoint hasDot (s : string) : bool :=
  match s with
  | EmptyString => false
  | String c r => Ascii.eqb c "." || hasDot r
  end.

(** [fileName.match(/\.[^.]+$/)?.[0] || '']: the text from the last
    dot on, unless nothing follows that dot. *)
Fixpoint extensionOf (fileName : string) : string :=
  match fileName with
  | EmptyString => EmptyString
  | String c r =>
      if Ascii.eqb c "." && Js.truthy r && negb (hasDot r) then fileName
      else extensionOf r
  end.

Definition optTruthy (o : option string) : option string := Bom.strTruthy o.

(** The value of [isMatch] after the two tests of the inner loop. *)
Definition isMatch (pattern : ModelFilePattern) (entry : Pipeline.TreeEntry)
    : bool :=
  let fileName := fileNameOf (Pipeline.te_path entry) in
  let ext := extensionOf fileName in
  let pathOk :=
    match mp_pathMatch pattern with
    | None => true
    | Some test => test (Pipeline.te_path entry)
    end in
  let afterExtension :=
    match optTruthy (mp_extension pattern) with
    | Some e => if String.eqb ext e then pathOk else false
    | None => false
    end in
  match optTruthy (mp_filename pattern) with
  | Some n => if String.eqb fileName n then pathOk else afterExtension
  | None => afterExtension
  end.

(** [pattern.extension || pattern.filename] *)
Definition patternKey (pattern : ModelFilePattern) : string :=
  match optTruthy (mp_extension pattern) with
  | Some e => e
  | None => match mp_filename pattern with Some n => n | None => "" end
  end.

Record ModelFile := mkModelFile {
  mf_file : string;
  mf_size : nat
}.

Record ModelFileGroup := mkModelFileGroup {
  mg_description : string;
  mg_files : list ModelFile
}.

Definition fileOf (entry : Pipeline.TreeEntry) : ModelFile :=
  mkModelFile (Pipeline.te_path entry)
    (match Pipeline.te_size entry with Some n => n | None => 0 end).

(** Body of the inner loop. *)
Definition recordMatch (entry : Pipeline.TreeEntry)
    (modelFiles : JsMap.t ModelFileGroup) (pattern : ModelFilePattern)
    : JsMap.t ModelFileGroup :=
  if isMatch pattern entry then
    let key := patternKey pattern in
    let modelFiles' :=
      if negb (JsMap.has modelFiles key)
      then JsMap.set modelFiles key
             (mkModelFileGroup (mp_description pattern) [])
      else modelFiles in
    match JsMap.get modelFiles' key with
    | Some g =>
        JsMap.set modelFiles' key
          (mkModelFileGroup (mg_description g) (mg_files g ++ [fileOf entry]))
    | None => modelFiles'
    end
  else modelFiles.

(** [key.replace(/[^a-zA-Z0-9]/g, '-')] *)
Fixpoint sanitize (s : string) : string :=
  match s with
  | EmptyString => EmptyString
  | String c r => String (if Js.isAlnum c then c else "-"%char) (sanitize r)
  end.

Definition modelFinding (key : string) (data : ModelFileGroup) : Finding :=
  let n := List.length (mg_files data) in
  plainFinding
    ("models-" ++ sanitize key)%string
    ("Local Model Files: " ++ mg_description data)%string
    "models" "high"
    (Z.min (Z.of_nat n + 4) 8)
    ("Found " ++ Js.natToString n ++ " " ++ mg_description data
     ++ " file(s)")%string
    (map (fun f =>
            mkEvidence (mf_file f) None
              (Some ("File size: " ++ Js.natToString (mf_size f)
                     ++ " bytes")%string) None)
         (firstn 10 (mg_files data))).

Definition collectModelFiles (patterns : list ModelFilePattern)
    (tree : list Pipeline.TreeEntry) : JsMap.t ModelFileGroup :=
  fold_left (fun modelFiles entry => fold_left (recordMatch entry) patterns modelFiles)
    tree [].

Definition modelsDetector (tree : list Pipeline.TreeEntry) : list Finding :=
  map (fun kv => modelFinding (fst kv) (snd kv))
    (collectModelFiles MODEL_FILE_PATTERNS tree).

End ModelFiles.

Module ModelFilesSpec.
Import ModelFiles.

(** The tree entries one pattern matches, in tree order. *)
Definition matching (pattern : ModelFilePattern)
    (tree : list Pipeline.TreeEntry) : list Pipeline.TreeEntry :=
  filter (isMatch pattern) tree.

(** The finding reported for a pattern and the files it matched. *)
Definition findingFor (pattern : ModelFilePattern)
    (tree : list Pipeline.TreeEntry) : Finding :=
  modelFinding (patternKey pattern)
    (mkModelFileGroup (mp_description pattern)
       (map fileOf (matching pattern tree))).

(** The group a map holds for a key after one more matching entry. *)
Definition pushed (o : option ModelFileGroup) (d : string)
    (entry : Pipeline.TreeEntry) : ModelFileGroup :=
  match o with
  | Some g => mkModelFileGroup (mg_description g) (mg_files g ++ [fileOf entry])
  | None => mkModelFileGroup d [fileOf entry]
  end.

Definition keyIs (k : string) (p : ModelFilePattern) : bool :=
  String.eqb (patternKey p) k.

(** What the map holds for key [k] once the entries [tree] are
    processed. *)
Definition expected (ps : list ModelFilePattern)
    (tree : list Pipeline.TreeEntry) (k : string) : option ModelFileGroup :=
  match find (keyIs k) ps with
  | Some p =>
      match matching p tree with
      | [] => None
      | l => Some (mkModelFileGroup (mp_description p) (map fileOf l))
      end
  | None => None
  end.

End ModelFilesSpec.

Module ConfidenceSpec.

(** The order of the confidence levels. *)
Definition confidenceRank (c : ConfidenceLevel) : nat :=
  match c with
  | NoDetection => 0
  | Low => 1
  | High => 2
  | VeryHigh => 3
  end.

End ConfidenceSpec.

(* ================================================================== *)
(** ** Requirements files (detector: dependencies, manual parsing) *)
(* ================================================================== *)

Module Manifest.

(** [LLM_DEPENDENCIES.python] *)
Definition LLM_DEPENDENCIES_python : list string :=
  ["openai"; "anthropic"; "google-generativeai"; "langchain";
   "langchain-openai"; "langchain-anthropic"; "langchain-google-genai";
   "llama-index"; "llama-index-core"; "haystack-ai"; "transformers";
   "sentence-transformers"; "vllm"; "huggingface-hub"; "llama-cpp-python";
   "litellm"; "cohere"; "replicate"; "stability-sdk"; "together";
   "pinecone-client"; "chromadb"; "weaviate-client"; "qdrant-client";
   "faiss-cpu"; "faiss-gpu"].

Definition newline : ascii := "010"%char.

(** The character class [[a-zA-Z0-9\-_.]]. *)
Definition isNameChar (c : ascii) : bool :=
  Js.isAlnum c || Ascii.eqb c "-" || Ascii.eqb c "_" || Ascii.eqb c ".".

(** The character class [[>=<~!]]. *)
Definition isOpChar (c : ascii) : bool :=
  Ascii.eqb c ">" || Ascii.eqb c "=" || Ascii.eqb c "<" || Ascii.eqb c "~"
  || Ascii.eqb c "!".

(** A letter: what [[a-z]] matches under the [i] flag. *)
Definition isLetter (c : ascii) : bool :=
  let n := nat_of_ascii c in
  ((65 <=? n) && (n <=? 90) || (97 <=? n) && (n <=? 122))%nat.

(** A character the regular expression [.] does not match. *)
Definition isLineTerminator (c : ascii) : bool :=
  Ascii.eqb c "010" || Ascii.eqb c "013".

Fixpoint takeWhile (p : ascii -> bool) (s : string) : string :=
  match s with
  | EmptyString => EmptyString
  | String c r => if p c then String c (takeWhile p r) else EmptyString
  end.

Fixpoint dropWhile (p : ascii -> bool) (s : string) : string :=
  match s with
  | EmptyString => EmptyString
  | String c r => if p c then dropWhile p r else s
  end.

(** [new RegExp(`(^|[^a-z])${l}([^a-z]|$)`, 'i').test(s)] for a lower
    case [l] without regular-expression metacharacters, as all the
    names of [LLM_DEPENDENCIES.python] are: [prev] is the character
    before [s], if any. *)
Fixpoint boundaryTestFrom (prev : option ascii) (s l : string) : bool :=
  (match prev with Some c => negb (isLetter c) | None => true end
   && String.prefix l (Js.toLowerCase s)
   && match String.get (String.length l) s with
      | Some c => negb (isLetter c)
      | None => true
      end)
  || match s with
     | EmptyString => false
     | String c r => boundaryTestFrom (Some c) r l
     end.

Definition boundaryTest (s l : string) : bool := boundaryTestFrom None s l.

(** The [llmDeps.some(...)] test. *)
Definition isLLMDep (llmDeps : list string) (depName : string) : bool :=
  existsb
    (fun llmDep =>
       let llmDepLower := Js.toLowerCase llmDep in
       String.eqb (Js.toLowerCase depName) llmDepLower
       || boundaryTest depName llmDepLower) llmDeps.

(** [match[2] || ''] for [/^([a-zA-Z0-9\-_.]+)([>=<~!]+(.+))?/], given
    what follows the name: the operators and at least one more
    character of the line, the last operator if need be. *)
Definition versionSpecOf (afterName : string) : string :=
  let ops := takeWhile isOpChar afterName in
  let rest := dropWhile isOpChar afterName in
  let more := takeWhile (fun c => negb (isLineTerminator c)) rest in
  if negb (Js.truthy ops) then ""
  else if Js.truthy more then (ops ++ more)%string
  else if (2 <=? String.length ops)%nat then ops
  else "".

Record ManifestDep := mkManifestDep {
  dep_name : string;
  dep_version : string;
  dep_line : nat;
  dep_snippet : string
}.

(** The body of the loop for the line of index [i]. *)
Definition requirementAt (llmDeps : list string) (i : nat) (line : string)
    : list ManifestDep :=
  let trimmed := RepoInput.trim line in
  if negb (Js.truthy trimmed) || Js.startsWith trimmed "#" then []
  else
    let depName := takeWhile isNameChar trimmed in
    if negb (Js.truthy depName) then []
    else
      let versionSpec := versionSpecOf (dropWhile isNameChar trimmed) in
      if isLLMDep llmDeps depName then
        [mkManifestDep depName
           (if Js.truthy versionSpec then dropWhile isOpChar versionSpec
            else "unspecified")
           (i + 1) trimmed]
      else [].

Fixpoint requirementsFrom (llmDeps : list string) (i : nat)
    (lines : list string) : list ManifestDep :=
  match lines with
  | [] => []
  | line :: rest =>
      requirementAt llmDeps i line ++ requirementsFrom llmDeps (S i) rest
  end.

Definition findInRequirements (content : string) (llmDeps : list string)
    : list ManifestDep :=
  requirementsFrom llmDeps 0 (Js.split content newline).

End Manifest.

Module ManifestSpec.
Import Manifest.

(** Every character of [s] satisfies [p]. *)
Fixpoint allChars (p : ascii -> bool) (s : string) : bool :=
  match s with
  | EmptyString => true
  | String c r => p c && allChars p r
  end.

Fixpoint lastChar (s : string) : option ascii :=
  match s with
  | EmptyString => None
  | String c r =>
      match lastChar r with
      | Some d => Some d
      | None => Some c
      end
  end.

(** Names that stand for themselves inside a regular expression:
    letters, digits, [-] and [_] only. All of [LLM_DEPENDENCIES.python]
    are such names; the boundary test is the one of the source on
    them. *)
Definition isPlainChar (c : ascii) : bool :=
  Js.isAlnum c || Ascii.eqb c "-" || Ascii.eqb c "_".

Definition plainNames (llmDeps : list string) : bool :=
  forallb (allChars isPlainChar) llmDeps.

(** A list of line numbers that goes strictly up. *)
Fixpoint increasing (l : list nat) : Prop :=
  match l with
  | a :: (b :: _) as r => a < b /\ increasing r
  | _ => True
  end.

(** A package name as a requirements line can carry it. *)
Definition packageName (n : string) : Prop :=
  n <> "" /\ allChars isNameChar n = true.

(** A version as a pinned requirement can carry it: not empty, on one
    line, not starting with an operator character, not ending in white
    space. *)
Definition pinnedVersion (v : string) : Prop :=
  v <> ""
  /\ allChars (fun c => negb (isLineTerminator c)) v = true
  /\ match v with String c _ => isOpChar c = false | EmptyString => True end
  /\ match lastChar v with
     | Some c => RepoInput.isSpace c = false
     | None => True
     end.

(** The line that pins package [n] to version [v]. *)
Definition pinLine (req : string * string) : string :=
  (fst req ++ "==" ++ snd req)%string.

(** A requirements file with one pin per line. *)
Definition requirementsFile (reqs : list (string * string)) : string :=
  String.concat (String newline "") (map pinLine reqs).

(** What is read back from the pins, from line index [i] on. *)
Fixpoint pinsFrom (llmDeps : list string) (i : nat)
    (reqs : list (string * string)) : list ManifestDep :=
  match reqs with
  | [] => []
  | req :: rest =>
      (if isLLMDep llmDeps (fst req)
       then [mkManifestDep (fst req) (snd req) (i + 1) (pinLine req)]
       else [])
      ++ pinsFrom llmDeps (S i) rest
  end.

End ManifestSpec.

(* ================================================================== *)
(** * Properties *)
(* ================================================================== *)

(* ------------------------------------------------------------------ *)
(** ** Maps and sets *)
(* ------------------------------------------------------------------ *)

Section MapFacts.
Context {V : Type}.
Implicit Types (m : JsMap.t V) (k : string) (v : V).

Lemma get_set_same m k v : JsMap.get (JsMap.set m k v) k = Some v.
Proof.
  induction m as [|[k' v'] r IH]; simpl.
  - now rewrite String.eqb_refl.
  - destruct (String.eqb k' k) eqn:E; simpl.
    + now rewrite String.eqb_refl.
    + now rewrite E.
Qed.

Lemma get_set_other m k k' v :
  k <> k' -> JsMap.get (JsMap.set m k v) k' = JsMap.get m k'.
Proof.
  intros Hne. induction m as [|[k0 v0] r IH]; simpl.
  - destruct (String.eqb_spec k k'); [contradiction | reflexivity].
  - destruct (String.eqb_spec k0 k) as [->|Hk]; simpl.
    + destruct (String.eqb_spec k k'); [contradiction | reflexivity].
    + destruct (String.eqb_spec k0 k'); [reflexivity | exact IH].
Qed.

Lemma has_In_keys m k : JsMap.has m k = true <-> In k (JsMap.keys m).
Proof.
  unfold JsMap.has, JsMap.keys.
  induction m as [|[k0 v0] r IH]; simpl.
  - split; [discriminate | tauto].
  - destruct (String.eqb_spec k0 k) as [->|Hk].
    + split; auto.
    + rewrite IH. split; [auto | intros [H|H]; [contradiction | exact H]].
Qed.

Lemma get_None_keys m k : JsMap.get m k = None <-> ~ In k (JsMap.keys m).
Proof.
  rewrite <- has_In_keys. unfold JsMap.has.
  destruct (JsMap.get m k); split; intros H; try discriminate; auto.
  exfalso; apply H; reflexivity.
Qed.

Lemma keys_set m k v :
  JsMap.keys (JsMap.set m k v)
  = if JsMap.has m k then JsMap.keys m else JsMap.keys m ++ [k].
Proof.
  unfold JsMap.has, JsMap.keys.
  induction m as [|[k0 v0] r IH]; simpl; [reflexivity|].
  destruct (String.eqb_spec k0 k) as [->|Hk]; simpl; [reflexivity|].
  rewrite IH. now destruct (JsMap.get r k).
Qed.

Lemma NoDup_keys_set m k v :
  NoDup (JsMap.keys m) -> NoDup (JsMap.keys (JsMap.set m k v)).
Proof.
  intros Hnd. rewrite keys_set.
  destruct (JsMap.has m k) eqn:E; [exact Hnd|].
  apply NoDup_app; [exact Hnd | repeat constructor; simpl; tauto |].
  intros x Hx [<-|[]].
  apply has_In_keys in Hx. congruence.
Qed.

Lemma length_set m k v :
  List.length (JsMap.set m k v)
  = if JsMap.has m k then List.length m else S (List.length m).
Proof.
  unfold JsMap.has.
  induction m as [|[k0 v0] r IH]; simpl; [reflexivity|].
  destruct (String.eqb_spec k0 k) as [->|Hk]; simpl; [reflexivity|].
  rewrite IH. now destruct (JsMap.get r k).
Qed.

Lemma get_In m k v : JsMap.get m k = Some v -> In (k, v) m.
Proof.
  induction m as [|[k0 v0] r IH]; simpl; [discriminate|].
  destruct (String.eqb_spec k0 k) as [->|Hk].
  - intros [= ->]. now left.
  - intros H. right. now apply IH.
Qed.

Lemma In_get m k v :
  NoDup (JsMap.keys m) -> In (k, v) m -> JsMap.get m k = Some v.
Proof.
  unfold JsMap.keys.
  induction m as [|[k0 v0] r IH]; simpl; [tauto|].
  intros Hnd [H|H].
  - injection H as -> ->. now rewrite String.eqb_refl.
  - inversion Hnd as [|? ? Hnotin Hnd']; subst.
    destruct (String.eqb_spec k0 k) as [->|Hk].
    + exfalso. apply Hnotin. now apply (in_map fst) in H.
    + now apply IH.
Qed.

End MapFacts.

Section SetFacts.

Lemma set_has_In s x : JsSet.has s x = true <-> In x s.
Proof.
  unfold JsSet.has. rewrite existsb_exists. split.
  - intros [y [Hy E]]. apply String.eqb_eq in E. now subst.
  - intros H. exists x. split; [exact H | apply String.eqb_refl].
Qed.

Lemma In_set_add s x y : In y (JsSet.add s x) <-> In y s \/ y = x.
Proof.
  unfold JsSet.add. destruct (JsSet.has s x) eqn:E.
  - apply set_has_In in E. split; [auto | intros [H| ->]; assumption].
  - rewrite in_app_iff. simpl. intuition (subst; auto).
Qed.

Lemma In_set_addAll xs : forall s y,
  In y (JsSet.addAll s xs) <-> In y s \/ In y xs.
Proof.
  unfold JsSet.addAll.
  induction xs as [|x r IH]; intros s y; simpl; [tauto|].
  rewrite IH, In_set_add. split; intros H; intuition (subst; auto).
Qed.

Lemma NoDup_set_add s x : NoDup s -> NoDup (JsSet.add s x).
Proof.
  intros Hnd. unfold JsSet.add. destruct (JsSet.has s x) eqn:E; [exact Hnd|].
  apply NoDup_app; [exact Hnd | repeat constructor; simpl; tauto |].
  intros y Hy [<-|[]]. apply set_has_In in Hy. congruence.
Qed.

Lemma NoDup_set_addAll xs : forall s, NoDup s -> NoDup (JsSet.addAll s xs).
Proof.
  unfold JsSet.addAll.
  induction xs as [|x r IH]; intros s Hnd; simpl; [exact Hnd|].
  apply IH. now apply NoDup_set_add.
Qed.

End SetFacts.

(* ------------------------------------------------------------------ *)
(** ** The reconciler, pass by pass *)
(* ------------------------------------------------------------------ *)

Module ReconcilerFacts.
Import Reconciler ReconcilerSpec.

(** *** First pass *)

Lemma collectDependency_spec m f :
  collectDependency m f
  = match depKey f with Some k => JsMap.set m k f | None => m end.
Proof.
  unfold collectDependency, depKey.
  destruct (dependencyInfo f); [|reflexivity].
  now destruct (String.eqb (category f) "dependencies").
Qed.

Lemma hasKey_true k f : hasKey k f = true <-> depKey f = Some k.
Proof.
  unfold hasKey. destruct (depKey f) as [k'|]; [|split; discriminate].
  rewrite String.eqb_eq. split; congruence.
Qed.

Lemma fold_collect_get fs : forall m k,
  JsMap.get (fold_left collectDependency fs m) k
  = match lastDependency fs k with
    | Some d => Some d
    | None => JsMap.get m k
    end.
Proof.
  induction fs as [|f r IH]; intros m k; simpl; [reflexivity|].
  rewrite IH. destruct (lastDependency r k); [reflexivity|].
  rewrite collectDependency_spec. unfold hasKey.
  destruct (depKey f) as [k'|]; [|reflexivity].
  destruct (String.eqb_spec k' k) as [->|Hne].
  - apply get_set_same.
  - now apply get_set_other.
Qed.

Lemma dependencyMap_get fs k :
  JsMap.get (buildDependencyMap fs) k = lastDependency fs k.
Proof.
  unfold buildDependencyMap. rewrite fold_collect_get.
  now destruct (lastDependency fs k).
Qed.

Lemma fold_collect_NoDup fs : forall m,
  NoDup (JsMap.keys m) -> NoDup (JsMap.keys (fold_left collectDependency fs m)).
Proof.
  induction fs as [|f r IH]; intros m Hnd; simpl; [exact Hnd|].
  apply IH. rewrite collectDependency_spec.
  destruct (depKey f); [now apply NoDup_keys_set | exact Hnd].
Qed.

Lemma dependencyMap_NoDup fs : NoDup (JsMap.keys (buildDependencyMap fs)).
Proof. apply fold_collect_NoDup. constructor. Qed.

Lemma fold_collect_length fs : forall m,
  List.length (fold_left collectDependency fs m)
  <= List.length m
     + List.length (filter (fun f => String.eqb (category f) "dependencies") fs).
Proof.
  induction fs as [|f r IH]; intros m; simpl; [lia|].
  etransitivity; [apply IH|].
  unfold collectDependency.
  destruct (dependencyInfo f) as [info|].
  - destruct (String.eqb (category f) "dependencies"); simpl; [|lia].
    rewrite length_set. destruct (JsMap.has m _); lia.
  - destruct (String.eqb (category f) "dependencies"); simpl; lia.
Qed.

Lemma lastDependency_In fs k d :
  lastDependency fs k = Some d -> In d fs /\ depKey d = Some k.
Proof.
  induction fs as [|f r IH]; simpl; [discriminate|].
  destruct (lastDependency r k) as [d'|].
  - intros [= ->]. destruct IH as [H1 H2]; auto.
  - destruct (hasKey k f) eqn:E; [|discriminate].
    intros [= ->]. apply hasKey_true in E. auto.
Qed.

Lemma lastDependency_some fs k f :
  In f fs -> depKey f = Some k -> exists d, lastDependency fs k = Some d.
Proof.
  induction fs as [|g r IH]; simpl; [tauto|].
  intros [->|Hin] Hk.
  - destruct (lastDependency r k); eauto.
    apply hasKey_true in Hk. rewrite Hk. eauto.
  - destruct (IH Hin Hk) as [d ->]. eauto.
Qed.

Lemma dependencyMap_entry fs k d :
  In (k, d) (buildDependencyMap fs) <-> lastDependency fs k = Some d.
Proof.
  rewrite <- dependencyMap_get. split.
  - apply In_get, dependencyMap_NoDup.
  - apply get_In.
Qed.

(** *** Second pass *)

Lemma getOr_pushCode_same cm k f :
  getOr (pushCode cm k f) k = getOr cm k ++ [f].
Proof.
  unfold pushCode, getOr, JsMap.has.
  destruct (JsMap.get cm k) as [l|] eqn:E; simpl.
  - rewrite E. now rewrite get_set_same.
  - rewrite get_set_same. now rewrite get_set_same.
Qed.

Lemma getOr_pushCode_other cm k k' f :
  k <> k' -> getOr (pushCode cm k f) k' = getOr cm k'.
Proof.
  intros Hne. unfold pushCode, getOr, JsMap.has.
  destruct (JsMap.get cm k) as [l|] eqn:E; simpl.
  - rewrite E. now rewrite get_set_other.
  - rewrite get_set_same. now rewrite !get_set_other.
Qed.

Lemma inner_getOr (t : string) (f : Finding) (dm : JsMap.t Finding) :
  forall cm k,
    NoDup (JsMap.keys dm) ->
    getOr
      (fold_left
         (fun codeMap (entry : string * Finding) =>
            let depPkgName := fst entry in
            let depNameLower := Js.toLowerCase depPkgName in
            if matches t depNameLower
            then pushCode codeMap depPkgName f else codeMap) dm cm) k
    = getOr cm k
      ++ (if JsMap.has dm k && matches t (Js.toLowerCase k) then [f] else []).
Proof.
  induction dm as [|[k0 d0] r IH]; intros cm k Hnd; simpl.
  - now rewrite app_nil_r.
  - inversion Hnd as [|? ? Hnotin Hnd']; subst.
    rewrite IH by exact Hnd'. unfold JsMap.has at 2. simpl.
    destruct (String.eqb_spec k0 k) as [->|Hne]; simpl.
    + assert (Hr : JsMap.has r k = false).
      { destruct (JsMap.has r k) eqn:E; [|reflexivity].
        apply has_In_keys in E. contradiction. }
      rewrite Hr. simpl. rewrite app_nil_r.
      destruct (matches t (Js.toLowerCase k)).
      * apply getOr_pushCode_same.
      * now rewrite app_nil_r.
    + fold (JsMap.has r k).
      destruct (matches t (Js.toLowerCase k0)); [|reflexivity].
      now rewrite getOr_pushCode_other.
Qed.

Lemma matchCode_getOr dm cm f k :
  NoDup (JsMap.keys dm) ->
  getOr (matchCode dm cm f) k
  = getOr cm k ++ (if JsMap.has dm k && matchesKey k f then [f] else []).
Proof.
  intros Hnd. unfold matchCode, matchesKey, eligibleCode.
  destruct (String.eqb (category f) "code" && Js.truthy (title f)); simpl.
  - destruct (Js.includes (Js.toLowerCase (title f)) "openai-compatible"
              || Js.includes (Js.toLowerCase (title f)) "compatible"); simpl.
    + rewrite andb_false_r. now rewrite app_nil_r.
    + now apply inner_getOr.
  - rewrite andb_false_r. now rewrite app_nil_r.
Qed.

Lemma fold_matchCode_getOr dm fs : forall cm k,
  NoDup (JsMap.keys dm) ->
  getOr (fold_left (matchCode dm) fs cm) k
  = getOr cm k ++ (if JsMap.has dm k then codeFor fs k else []).
Proof.
  induction fs as [|f r IH]; intros cm k Hnd; simpl.
  - destruct (JsMap.has dm k); now rewrite app_nil_r.
  - rewrite IH by exact Hnd. rewrite matchCode_getOr by exact Hnd.
    rewrite <- app_assoc. f_equal.
    destruct (JsMap.has dm k); simpl; [|reflexivity].
    now destruct (matchesKey k f).
Qed.

Lemma codeMap_getOr fs k :
  getOr (buildCodeMap (buildDependencyMap fs) fs) k
  = if JsMap.has (buildDependencyMap fs) k then codeFor fs k else [].
Proof.
  unfold buildCodeMap. rewrite fold_matchCode_getOr.
  - reflexivity.
  - apply dependencyMap_NoDup.
Qed.

(** *** Third and last pass *)

Lemma fold_mergeEntry_fst cm dm : forall merged pc,
  fst (fold_left (mergeEntry cm) dm (merged, pc))
  = merged ++ map (entryOut cm) dm.
Proof.
  induction dm as [|[k d] r IH]; intros merged pc; simpl.
  - now rewrite app_nil_r.
  - unfold entryOut at 1. simpl. fold (getOr cm k).
    destruct (0 <? List.length (getOr cm k))%nat;
      rewrite IH, <- app_assoc; reflexivity.
Qed.

Lemma fold_mergeEntry_snd cm dm : forall merged pc x,
  In x (snd (fold_left (mergeEntry cm) dm (merged, pc)))
  <-> In x pc
      \/ exists entry cf, In entry dm /\ In cf (getOr cm (fst entry))
                          /\ id cf = x.
Proof.
  induction dm as [|[k d] r IH]; intros merged pc x; simpl.
  - split; [auto | intros [H | [e [cf [[] _]]]]; exact H].
  - fold (getOr cm k).
    destruct (0 <? List.length (getOr cm k))%nat eqn:E; rewrite IH.
    + rewrite In_set_addAll, in_map_iff. split.
      * intros [[H | [cf [Hid Hcf]]] | [e [cf [He [Hcf Hid]]]]]; auto.
        -- right. exists (k, d), cf. auto.
        -- right. exists e, cf. auto.
      * intros [H | [e [cf [[<- | He] [Hcf Hid]]]]]; auto.
        -- left. right. exists cf. auto.
        -- right. exists e, cf. auto.
    + apply Nat.ltb_ge in E.
      assert (Hnil : getOr cm k = []) by
        (destruct (getOr cm k); [reflexivity | simpl in E; lia]).
      split.
      * intros [H | [e [cf [He [Hcf Hid]]]]]; auto.
        right. exists e, cf. auto.
      * intros [H | [e [cf [[<- | He] [Hcf Hid]]]]]; auto.
        -- simpl in Hcf. rewrite Hnil in Hcf. destruct Hcf.
        -- right. exists e, cf. auto.
Qed.

Lemma fold_keepRest pc fs : forall merged,
  fold_left (keepRest pc) fs merged = merged ++ filter (kept pc) fs.
Proof.
  induction fs as [|f r IH]; intros merged; simpl.
  - now rewrite app_nil_r.
  - rewrite IH. unfold keepRest, kept.
    destruct (String.eqb (category f) "code" && negb (JsSet.has pc (id f)));
      simpl.
    + now rewrite <- app_assoc.
    + destruct (negb (String.eqb (category f) "dependencies")
                && negb (String.eqb (category f) "code")); simpl.
      * now rewrite <- app_assoc.
      * reflexivity.
Qed.

(** The output, in closed form: one finding per registered dependency,
    then the kept findings in input order. *)
Lemma merge_unfold fs :
  mergeDependencyAndCodeFindings fs
  = map (fun entry => outputFor fs (fst entry) (snd entry))
      (buildDependencyMap fs)
    ++ filter (kept (processedCode fs)) fs.
Proof.
  unfold mergeDependencyAndCodeFindings, processedCode.
  set (dm := buildDependencyMap fs).
  set (cm := buildCodeMap dm fs).
  destruct (fold_left (mergeEntry cm) dm ([], [])) as [merged pc] eqn:E.
  assert (Hm : merged = map (entryOut cm) dm).
  { change merged with (fst (merged, pc)). rewrite <- E.
    apply (fold_mergeEntry_fst cm dm [] []). }
  rewrite Hm. simpl.
  rewrite fold_keepRest. f_equal.
  apply map_ext_in. intros [k d] Hin. simpl.
  unfold entryOut, outputFor. simpl.
  unfold cm, dm. rewrite codeMap_getOr.
  assert (Hhas : JsMap.has (buildDependencyMap fs) k = true).
  { apply has_In_keys. unfold JsMap.keys. apply (in_map fst) in Hin. exact Hin. }
  rewrite Hhas. destruct (codeFor fs k); reflexivity.
Qed.

Lemma processedCode_In fs x :
  In x (processedCode fs)
  <-> exists k d cf, lastDependency fs k = Some d /\ In cf (codeFor fs k)
                     /\ id cf = x.
Proof.
  unfold processedCode. rewrite fold_mergeEntry_snd. split.
  - intros [[] | [[k d] [cf [He [Hcf Hid]]]]]. simpl in Hcf.
    rewrite codeMap_getOr in Hcf.
    assert (Hhas : JsMap.has (buildDependencyMap fs) k = true).
    { apply has_In_keys. unfold JsMap.keys. apply (in_map fst) in He. exact He. }
    rewrite Hhas in Hcf. apply dependencyMap_entry in He.
    exists k, d, cf. auto.
  - intros [k [d [cf [Hd [Hcf Hid]]]]]. right.
    exists (k, d), cf. simpl. rewrite codeMap_getOr.
    apply dependencyMap_entry in Hd.
    assert (Hhas : JsMap.has (buildDependencyMap fs) k = true).
    { apply has_In_keys. unfold JsMap.keys. apply (in_map fst) in Hd. exact Hd. }
    rewrite Hhas. auto.
Qed.

End ReconcilerFacts.

(* ------------------------------------------------------------------ *)
(** ** Reconciler: cardinality, pass-through, one finding per package *)
(* ------------------------------------------------------------------ *)

Section ReconcilerProperties.
Import Reconciler ReconcilerSpec ReconcilerFacts.

Lemma filter_disjoint_length {A} (P Q : A -> bool) (l : list A) :
  (forall x, P x = true -> Q x = false) ->
  List.length (filter P l) + List.length (filter Q l) <= List.length l.
Proof.
  intros H. induction l as [|x r IH]; simpl; [lia|].
  destruct (P x) eqn:EP.
  - rewrite (H x EP). simpl. lia.
  - destruct (Q x); simpl; lia.
Qed.

Lemma kept_not_dependency pc f :
  kept pc f = true -> String.eqb (category f) "dependencies" = false.
Proof.
  unfold kept. intros H. apply orb_true_iff in H as [H|H].
  - apply andb_true_iff in H as [H _]. apply String.eqb_eq in H.
    now rewrite H.
  - apply andb_true_iff in H as [H _]. now apply negb_true_iff in H.
Qed.

Lemma depKey_category f k : depKey f = Some k -> category f = "dependencies".
Proof.
  unfold depKey. destruct (dependencyInfo f); [|discriminate].
  destruct (String.eqb_spec (category f) "dependencies"); [auto|discriminate].
Qed.

Lemma matchedCode_intro fs k d g :
  In d fs -> depKey d = Some k -> matchesKey k g = true ->
  matchedCode fs g = true.
Proof.
  intros Hd Hk Hm. unfold matchedCode. apply existsb_exists.
  exists d. split; [exact Hd|]. now rewrite Hk.
Qed.

Lemma outputFor_isDependencyOf fs k k' d :
  depKey d = Some k' ->
  isDependencyOf k (outputFor fs k' d) = String.eqb k' k.
Proof.
  intros Hk. pose proof (depKey_category _ _ Hk) as Hcat.
  unfold depKey in Hk. unfold isDependencyOf, outputFor.
  destruct (dependencyInfo d) as [info|] eqn:Ei; [|discriminate].
  rewrite Hcat in Hk. simpl in Hk. injection Hk as <-.
  destruct (codeFor fs (Js.toLowerCase (name info))); simpl.
  - now rewrite Hcat, Ei.
  - now rewrite Ei.
Qed.

Lemma filter_key_NoDup {V} (m : JsMap.t V) (k : string) :
  NoDup (JsMap.keys m) ->
  filter (fun e => String.eqb (fst e) k) m
  = match JsMap.get m k with Some v => [(k, v)] | None => [] end.
Proof.
  unfold JsMap.keys.
  induction m as [|[k0 v0] r IH]; intros Hnd; simpl; [reflexivity|].
  inversion Hnd as [|? ? Hnotin Hnd']; subst.
  destruct (String.eqb_spec k0 k) as [->|Hne].
  - f_equal. rewrite IH by exact Hnd'.
    destruct (JsMap.get r k) eqn:E; [|reflexivity].
    apply get_In in E. apply (in_map fst) in E. contradiction.
  - now apply IH.
Qed.

Lemma filter_map_comm {A B} (g : A -> B) (P : B -> bool) (l : list A) :
  filter P (map g l) = map g (filter (fun x => P (g x)) l).
Proof.
  induction l as [|x r IH]; simpl; [reflexivity|].
  rewrite IH. now destruct (P (g x)).
Qed.

Lemma filter_none {A} (P : A -> bool) (l : list A) :
  (forall x, In x l -> P x = false) -> filter P l = [].
Proof.
  intros H. induction l as [|x r IH]; simpl; [reflexivity|].
  rewrite (H x) by now left. apply IH. intros y Hy. apply H. now right.
Qed.

(** C10. The dependency findings of the output that belong to one
    package name (compared in lower case) are: none when no input
    finding is registered for it, and otherwise exactly one, built
    from the last input finding registered for that name; every
    dependency finding of the output arises this way. Earlier
    findings for the same name leave no output of their own. *)
Theorem C10_one_dependency_finding_per_package (fs : list Finding) :
  (forall k,
      filter (isDependencyOf k) (mergeDependencyAndCodeFindings fs)
      = match lastDependency fs k with
        | Some d => [outputFor fs k d]
        | None => []
        end)
  /\ (forall f,
         In f (mergeDependencyAndCodeFindings fs) ->
         category f = "dependencies" ->
         exists k d, lastDependency fs k = Some d /\ f = outputFor fs k d).
Proof.
  rewrite merge_unfold. split.
  - intros k. rewrite filter_app.
    rewrite (filter_none (isDependencyOf k) (filter _ fs)).
    2:{ intros x Hx. apply filter_In in Hx as [_ Hx].
        apply kept_not_dependency in Hx. unfold isDependencyOf.
        now rewrite Hx. }
    rewrite app_nil_r, filter_map_comm.
    rewrite (filter_ext_in _ (fun e => String.eqb (fst e) k)).
    2:{ intros [k' d] Hin. simpl. apply dependencyMap_entry in Hin.
        apply lastDependency_In in Hin as [_ Hk].
        now apply outputFor_isDependencyOf. }
    rewrite filter_key_NoDup by apply dependencyMap_NoDup.
    rewrite dependencyMap_get. now destruct (lastDependency fs k).
  - intros f Hin Hcat. apply in_app_iff in Hin as [Hin|Hin].
    + apply in_map_iff in Hin as [[k d] [<- Hin]]. simpl.
      apply dependencyMap_entry in Hin. eauto.
    + apply filter_In in Hin as [_ Hk]. apply kept_not_dependency in Hk.
      rewrite Hcat in Hk. discriminate.
Qed.

(** C9 (as amended). The output is never longer than the input. Every
    finding that is neither a dependency nor a code finding is in the
    output unchanged; so is every code finding whose id is not the id
    of a code finding matched to a dependency; so is the finding
    registered for a package name (the last one for that name) when
    no code finding matches it. *)
Theorem C9_cardinality_and_passthrough (fs : list Finding) :
  List.length (mergeDependencyAndCodeFindings fs) <= List.length fs
  /\ (forall f, In f fs ->
                category f <> "dependencies" -> category f <> "code" ->
                In f (mergeDependencyAndCodeFindings fs))
  /\ (forall f, In f fs -> category f = "code" ->
                (forall g, In g fs -> matchedCode fs g = true ->
                           id g <> id f) ->
                In f (mergeDependencyAndCodeFindings fs))
  /\ (forall k d, lastDependency fs k = Some d -> codeFor fs k = [] ->
                  In d (mergeDependencyAndCodeFindings fs)).
Proof.
  rewrite merge_unfold. repeat split.
  - rewrite length_app, length_map.
    pose proof (fold_collect_length fs []) as Hlen. simpl in Hlen.
    fold (buildDependencyMap fs) in Hlen.
    pose proof (filter_disjoint_length
                  (fun f => String.eqb (category f) "dependencies")
                  (kept (processedCode fs)) fs) as Hd.
    assert (Hdis : forall x,
               String.eqb (category x) "dependencies" = true ->
               kept (processedCode fs) x = false).
    { intros x Hx. destruct (kept (processedCode fs) x) eqn:E; [|reflexivity].
      apply kept_not_dependency in E. congruence. }
    specialize (Hd Hdis). lia.
  - intros f Hin Hd Hc. apply in_app_iff. right. apply filter_In.
    split; [exact Hin|]. unfold kept.
    apply String.eqb_neq in Hd, Hc. rewrite Hd, Hc. reflexivity.
  - intros f Hin Hc Hfree. apply in_app_iff. right. apply filter_In.
    split; [exact Hin|]. unfold kept. rewrite Hc. simpl.
    destruct (JsSet.has (processedCode fs) (id f)) eqn:E; [|reflexivity].
    exfalso. apply set_has_In in E. apply processedCode_In in E.
    destruct E as [k [d [cf [Hd [Hcf Hid]]]]].
    apply filter_In in Hcf as [Hcfin Hm].
    apply lastDependency_In in Hd as [Hdin Hk].
    apply (Hfree cf Hcfin); [|exact Hid].
    now apply (matchedCode_intro fs k d).
  - intros k d Hd Hnone. apply in_app_iff. left.
    apply in_map_iff. exists (k, d). split.
    + simpl. unfold outputFor. now rewrite Hnone.
    + now apply dependencyMap_entry.
Qed.

(** Witness of C9: a metadata finding, an unmatched code finding and
    an unmatched dependency pass through. *)
Lemma C9_witness :
  let fs := [Samples.depOpenAI; Samples.codeCompatible;
             Samples.metadataFinding] in
  In Samples.metadataFinding (mergeDependencyAndCodeFindings fs)
  /\ In Samples.codeCompatible (mergeDependencyAndCodeFindings fs)
  /\ In Samples.depOpenAI (mergeDependencyAndCodeFindings fs).
Proof.
  intros fs.
  destruct (C9_cardinality_and_passthrough fs) as [_ [H2 [H3 H4]]].
  split; [|split].
  - apply H2; [simpl; auto | discriminate | discriminate].
  - apply H3; [simpl; auto | reflexivity |].
    intros g [<-|[<-|[<-|[]]]]; vm_compute; discriminate.
  - apply (H4 "openai"); reflexivity.
Defined.

(** Counterexample to C9 as stated: the same package declared in two
    manifests gives two dependency findings, none of them matched by
    a code finding; the first one is not in the output. *)
Lemma C9_counterexample :
  let fs := [Samples.depOpenAI; Samples.depOpenAIPyproject] in
  In Samples.depOpenAI fs
  /\ category Samples.depOpenAI = "dependencies"
  /\ matchedCode fs Samples.depOpenAI = false
  /\ (forall k, codeFor fs k = [])
  /\ ~ In Samples.depOpenAI (mergeDependencyAndCodeFindings fs).
Proof.
  intros fs. repeat split.
  - now left.
  - intros [H|[]]. discriminate H.
Qed.

End ReconcilerProperties.

(* ------------------------------------------------------------------ *)
(** ** Reconciler: what a merged finding holds *)
(* ------------------------------------------------------------------ *)

Section MergedFinding.
Import Reconciler ReconcilerSpec ReconcilerFacts.

Lemma lastDependency_output fs k d :
  lastDependency fs k = Some d ->
  In (outputFor fs k d) (mergeDependencyAndCodeFindings fs).
Proof.
  intros Hd. rewrite merge_unfold. apply in_app_iff. left.
  apply in_map_iff. exists (k, d). split; [reflexivity|].
  now apply dependencyMap_entry.
Qed.

Lemma outputFor_merged fs k d :
  codeFor fs k <> [] -> outputFor fs k d = mergedFinding d (codeFor fs k).
Proof.
  unfold outputFor. destruct (codeFor fs k); [contradiction | reflexivity].
Qed.

(** C4 (as amended). When code findings match the dependency finding
    registered for a package, the output holds a merged finding with
    the dependency finding's id, the title [<package> - Usage Detected],
    category dependencies, severity [high], the dependency finding's
    weight, its evidence followed by the evidence of the matched code
    findings, its [dependencyInfo], and the code evidence (locations and
    their files) under [codeUsage]. *)
Theorem C4_merged_finding_contents (fs : list Finding) (k : string)
    (d : Finding) (info : DependencyInfo) :
  lastDependency fs k = Some d ->
  dependencyInfo d = Some info ->
  codeFor fs k <> [] ->
  exists m,
    In m (mergeDependencyAndCodeFindings fs)
    /\ id m = id d
    /\ title m = (name info ++ " - Usage Detected")%string
    /\ category m = "dependencies"
    /\ severity m = "high"
    /\ weight m = weight d
    /\ evidence m = evidence d ++ flat_map evidence (codeFor fs k)
    /\ dependencyInfo m = Some info
    /\ codeUsage m
       = Some {| files := flat_map (fun cf => map file (evidence cf))
                            (codeFor fs k);
                 cu_locations := flat_map evidence (codeFor fs k) |}.
Proof.
  intros Hd Hinfo Hcode.
  exists (mergedFinding d (codeFor fs k)). split.
  - rewrite <- outputFor_merged by exact Hcode.
    now apply lastDependency_output.
  - unfold mergedFinding; simpl. rewrite Hinfo. repeat split.
Qed.

(** Witness of C4: the [openai] dependency and the OpenAI SDK code
    finding. *)
Lemma C4_witness :
  exists m,
    In m (mergeDependencyAndCodeFindings
            [Samples.depOpenAI; Samples.codeOpenAI])
    /\ id m = "dep-python-openai"
    /\ title m = "openai - Usage Detected"
    /\ category m = "dependencies"
    /\ severity m = "high"
    /\ weight m = 5%Z
    /\ evidence m = [Samples.evRequirements; Samples.evApp]
    /\ dependencyInfo m = Some Samples.openaiInfo
    /\ codeUsage m = Some (mkCodeUsage ["app.py"] [Samples.evApp]).
Proof.
  apply (C4_merged_finding_contents
           [Samples.depOpenAI; Samples.codeOpenAI] "openai"
           Samples.depOpenAI Samples.openaiInfo).
  - reflexivity.
  - reflexivity.
  - vm_compute. discriminate.
Defined.

(** Counterexample to C4 as stated: a dependency finding of severity
    [medium] matched by a code finding is merged into a finding of
    severity [high]; no output finding keeps the dependency finding's
    severity. *)
Lemma C4_counterexample :
  let fs := [Samples.depOpenAIMedium; Samples.codeOpenAI] in
  lastDependency fs "openai" = Some Samples.depOpenAIMedium
  /\ codeFor fs "openai" = [Samples.codeOpenAI]
  /\ mergeDependencyAndCodeFindings fs
     = [mergedFinding Samples.depOpenAIMedium [Samples.codeOpenAI]]
  /\ severity Samples.depOpenAIMedium = "medium"
  /\ (forall m, In m (mergeDependencyAndCodeFindings fs) ->
                severity m <> severity Samples.depOpenAIMedium).
Proof.
  intros fs. repeat split.
  intros m [<-|[]]. discriminate.
Qed.

Lemma string_length_append (a b : string) :
  String.length (a ++ b) = String.length a + String.length b.
Proof. induction a as [|c a IH]; simpl; [reflexivity | now rewrite IH]. Qed.

Lemma append_cancel_r (a b s : string) :
  (a ++ s)%string = (b ++ s)%string -> a = b.
Proof.
  intros H.
  assert (Hlen : String.length a = String.length b).
  { apply (f_equal String.length) in H.
    rewrite !string_length_append in H. lia. }
  revert b H Hlen. induction a as [|c a IH]; intros [|c' b] H Hlen;
    simpl in *; try discriminate; [reflexivity|].
  injection H as -> H. f_equal. apply IH; [exact H | lia].
Qed.

Lemma compatible_not_eligible c :
  title c = "OpenAI-compatible API Endpoint Detected" -> eligibleCode c = false.
Proof.
  intros Ht. unfold eligibleCode. rewrite Ht.
  now rewrite andb_false_r.
Qed.

(** C3 (as amended). In a finding list where the finding registered for
    [openai] (the last dependency finding whose name is [openai] in
    lower case) is a dependency finding [d] named [openai] with
    evidence, where a code finding [c] titled "OpenAI SDK Usage
    Detected" has evidence at app.py:10 and where no finding bears the
    title "openai - Usage Detected" already, the output has exactly one
    finding with that title; it carries [d]'s id and at least two
    evidence entries, the one at app.py:10 among them, and [c] itself
    is no longer in the output. A code finding titled
    "OpenAI-compatible API Endpoint Detected" is in no dependency's
    list of matched code findings, for any input. *)
Theorem C3_openai_merge (fs : list Finding) (d c : Finding)
    (info : DependencyInfo) (sn u : option string) :
  lastDependency fs "openai" = Some d ->
  dependencyInfo d = Some info ->
  name info = "openai" ->
  evidence d <> [] ->
  In c fs ->
  category c = "code" ->
  title c = "OpenAI SDK Usage Detected" ->
  In (mkEvidence "app.py" (Some 10) sn u) (evidence c) ->
  (forall f, In f fs -> title f <> "openai - Usage Detected") ->
  (exists m,
      filter (titled "openai - Usage Detected")
        (mergeDependencyAndCodeFindings fs) = [m]
      /\ id m = id d
      /\ 2 <= List.length (evidence m)
      /\ In (mkEvidence "app.py" (Some 10) sn u) (evidence m)
      /\ ~ In c (mergeDependencyAndCodeFindings fs))
  /\ (forall fs' k l c',
         title c' = "OpenAI-compatible API Endpoint Detected" ->
         JsMap.get (buildCodeMap (buildDependencyMap fs') fs') k = Some l ->
         ~ In c' l).
Proof.
  intros Hd Hinfo Hname Hev Hc Hcat Htitle Hloc Hfresh. split.
  - assert (Hmatch : matchesKey "openai" c = true).
    { unfold matchesKey, eligibleCode. rewrite Hcat, Htitle. reflexivity. }
    assert (Hcode : In c (codeFor fs "openai")).
    { apply filter_In. auto. }
    assert (Hne : codeFor fs "openai" <> []).
    { intros E. rewrite E in Hcode. destruct Hcode. }
    set (m := mergedFinding d (codeFor fs "openai")).
    assert (Hmt : title m = "openai - Usage Detected").
    { unfold m, mergedFinding; simpl. now rewrite Hinfo, Hname. }
    exists m. repeat split.
    + rewrite merge_unfold, filter_app.
      rewrite (filter_none _ (filter _ fs)).
      2:{ intros x Hx. apply filter_In in Hx as [Hx _].
          unfold titled. apply String.eqb_neq. now apply Hfresh. }
      rewrite app_nil_r, filter_map_comm.
      rewrite (filter_ext_in _ (fun e => String.eqb (fst e) "openai")).
      2:{ intros [k' d'] Hin. simpl. apply dependencyMap_entry in Hin.
          pose proof (lastDependency_In _ _ _ Hin) as [Hd'in Hk'].
          unfold titled, outputFor.
          destruct (codeFor fs k') as [|cf cfs] eqn:Ecf.
          - assert (Hnot : k' <> "openai").
            { intros ->. now rewrite Ecf in Hne. }
            apply String.eqb_neq in Hnot. rewrite Hnot.
            apply String.eqb_neq. now apply Hfresh.
          - unfold mergedFinding; simpl.
            unfold depKey in Hk'.
            destruct (dependencyInfo d') as [info'|] eqn:Ei'; [|discriminate].
            destruct (String.eqb (category d') "dependencies"); [|discriminate].
            injection Hk' as <-.
            destruct (String.eqb_spec (name info' ++ " - Usage Detected")
                        "openai - Usage Detected") as [E|E].
            + apply (append_cancel_r _ "openai") in E. rewrite E. reflexivity.
            + symmetry. apply String.eqb_neq. intros E'. apply E.
              assert (Hsame : d' = d).
              { rewrite E' in Hin. congruence. }
              subst d'.
              assert (info' = info) by congruence. subst info'.
              now rewrite Hname. }
      rewrite filter_key_NoDup by apply dependencyMap_NoDup.
      rewrite dependencyMap_get, Hd. simpl.
      now rewrite outputFor_merged.
    + unfold m, mergedFinding; simpl. rewrite length_app.
      assert (1 <= List.length (evidence d)) by
        (destruct (evidence d); [contradiction | simpl; lia]).
      assert (1 <= List.length (flat_map evidence (codeFor fs "openai"))).
      { assert (Hin : In (mkEvidence "app.py" (Some 10) sn u)
                        (flat_map evidence (codeFor fs "openai"))).
        { apply in_flat_map. exists c. auto. }
        destruct (flat_map evidence (codeFor fs "openai"));
          [destruct Hin | simpl; lia]. }
      lia.
    + unfold m, mergedFinding; simpl. apply in_app_iff. right.
      apply in_flat_map. exists c. auto.
    + rewrite merge_unfold. intros Hin. apply in_app_iff in Hin as [Hin|Hin].
      * apply in_map_iff in Hin as [[k' d'] [Heq Hin]]. simpl in Heq.
        apply dependencyMap_entry in Hin.
        apply lastDependency_In in Hin as [_ Hk'].
        pose proof (outputFor_isDependencyOf fs k' k' d' Hk') as Hdep.
        rewrite Heq in Hdep. unfold isDependencyOf in Hdep.
        rewrite Hcat in Hdep. simpl in Hdep.
        rewrite String.eqb_refl in Hdep. discriminate.
      * apply filter_In in Hin as [_ Hk]. unfold kept in Hk.
        rewrite Hcat in Hk. simpl in Hk. rewrite orb_false_r in Hk.
        apply negb_true_iff in Hk.
        assert (Hp : In (id c) (processedCode fs)).
        { apply processedCode_In. exists "openai", d, c. auto. }
        apply set_has_In in Hp. congruence.
  - intros fs' k l c' Ht Hget Hin.
    pose proof (codeMap_getOr fs' k) as Hg. unfold getOr in Hg.
    rewrite Hget in Hg. subst l.
    destruct (JsMap.has (buildDependencyMap fs') k); [|destruct Hin].
    apply filter_In in Hin as [_ Hm]. unfold matchesKey in Hm.
    rewrite (compatible_not_eligible c' Ht) in Hm. discriminate.
Qed.

(** Witness of C3: the dependency, the SDK code finding and the
    compatible-endpoint code finding together. *)
Lemma C3_witness :
  let fs := [Samples.depOpenAI; Samples.codeOpenAI; Samples.codeCompatible] in
  (exists m,
      filter (titled "openai - Usage Detected")
        (mergeDependencyAndCodeFindings fs) = [m]
      /\ id m = id Samples.depOpenAI
      /\ 2 <= List.length (evidence m)
      /\ In Samples.evApp (evidence m)
      /\ ~ In Samples.codeOpenAI (mergeDependencyAndCodeFindings fs))
  /\ (forall fs' k l c',
         title c' = "OpenAI-compatible API Endpoint Detected" ->
         JsMap.get (buildCodeMap (buildDependencyMap fs') fs') k = Some l ->
         ~ In c' l).
Proof.
  intros fs.
  apply (C3_openai_merge fs Samples.depOpenAI Samples.codeOpenAI
           Samples.openaiInfo (Some "from openai import OpenAI") None).
  - reflexivity.
  - reflexivity.
  - reflexivity.
  - discriminate.
  - simpl; auto.
  - reflexivity.
  - reflexivity.
  - now left.
  - intros f [<-|[<-|[<-|[]]]]; discriminate.
Defined.

(** Counterexamples to C3 as stated, each a list containing an [openai]
    dependency finding and the SDK code finding with evidence at
    app.py:10. With the package declared a second time as [OpenAI], the
    one merged finding is titled "OpenAI - Usage Detected" and none is
    titled "openai - Usage Detected". With a dependency finding that has
    no evidence, the merged finding has one evidence entry. With a
    finding already titled "openai - Usage Detected", two findings of
    the output bear the title. *)
Lemma C3_counterexample :
  (In Samples.depOpenAI
      [Samples.depOpenAI; Samples.codeOpenAI; Samples.depOpenAICapitalized]
   /\ In Samples.codeOpenAI
        [Samples.depOpenAI; Samples.codeOpenAI; Samples.depOpenAICapitalized]
   /\ map title
        (mergeDependencyAndCodeFindings
           [Samples.depOpenAI; Samples.codeOpenAI;
            Samples.depOpenAICapitalized])
      = ["OpenAI - Usage Detected"])
  /\ map (fun f => (title f, List.length (evidence f)))
       (mergeDependencyAndCodeFindings
          [Samples.depOpenAINoEvidence; Samples.codeOpenAI])
     = [("openai - Usage Detected", 1)]
  /\ List.length
       (filter (titled "openai - Usage Detected")
          (mergeDependencyAndCodeFindings
             [Samples.depOpenAI; Samples.codeOpenAI; Samples.alreadyTitled]))
     = 2.
Proof.
  split; [split; [|split] | split].
  - now left.
  - right. now left.
  - reflexivity.
  - reflexivity.
  - reflexivity.
Qed.

(** The test scenario of the specification, evaluated. *)
Example merge_openai_scenario :
  mergeDependencyAndCodeFindings
    [Samples.depOpenAI; Samples.codeOpenAI; Samples.codeCompatible]
  = [mergedFinding Samples.depOpenAI [Samples.codeOpenAI];
     Samples.codeCompatible]
  /\ mergeDependencyAndCodeFindings [Samples.depOpenAI; Samples.codeCompatible]
     = [Samples.depOpenAI; Samples.codeCompatible].
Proof. split; reflexivity. Qed.

End MergedFinding.

(* ------------------------------------------------------------------ *)
(** ** Score and governance findings *)
(* ------------------------------------------------------------------ *)

Section Score.

Lemma fold_score fs : forall acc,
  fold_left (fun sum finding => (sum + weight finding)%Z) fs acc
  = (acc + sumWeights fs)%Z.
Proof.
  induction fs as [|f r IH]; intros acc; simpl; [lia|].
  rewrite IH. lia.
Qed.

Lemma sumWeights_app fs gs :
  sumWeights (fs ++ gs) = (sumWeights fs + sumWeights gs)%Z.
Proof. induction fs as [|f r IH]; simpl; [reflexivity | rewrite IH; lia]. Qed.

Lemma riskFindings_weight pd f :
  In f (Risk.riskFindings pd) -> weight f = 0%Z /\ category f = "governance".
Proof.
  unfold Risk.riskFindings. intros H.
  repeat (apply in_app_iff in H as [H|H]);
    match type of H with
    | In _ (if ?b then _ else _) => destruct b
    end; simpl in H; try tauto;
    destruct H as [<-|[]]; split; reflexivity.
Qed.

Lemma sumWeights_zero fs :
  (forall f, In f fs -> weight f = 0%Z) -> sumWeights fs = 0%Z.
Proof.
  induction fs as [|f r IH]; intros H; simpl; [reflexivity|].
  rewrite (H f) by now left. rewrite IH; [reflexivity|].
  intros g Hg. apply H. now right.
Qed.

(** C5. The score is the sum of the weights; every finding the risk
    assessment unit creates has weight 0 (and category governance); so
    a finding list scores the same with or without them. *)
Theorem C5_score_is_weight_sum (fs gs : list Finding) (pd : ParsedDocs) :
  calculateScore fs = sumWeights fs
  /\ Forall (fun f => weight f = 0%Z /\ category f = "governance")
       (Risk.riskFindings pd)
  /\ calculateScore (fs ++ Risk.riskFindings pd ++ gs)
     = calculateScore (fs ++ gs).
Proof.
  assert (Hz : sumWeights (Risk.riskFindings pd) = 0%Z).
  { apply sumWeights_zero. intros f Hf. now apply (riskFindings_weight pd). }
  unfold calculateScore. split; [|split].
  - rewrite fold_score. lia.
  - apply Forall_forall. intros f Hf. now apply (riskFindings_weight pd).
  - rewrite !fold_score, !sumWeights_app, Hz. lia.
Qed.

(** The risk unit on documentation with limitations and bias notes. *)
Example risk_findings_sample :
  map id (Risk.riskFindings Samples.docs)
  = ["risk-limitations-documented"; "risk-bias-documented"]
  /\ calculateScore
       ([Samples.depOpenAI] ++ Risk.riskFindings Samples.docs) = 5%Z.
Proof. split; reflexivity. Qed.

End Score.

(* ------------------------------------------------------------------ *)
(** ** Model-name validation *)
(* ------------------------------------------------------------------ *)

(** C6. For the registry's generic capture, the filter rejects
    [application/json], [next/head] and [text-white/80], and accepts
    [meta-llama/Llama-3-8B-Instruct]. *)
Theorem C6_model_name_filter :
  ModelName.isValidModelName "application/json" "HuggingFace" = false
  /\ ModelName.isValidModelName "next/head" "HuggingFace" = false
  /\ ModelName.isValidModelName "text-white/80" "HuggingFace" = false
  /\ ModelName.isValidModelName "meta-llama/Llama-3-8B-Instruct" "HuggingFace"
     = true.
Proof. repeat split; reflexivity. Qed.

(* ------------------------------------------------------------------ *)
(** ** BOM synthesis: references and graph shape *)
(* ------------------------------------------------------------------ *)

Section BomFacts.
Import Bom BomSpec.

Lemma values_set_absent {V} (m : JsMap.t V) k v :
  JsMap.has m k = false -> JsMap.values (JsMap.set m k v) = JsMap.values m ++ [v].
Proof.
  unfold JsMap.has, JsMap.values.
  induction m as [|[k0 v0] r IH]; simpl; [reflexivity|].
  destruct (String.eqb_spec k0 k) as [->|Hne]; [discriminate|].
  intros H. simpl. now rewrite IH.
Qed.


Lemma seq_inj (f : nat -> string) (lo n : nat) :
  NoDup (map f (seq lo n)) ->
  forall i j, lo <= i < lo + n -> lo <= j < lo + n -> f i = f j -> i = j.
Proof.
  revert lo. induction n as [|n IH]; intros lo Hnd i j Hi Hj E; [lia|].
  simpl in Hnd. inversion Hnd as [|? ? Hnotin Hnd']; subst.
  assert (Hmem : forall x, S lo <= x < S lo + n -> In (f x) (map f (seq (S lo) n))).
  { intros x Hx. apply in_map, in_seq. lia. }
  destruct (Nat.eq_dec i lo) as [->|Hi'], (Nat.eq_dec j lo) as [->|Hj'].
  - reflexivity.
  - exfalso. apply Hnotin. rewrite E. apply Hmem. lia.
  - exfalso. apply Hnotin. rewrite <- E. apply Hmem. lia.
  - apply (IH (S lo)); [exact Hnd' | lia | lia | exact E].
Qed.

Lemma prefix_append_inj (p a b : string) :
  (p ++ a)%string = (p ++ b)%string -> a = b.
Proof.
  induction p as [|c p IH]; simpl; intros H; [exact H|].
  injection H as H. now apply IH.
Qed.

Lemma synthStep_inv ids lo hi st f :
  (forall i j, lo <= i < hi -> lo <= j < hi -> ids i = ids j -> i = j) ->
  synthInv ids lo st -> nextId st < hi ->
  synthInv ids lo (synthStep ids st f)
  /\ nextId (synthStep ids st f) <= S (nextId st).
Proof.
  intros Hinj (Hlo & Hc & Hm & Hnc & Hnm & Hnl) Hlt.
  unfold synthStep.
  destruct (modelInfo f) as [mi|].
  - destruct (JsMap.has (modelMap st) _) eqn:Ehas; simpl.
    + split; [|lia]. repeat split; auto.
    + split; [|lia]. unfold synthInv; simpl.
      rewrite values_set_absent by exact Ehas.
      split; [lia|]. split; [|split; [|split; [|split]]].
      * intros c Hin. destruct (Hc c Hin) as [i [Hi Hr]].
        exists i. split; [lia | exact Hr].
      * intros mr Hin. apply in_app_iff in Hin as [Hin|[<-|[]]].
        -- destruct (Hm mr Hin) as [i [Hi Hr]]. exists i. split; [lia | exact Hr].
        -- exists (nextId st). simpl. repeat split; lia.
      * exact Hnc.
      * rewrite map_app. simpl. apply NoDup_app; [exact Hnm | repeat constructor; simpl; tauto |].
        intros r Hr [<-|[]]. apply in_map_iff in Hr as [mr [Hr Hin]].
        destruct (Hm mr Hin) as [i [Hi [Hb _]]]. rewrite Hb in Hr.
        apply (prefix_append_inj "model-" (ids i) (ids (nextId st))) in Hr.
        apply Hinj in Hr; lia.
      * destruct (String.eqb (provider mi) "HuggingFace"); [|exact Hnl].
        destruct (match huggingface mi with
                  | Some hf => strTruthy (library_name hf)
                  | None => None
                  end); now apply NoDup_set_add.
  - split; [|simpl; lia]. unfold synthInv; simpl.
    split; [lia|]. split; [|split; [|split; [|split]]].
    + intros c Hin. apply in_app_iff in Hin as [Hin|[<-|[]]].
      * destruct (Hc c Hin) as [i [Hi Hr]]. exists i. split; [lia | exact Hr].
      * exists (nextId st). simpl. split; [lia | reflexivity].
    + intros mr Hin. destruct (Hm mr Hin) as [i [Hi Hr]].
      exists i. split; [lia | exact Hr].
    + rewrite map_app. simpl. apply NoDup_app; [exact Hnc | repeat constructor; simpl; tauto |].
      intros r Hr [<-|[]]. apply in_map_iff in Hr as [c [Hr Hin]].
      destruct (Hc c Hin) as [i [Hi Hb]]. rewrite Hb in Hr.
      apply (prefix_append_inj "component-" (ids i) (ids (nextId st))) in Hr.
      apply Hinj in Hr; lia.
    + exact Hnm.
    + exact Hnl.
Qed.

Lemma synthFold_inv ids lo hi fs : forall st,
  (forall i j, lo <= i < hi -> lo <= j < hi -> ids i = ids j -> i = j) ->
  synthInv ids lo st -> nextId st + List.length fs <= hi ->
  synthInv ids lo (fold_left (synthStep ids) fs st).
Proof.
  induction fs as [|f r IH]; intros st Hinj Hinv Hlen; simpl; [exact Hinv|].
  simpl in Hlen.
  destruct (synthStep_inv ids lo hi st f Hinj Hinv) as [Hinv' Hn]; [lia|].
  apply IH; [exact Hinj | exact Hinv' | lia].
Qed.

Lemma synthInv_init ids lo : synthInv ids lo (mkSynth [] [] [] lo).
Proof.
  unfold synthInv; simpl. repeat split; try constructor; try tauto; lia.
Qed.

(** Library components: one per known library of the set. *)
Lemma createLibraryComponents_shape deps fs c :
  In c (createLibraryComponents deps fs) ->
  c_type c = "library"
  /\ exists lib, bom_ref c = ("lib-" ++ lib)%string.
Proof.
  unfold createLibraryComponents. intros Hin.
  apply in_flat_map in Hin as [lib [_ Hin]].
  destruct (knownLibraries lib); [|destruct Hin].
  destruct Hin as [<-|[]]. split; [reflexivity | now exists lib].
Qed.

Lemma flat_map_NoDup_refs (l : list string) :
  NoDup l ->
  NoDup (map bom_ref
           (flat_map (fun lib =>
                        match knownLibraries lib with
                        | Some libInfo => [libraryComponent lib libInfo]
                        | None => []
                        end) l)).
Proof.
  induction l as [|x r IH]; intros Hnd; simpl; [constructor|].
  inversion Hnd as [|? ? Hnotin Hnd']; subst.
  rewrite map_app. apply NoDup_app; [| now apply IH |].
  - destruct (knownLibraries x); simpl; repeat constructor; simpl; tauto.
  - intros ref Hx Hr.
    destruct (knownLibraries x); simpl in Hx; [|destruct Hx].
    destruct Hx as [<-|[]].
    apply in_map_iff in Hr as [c [Hr Hin]].
    apply in_flat_map in Hin as [lib [Hlib Hin]].
    destruct (knownLibraries lib); [|destruct Hin].
    destruct Hin as [<-|[]].
    apply (prefix_append_inj "lib-" lib x) in Hr. now subst.
Qed.

Lemma fold_addAll_NoDup (g : Finding -> list string) fs : forall s,
  NoDup s -> NoDup (fold_left (fun deps finding => JsSet.addAll deps (g finding)) fs s).
Proof.
  induction fs as [|f r IH]; intros s Hnd; simpl; [exact Hnd|].
  apply IH. now apply NoDup_set_addAll.
Qed.

Lemma createLibraryComponents_NoDup deps fs :
  NoDup deps -> NoDup (map bom_ref (createLibraryComponents deps fs)).
Proof.
  intros Hnd. unfold createLibraryComponents.
  apply flat_map_NoDup_refs. now apply fold_addAll_NoDup.
Qed.

Lemma synthStep_shape ids st f :
  synthShape st -> synthShape (synthStep ids st f).
Proof.
  intros [Hc Hm]. unfold synthStep.
  destruct (modelInfo f) as [mi|].
  - destruct (JsMap.has (modelMap st) _) eqn:Ehas; simpl; [now split|].
    split; simpl; [exact Hc|].
    rewrite values_set_absent by exact Ehas.
    intros mr Hin. apply in_app_iff in Hin as [Hin|[<-|[]]]; [now apply Hm|].
    simpl. repeat split. now exists (ids (nextId st)).
  - split; simpl; [|exact Hm].
    intros c Hin. apply in_app_iff in Hin as [Hin|[<-|[]]]; [now apply Hc|].
    now exists (ids (nextId st)).
Qed.

Lemma synthFold_shape ids fs : forall st,
  synthShape st -> synthShape (fold_left (synthStep ids) fs st).
Proof.
  induction fs as [|f r IH]; intros st H; simpl; [exact H|].
  apply IH. now apply synthStep_shape.
Qed.

Lemma synthShape_init start : synthShape (mkSynth [] [] [] start).
Proof. split; simpl; tauto. Qed.

(** The shape of every component of the result, by kind. *)
Lemma ml_components_shape ids start fs c :
  In c (ml_components (createMLModelComponents ids start fs)) ->
  (exists x, bom_ref c = ("component-" ++ x)%string)
  \/ (c_type c = "machine-learning-model"
      /\ exists x, bom_ref c = ("model-" ++ x)%string)
  \/ (c_type c = "library" /\ exists x, bom_ref c = ("lib-" ++ x)%string).
Proof.
  unfold createMLModelComponents; simpl.
  destruct (synthFold_shape ids fs _ (synthShape_init start)) as [Hc Hm].
  intros Hin. apply in_app_iff in Hin as [Hin|Hin]; [left; now apply Hc|].
  apply in_app_iff in Hin as [Hin|Hin].
  - right. left. apply in_map_iff in Hin as [mr [<- Hin]].
    destruct (Hm mr Hin) as [[x Hx] [Hb Ht]]. split; [exact Ht|].
    exists x. now rewrite Hb.
  - right. right. now apply createLibraryComponents_shape in Hin.
Qed.

Lemma modelRefs_shape ids start fs mr :
  In mr (modelRefs (createMLModelComponents ids start fs)) ->
  exists x, bomRef mr = ("model-" ++ x)%string.
Proof.
  unfold createMLModelComponents; simpl.
  destruct (synthFold_shape ids fs _ (synthShape_init start)) as [_ Hm].
  intros Hin. now destruct (Hm mr Hin) as [Hx _].
Qed.

(** With distinct identifiers, no two components share a reference. *)
Lemma ml_components_NoDup ids start fs :
  NoDup (map ids (seq start (List.length fs))) ->
  NoDup (map bom_ref (ml_components (createMLModelComponents ids start fs))).
Proof.
  intros Hnd.
  pose proof (seq_inj ids start (List.length fs) Hnd) as Hinj.
  pose proof (synthFold_inv ids start (start + List.length fs) fs
                (mkSynth [] [] [] start) Hinj (synthInv_init ids start)) as Hinv.
  simpl in Hinv. specialize (Hinv (le_n _)).
  destruct Hinv as (_ & Hc & Hm & Hnc & Hnm & Hnl).
  unfold createMLModelComponents; simpl.
  set (st := fold_left (synthStep ids) fs (mkSynth [] [] [] start)) in *.
  rewrite !map_app.
  assert (Hmodels : map bom_ref (map component (JsMap.values (modelMap st)))
                    = map bomRef (JsMap.values (modelMap st))).
  { rewrite map_map. apply map_ext_in. intros mr Hin.
    now destruct (Hm mr Hin) as [i [_ [_ [Hb _]]]]. }
  rewrite Hmodels.
  apply NoDup_app; [exact Hnc | |].
  - apply NoDup_app; [exact Hnm | now apply createLibraryComponents_NoDup |].
    intros r Hr Hl.
    apply in_map_iff in Hr as [mr [Hr Hin]].
    destruct (Hm mr Hin) as [i [_ [Hb _]]].
    apply in_map_iff in Hl as [c [Hl Hlin]].
    apply createLibraryComponents_shape in Hlin as [_ [lib Hlib]].
    rewrite <- Hr, Hb, Hlib in Hl. discriminate Hl.
  - intros r Hr Hrest.
    apply in_map_iff in Hr as [c [Hr Hin]].
    destruct (Hc c Hin) as [i [_ Hb]].
    apply in_app_iff in Hrest as [Hrest|Hrest].
    + apply in_map_iff in Hrest as [mr [Hr' Hin']].
      destruct (Hm mr Hin') as [j [_ [Hb' _]]].
      rewrite <- Hr, Hb, Hb' in Hr'. discriminate Hr'.
    + apply in_map_iff in Hrest as [c' [Hl Hlin]].
      apply createLibraryComponents_shape in Hlin as [_ [lib Hlib]].
      rewrite <- Hr, Hb, Hlib in Hl. discriminate Hl.
Qed.

End BomFacts.

(* ------------------------------------------------------------------ *)
(** ** The serializers compared *)
(* ------------------------------------------------------------------ *)

Section Serializers.
Import Bom BomSpec.


Lemma anonymize_model f mi x y :
  anonymize (modelComponent f mi ("model-" ++ x))
  = anonymize (modelComponent f mi ("model-" ++ y)).
Proof. reflexivity. Qed.





Lemma filter_all {A} (P : A -> bool) (l : list A) :
  (forall x, In x l -> P x = true) -> filter P l = l.
Proof.
  intros H. induction l as [|x r IH]; simpl; [reflexivity|].
  rewrite (H x) by now left. f_equal. apply IH. intros y Hy. apply H. now right.
Qed.


Lemma root_not_lib repository x :
  String.eqb ("lib-" ++ x) (repoRef repository) = false.
Proof. apply String.eqb_neq. discriminate. Qed.


Lemma spdxStep_spec ids ns repoId pkgs rels idx next f :
  exists p rid,
    spdxStep ids ns repoId (pkgs, rels, idx, next) f
    = (pkgs ++ [p],
       rels ++ [mkSpdxRelationship rid "dependsOn" repoId [spdxId p]],
       S idx, S next)
    /\ spdx_name p = spdxNameOf f.
Proof.
  unfold spdxStep, spdxNameOf. destruct (modelInfo f) as [mi|].
  - exists (mkSpdxPackage (ns ++ "/AIPackage-" ++ ids next) "ai_AIPackage"
              (modelName mi) (description f) "latest").
    eexists. split; reflexivity.
  - exists (mkSpdxPackage (ns ++ "/Package-" ++ ids next) "software_Package"
              (title f) (description f) "detected").
    eexists. split; reflexivity.
Qed.

Lemma spdx_fold ids ns repoId fs : forall pkgs rels idx next,
  let r := fold_left (spdxStep ids ns repoId) fs (pkgs, rels, idx, next) in
  map spdx_name (fst (fst (fst r))) = map spdx_name pkgs ++ map spdxNameOf fs
  /\ (flat_map (fun r => map (fun t => (rel_from r, t)) (rel_to r)) rels
      = map (fun p => (repoId, spdxId p)) pkgs ->
      flat_map (fun r => map (fun t => (rel_from r, t)) (rel_to r))
        (snd (fst (fst r)))
      = map (fun p => (repoId, spdxId p)) (fst (fst (fst r)))).
Proof.
  induction fs as [|f rest IH]; intros pkgs rels idx next; cbn [fold_left].
  - simpl. split; [now rewrite app_nil_r | auto].
  - cbv zeta.
    destruct (spdxStep_spec ids ns repoId pkgs rels idx next f)
      as [p [rid [-> Hname]]].
    destruct (IH (pkgs ++ [p])
                (rels ++ [mkSpdxRelationship rid "dependsOn" repoId [spdxId p]])
                (S idx) (S next)) as [Hn He].
    split.
    + rewrite Hn, map_app, <- app_assoc. simpl. now rewrite Hname.
    + intros Hrel. apply He.
      rewrite flat_map_app, map_app, Hrel. reflexivity.
Qed.

Lemma generateSPDX_spec ids start spdxDocId repository fs :
  let spdx := generateSPDX ids start spdxDocId repository fs in
  map spdx_name (packages spdx) = map spdxNameOf fs
  /\ spdxEdges spdx = map (fun p => (spdx_root spdx, spdxId p)) (packages spdx).
Proof.
  unfold generateSPDX, spdxEdges.
  set (ns := ("https://github.com/" ++ owner repository ++ "/"
              ++ repo repository ++ "/spdx/" ++ spdxDocId)%string).
  set (repoId := (ns ++ "/Repository")%string).
  pose proof (spdx_fold ids ns repoId fs [] [] 0 start) as H.
  cbv zeta in H.
  destruct (fold_left (spdxStep ids ns repoId) fs ([], [], 0, start))
    as [[[p r] i] n].
  simpl in *. destruct H as [Hn He]. split; [exact Hn | now apply He].
Qed.



End Serializers.

(* ------------------------------------------------------------------ *)
(** ** The relationship graph of the generated documents *)
(* ------------------------------------------------------------------ *)

Section GraphFacts.
Import Bom BomSpec.

Lemma prefix_nil (x : string) : String.prefix "" x = true.
Proof. now destruct x. Qed.

Lemma startsWith_append (p x : string) : Js.startsWith (p ++ x) p = true.
Proof.
  unfold Js.startsWith. induction p as [|c p IH]; simpl.
  - apply prefix_nil.
  - destruct (ascii_dec c c) as [_|Hne]; [exact IH | contradiction].
Qed.

Lemma rank_root repository : rank (repoRef repository) = 0.
Proof. unfold rank, repoRef. now rewrite startsWith_append. Qed.

Lemma rank_model x : rank ("model-" ++ x) = 1.
Proof. unfold rank. now rewrite (startsWith_append "model-"). Qed.

Lemma rank_component x : rank ("component-" ++ x) = 2.
Proof. reflexivity. Qed.

Lemma rank_lib x : rank ("lib-" ++ x) = 2.
Proof. reflexivity. Qed.

Lemma jsonModelDeps_lib libraryRefIds mr b :
  In b (jsonModelDeps libraryRefIds mr) -> exists x, b = ("lib-" ++ x)%string.
Proof.
  unfold jsonModelDeps. intros H.
  repeat match type of H with
         | In _ (if ?c then _ else _) => destruct c
         | In _ (_ ++ _) => apply in_app_iff in H as [H|H]
         | In _ [_] => destruct H as [<-|[]]
         | In _ [] => destruct H
         end; eexists; reflexivity.
Qed.

Lemma xmlModelDeps_lib libraryRefIds mr b :
  In b (xmlModelDeps libraryRefIds mr) -> exists x, b = ("lib-" ++ x)%string.
Proof.
  unfold xmlModelDeps. intros H.
  repeat match type of H with
         | In _ (if ?c then _ else _) => destruct c
         | In _ (_ ++ _) => apply in_app_iff in H as [H|H]
         | In _ [_] => destruct H as [<-|[]]
         | In _ [] => destruct H
         end; eexists; reflexivity.
Qed.

Lemma count_NoDup (l : list string) r :
  NoDup l -> In r l ->
  List.length (filter (fun x => String.eqb x r) l) = 1.
Proof.
  induction l as [|x l IH]; intros Hnd Hin; [destruct Hin|].
  inversion Hnd as [|? ? Hnotin Hnd']; subst. simpl.
  destruct (String.eqb_spec x r) as [->|Hne].
  - simpl. f_equal. rewrite filter_none; [reflexivity|].
    intros y Hy. apply String.eqb_neq. intros ->. contradiction.
  - destruct Hin as [->|Hin]; [contradiction|]. now apply IH.
Qed.

Lemma ranked_acyclic (R : string -> string -> Prop) (rk : string -> nat) :
  (forall a b, R a b -> rk a < rk b) ->
  forall x, ~ clos_trans string R x x.
Proof.
  intros Hrk.
  assert (Hmono : forall x y, clos_trans string R x y -> rk x < rk y).
  { intros x y H. induction H as [x y H | x y z _ IH1 _ IH2].
    - now apply Hrk.
    - lia. }
  intros x H. apply Hmono in H. lia.
Qed.

(** A document assembled the way both CycloneDX serializers do it. *)
Section Assembled.
Variable repository : Repository.
Variable comps : list Component.
Variable models : list ModelRef.
Variable deps : ModelRef -> list string.
Variable libs : list Component.
Hypothesis comps_shape : forall c, In c comps -> componentShape c.
Hypothesis models_shape :
  forall mr, In mr models -> exists x, bomRef mr = ("model-" ++ x)%string.
Hypothesis deps_shape :
  forall mr b, In b (deps mr) -> exists x, b = ("lib-" ++ x)%string.

Local Abbreviation assembled := (assemble repository comps models deps libs).

Lemma assembled_edges a b :
  edge assembled a b
  <-> (a = repoRef repository /\ In b (map bom_ref comps))
      \/ (exists mr, In mr models /\ a = bomRef mr /\ In b (deps mr)).
Proof.
  unfold edge, edges, assemble. simpl.
  rewrite in_app_iff, flat_map_app, in_app_iff, !in_flat_map.
  rewrite in_map_iff. split.
  - intros [[t [E Hin]] | [[d [Hd Hin]] | [d [Hd Hin]]]].
    + injection E as <- <-. left. auto.
    + apply in_map_iff in Hd as [mr [<- Hmr]]. simpl in Hin.
      apply in_map_iff in Hin as [t [E Hin]]. injection E as <- <-.
      right. exists mr. auto.
    + apply in_map_iff in Hd as [lib [<- _]]. destruct Hin.
  - intros [[-> Hin] | [mr [Hmr [-> Hin]]]].
    + left. exists b. auto.
    + right. left. exists (mkDependency (bomRef mr) (deps mr)).
      split; [apply in_map_iff; eauto | simpl; apply in_map_iff; eauto].
Qed.

Lemma assembled_edge_rank a b : edge assembled a b -> rank a < rank b.
Proof.
  intros H. apply assembled_edges in H as [[-> Hin] | [mr [Hmr [-> Hin]]]].
  - rewrite rank_root. apply in_map_iff in Hin as [c [<- Hc]].
    destruct (comps_shape c Hc) as [[x ->] | [[_ [x ->]] | [_ [x ->]]]].
    + rewrite rank_component. lia.
    + rewrite rank_model. lia.
    + rewrite rank_lib. lia.
  - destruct (models_shape mr Hmr) as [x ->].
    destruct (deps_shape mr b Hin) as [y ->].
    rewrite rank_model, rank_lib. lia.
Qed.

Lemma assembled_library_sink c t :
  In c comps -> c_type c = "library" -> ~ edge assembled (bom_ref c) t.
Proof.
  intros Hc Hlib H.
  apply assembled_edges in H as [[E _] | [mr [Hmr [E _]]]].
  - destruct (comps_shape c Hc) as [[x Hx] | [[_ [x Hx]] | [_ [x Hx]]]];
      rewrite Hx in E; discriminate E.
  - destruct (models_shape mr Hmr) as [y Hy]. rewrite Hy in E.
    destruct (comps_shape c Hc) as [[x Hx] | [[Ht _] | [_ [x Hx]]]].
    + rewrite Hx in E. discriminate E.
    + rewrite Hlib in Ht. discriminate Ht.
    + rewrite Hx in E. discriminate E.
Qed.

Lemma assembled_root_once c :
  NoDup (map bom_ref comps) -> In c comps ->
  List.length (incomingFromRoot assembled (bom_ref c)) = 1.
Proof.
  intros Hnd Hc. unfold incomingFromRoot, edges, assemble. simpl.
  rewrite filter_app, length_app.
  rewrite (filter_none _ (flat_map _ _)).
  2:{ intros [a b] Hin. simpl.
      destruct (String.eqb_spec a (repoRef repository)) as [->|]; [|reflexivity].
      exfalso. apply in_flat_map in Hin as [d [Hd Hin]].
      apply in_app_iff in Hd as [Hd|Hd].
      - apply in_map_iff in Hd as [mr [<- Hmr]]. simpl in Hin.
        apply in_map_iff in Hin as [t [E _]].
        destruct (models_shape mr Hmr) as [x Hx]. rewrite Hx in E.
        discriminate E.
      - apply in_map_iff in Hd as [lib [<- _]]. destruct Hin. }
  simpl (List.length []). rewrite Nat.add_0_r.
  rewrite filter_map_comm, length_map.
  rewrite (filter_ext _ (fun x => String.eqb x (bom_ref c))).
  2:{ intros x. simpl. now rewrite String.eqb_refl. }
  apply count_NoDup; [exact Hnd | now apply in_map].
Qed.

Lemma assembled_acyclic : acyclic assembled.
Proof. exact (ranked_acyclic _ rank assembled_edge_rank). Qed.

End Assembled.

Lemma json_graph ids start repository fs :
  let doc := generateCycloneDXJson ids start repository fs in
  acyclic doc /\ librarySinks doc
  /\ (NoDup (map ids (seq start (List.length fs))) -> rootOnce doc).
Proof.
  set (ml := createMLModelComponents ids start fs).
  assert (Hc : forall c, In c (ml_components ml) -> componentShape c)
    by (intros c; apply ml_components_shape).
  assert (Hm : forall mr, In mr (modelRefs ml) ->
                          exists x, bomRef mr = ("model-" ++ x)%string)
    by (intros mr; apply modelRefs_shape).
  pose (deps := jsonModelDeps (map bom_ref (libraryRefs ml))).
  assert (Hd : forall mr b, In b (deps mr) -> exists x, b = ("lib-" ++ x)%string)
    by (intros mr b; apply jsonModelDeps_lib).
  split; [|split].
  - exact (assembled_acyclic repository _ _ deps (libraryRefs ml) Hc Hm Hd).
  - intros c t.
    exact (assembled_library_sink repository _ _ deps (libraryRefs ml) Hc Hm c t).
  - intros Hnd c Hin.
    apply (assembled_root_once repository _ _ deps (libraryRefs ml) Hm c);
      [now apply ml_components_NoDup | exact Hin].
Qed.

Lemma arrIncludes_In (l : list string) (x : string) :
  Js.arrIncludes l x = true -> In x l.
Proof.
  unfold Js.arrIncludes. intros H. apply existsb_exists in H as [y [Hy E]].
  apply String.eqb_eq in E. now subst.
Qed.

Lemma jsonModelDeps_listed libraryRefIds mr b :
  In b (jsonModelDeps libraryRefIds mr) -> In b libraryRefIds.
Proof.
  unfold jsonModelDeps. intros H.
  repeat match type of H with
         | In _ (if ?c then _ else _) => destruct c eqn:?
         | In _ (_ ++ _) => apply in_app_iff in H as [H|H]
         | In _ [_] => destruct H as [<-|[]]
         | In _ [] => destruct H
         end; apply arrIncludes_In; assumption.
Qed.

(** The JSON document names no reference beside the root and the
    components it lists: the entries of its models and libraries are
    those of the listed components. *)
Lemma json_closed ids start repository fs :
  closed (generateCycloneDXJson ids start repository fs).
Proof.
  unfold closed, generateCycloneDXJson.
  cbn [dependencies mainRef bom_components].
  set (ml := createMLModelComponents ids start fs).
  assert (Hlibs : incl (map bom_ref (libraryRefs ml))
                    (map bom_ref (ml_components ml))).
  { unfold ml, createMLModelComponents. cbn [libraryRefs ml_components].
    intros x Hx. rewrite !map_app, !in_app_iff. right; right; exact Hx. }
  assert (Hmodels : forall mr, In mr (modelRefs ml) ->
                               In (bomRef mr) (map bom_ref (ml_components ml))).
  { unfold ml, createMLModelComponents. cbn [modelRefs ml_components].
    destruct (synthFold_shape ids fs _ (synthShape_init start)) as [_ Hm].
    intros mr Hin. destruct (Hm mr Hin) as (_ & Hb & _).
    rewrite !map_app, !in_app_iff. right; left.
    rewrite map_map. apply in_map_iff. exists mr. split; [exact Hb | exact Hin]. }
  intros d Hd. apply in_app_iff in Hd as [Hd|Hd].
  - destruct Hd as [<-|[]]. cbn [ref dependsOn]. split; [now left | auto].
  - apply in_app_iff in Hd as [Hd|Hd].
    + apply in_map_iff in Hd as [mr [<- Hmr]]. cbn [ref dependsOn]. split.
      * right. now apply Hmodels.
      * intros x Hx. apply Hlibs. now apply jsonModelDeps_listed in Hx.
    + apply in_map_iff in Hd as [lib [<- Hlib]]. cbn [ref dependsOn]. split.
      * right. apply Hlibs. now apply in_map.
      * intros x [].
Qed.

Lemma xml_graph ids start repository fs :
  let doc := generateCycloneDXXml ids start repository fs in
  acyclic doc /\ librarySinks doc
  /\ (NoDup (map ids (seq start (List.length fs))) -> rootOnce doc).
Proof.
  set (first := createMLModelComponents ids start fs).
  set (second := createMLModelComponents ids (ml_nextId first) fs).
  assert (Hc : forall c, In c (ml_components first) -> componentShape c)
    by (intros c; apply ml_components_shape).
  assert (Hm : forall mr, In mr (modelRefs second) ->
                          exists x, bomRef mr = ("model-" ++ x)%string)
    by (intros mr; apply modelRefs_shape).
  pose (deps := xmlModelDeps (map bom_ref (libraryRefs second))).
  assert (Hd : forall mr b, In b (deps mr) -> exists x, b = ("lib-" ++ x)%string)
    by (intros mr b; apply xmlModelDeps_lib).
  split; [|split].
  - exact (assembled_acyclic repository _ _ deps (libraryRefs second) Hc Hm Hd).
  - intros c t.
    exact (assembled_library_sink repository _ _ deps (libraryRefs second)
             Hc Hm c t).
  - intros Hnd c Hin.
    apply (assembled_root_once repository _ _ deps (libraryRefs second) Hm c);
      [now apply ml_components_NoDup | exact Hin].
Qed.

(** *** SPDX *)

Lemma spdxFold_shape ids ns repoId fs : forall pkgs rels idx next,
  spdxShape ns pkgs ->
  spdxShape ns
    (fst (fst (fst (fold_left (spdxStep ids ns repoId) fs
                      (pkgs, rels, idx, next))))).
Proof.
  induction fs as [|f r IH]; intros pkgs rels idx next H; cbn [fold_left];
    [exact H|].
  unfold spdxStep at 2. destruct (modelInfo f) as [mi|]; apply IH;
    intros p Hin; apply in_app_iff in Hin as [Hin|[<-|[]]];
    try (now apply H); exists (ids next); simpl; auto.
Qed.

Lemma spdxStep_inv ids ns repoId lo hi pkgs rels idx next f :
  (forall i j, lo <= i < hi -> lo <= j < hi -> ids i = ids j -> i = j) ->
  spdxInv ids ns lo pkgs next -> next < hi ->
  exists pkgs' rels' idx',
    spdxStep ids ns repoId (pkgs, rels, idx, next) f
    = (pkgs', rels', idx', S next)
    /\ spdxInv ids ns lo pkgs' (S next).
Proof.
  intros Hinj (Hlo & Hp & Hnd) Hlt.
  assert (Hstep : forall p,
             (spdxId p = (ns ++ "/AIPackage-" ++ ids next)%string
              \/ spdxId p = (ns ++ "/Package-" ++ ids next)%string) ->
             spdxInv ids ns lo (pkgs ++ [p]) (S next)).
  { intros p Hid. split; [lia|]. split.
    - intros p' Hin. apply in_app_iff in Hin as [Hin|[<-|[]]].
      + destruct (Hp p' Hin) as [i [Hi Hr]]. exists i. split; [lia | exact Hr].
      + exists next. split; [lia | exact Hid].
    - rewrite map_app. simpl.
      apply NoDup_app; [exact Hnd | repeat constructor; simpl; tauto |].
      intros r Hr [<-|[]]. apply in_map_iff in Hr as [p' [Hr Hin]].
      destruct (Hp p' Hin) as [i [Hi Hr']].
      assert (Hi' : ids i = ids next -> False).
      { intros E. apply Hinj in E; lia. }
      destruct Hid as [Hid|Hid], Hr' as [Hr'|Hr'];
        rewrite Hid, Hr' in Hr; apply prefix_append_inj in Hr;
        first [ discriminate Hr
              | apply (prefix_append_inj "/AIPackage-") in Hr; auto
              | apply (prefix_append_inj "/Package-") in Hr; auto ]. }
  unfold spdxStep. destruct (modelInfo f) as [mi|];
    eexists; eexists; eexists; (split; [reflexivity|]);
    apply Hstep; simpl; auto.
Qed.

Lemma spdxFold_inv ids ns repoId lo hi fs : forall pkgs rels idx next,
  (forall i j, lo <= i < hi -> lo <= j < hi -> ids i = ids j -> i = j) ->
  spdxInv ids ns lo pkgs next -> next + List.length fs <= hi ->
  spdxInv ids ns lo
    (fst (fst (fst (fold_left (spdxStep ids ns repoId) fs
                      (pkgs, rels, idx, next)))))
    (snd (fold_left (spdxStep ids ns repoId) fs (pkgs, rels, idx, next))).
Proof.
  induction fs as [|f r IH]; intros pkgs rels idx next Hinj Hinv Hlen;
    cbn [fold_left]; [exact Hinv|].
  simpl in Hlen.
  destruct (spdxStep_inv ids ns repoId lo hi pkgs rels idx next f Hinj Hinv)
    as [pkgs' [rels' [idx' [-> Hinv']]]]; [lia|].
  apply IH; [exact Hinj | exact Hinv' | lia].
Qed.

Lemma spdx_not_root ids start spdxDocId repository fs p :
  let doc := generateSPDX ids start spdxDocId repository fs in
  In p (packages doc) -> spdxId p <> spdx_root doc.
Proof.
  unfold generateSPDX.
  set (ns := ("https://github.com/" ++ owner repository ++ "/"
              ++ repo repository ++ "/spdx/" ++ spdxDocId)%string).
  set (repoId := (ns ++ "/Repository")%string).
  clearbody ns.
  assert (Hinit : spdxShape ns []) by (intros q []).
  pose proof (spdxFold_shape ids ns repoId fs [] [] 0 start Hinit) as Hs.
  destruct (fold_left (spdxStep ids ns repoId) fs ([], [], 0, start))
    as [[[pk r] i] n].
  cbn [fst snd packages spdx_root] in *.
  intros Hin E. destruct (Hs p Hin) as [x [Hr|Hr]];
    rewrite Hr in E; unfold repoId in E;
    apply prefix_append_inj in E; discriminate E.
Qed.

Lemma spdx_ids_NoDup ids start spdxDocId repository fs :
  NoDup (map ids (seq start (List.length fs))) ->
  NoDup (map spdxId (packages (generateSPDX ids start spdxDocId repository fs))).
Proof.
  intros Hnd.
  pose proof (seq_inj ids start (List.length fs) Hnd) as Hinj.
  unfold generateSPDX.
  set (ns := ("https://github.com/" ++ owner repository ++ "/"
              ++ repo repository ++ "/spdx/" ++ spdxDocId)%string).
  set (repoId := (ns ++ "/Repository")%string).
  clearbody ns.
  assert (Hinit : spdxInv ids ns start [] start).
  { split; [lia|]. split; [intros p []| constructor]. }
  pose proof (spdxFold_inv ids ns repoId start (start + List.length fs) fs
                [] [] 0 start Hinj Hinit (le_n _)) as Hinv.
  destruct (fold_left (spdxStep ids ns repoId) fs ([], [], 0, start))
    as [[[p r] i] n].
  cbn [fst snd packages] in *. now destruct Hinv as (_ & _ & Hn).
Qed.

Lemma spdx_graph ids start spdxDocId repository fs :
  let doc := generateSPDX ids start spdxDocId repository fs in
  spdxAcyclic doc /\ spdxSinks doc
  /\ (NoDup (map ids (seq start (List.length fs))) -> spdxRootOnce doc).
Proof.
  intros doc.
  pose proof (generateSPDX_spec ids start spdxDocId repository fs) as [_ He].
  cbv zeta in He. fold doc in He.
  assert (Hroot : forall p, In p (packages doc) -> spdxId p <> spdx_root doc)
    by (intros p; apply spdx_not_root).
  assert (Hedge : forall a b, spdxEdge doc a b ->
                              a = spdx_root doc /\ b <> spdx_root doc).
  { intros a b H. unfold spdxEdge in H. rewrite He in H.
    apply in_map_iff in H as [p [E Hin]]. injection E as <- <-.
    split; [reflexivity | now apply Hroot]. }
  split; [|split].
  - unfold spdxAcyclic.
    apply (ranked_acyclic _
             (fun x => if String.eqb x (spdx_root doc) then 0 else 1)).
    intros a b H. apply Hedge in H as [-> Hb].
    rewrite String.eqb_refl. apply String.eqb_neq in Hb. rewrite Hb. lia.
  - intros p t Hin H. apply Hedge in H as [E _]. now apply (Hroot p).
  - intros Hnd p Hin. rewrite He, filter_map_comm, length_map.
    rewrite (filter_ext _ (fun q => String.eqb (spdxId q) (spdxId p))).
    2:{ intros q. simpl. now rewrite String.eqb_refl. }
    rewrite <- (length_map spdxId).
    rewrite <- (filter_map_comm spdxId (fun x => String.eqb x (spdxId p))).
    apply count_NoDup; [now apply spdx_ids_NoDup | now apply in_map].
Qed.

(** C7. In every generated document (CycloneDX JSON, CycloneDX XML,
    SPDX; the extended AIBOM embeds the CycloneDX JSON one) the
    relationship set has no cycle and no listed library component has
    an outgoing edge; the CycloneDX JSON document names no reference
    beside the root and its listed components; and, the random
    identifiers drawn for the document being pairwise distinct, every
    listed component has exactly one incoming edge from the root. *)
Theorem C7_graph_well_formed (ids : IdSupply) (start : nat)
    (spdxDocId : string) (repository : Repository) (fs : list Finding) :
  let json := generateCycloneDXJson ids start repository fs in
  let xml := generateCycloneDXXml ids start repository fs in
  let extended := generateExtendedAIBOM ids start repository fs in
  let spdx := generateSPDX ids start spdxDocId repository fs in
  (acyclic json /\ librarySinks json /\ closed json)
  /\ (acyclic xml /\ librarySinks xml)
  /\ (acyclic (standard_bom extended) /\ librarySinks (standard_bom extended)
      /\ closed (standard_bom extended))
  /\ (spdxAcyclic spdx /\ spdxSinks spdx)
  /\ (NoDup (map ids (seq start (List.length fs))) ->
      rootOnce json /\ rootOnce xml /\ rootOnce (standard_bom extended)
      /\ spdxRootOnce spdx).
Proof.
  intros json xml extended spdx.
  destruct (json_graph ids start repository fs) as (J1 & J2 & J3).
  pose proof (json_closed ids start repository fs) as J4.
  destruct (xml_graph ids start repository fs) as (X1 & X2 & X3).
  destruct (spdx_graph ids start spdxDocId repository fs) as (S1 & S2 & S3).
  split; [split; [exact J1 | split; [exact J2 | exact J4]]|].
  split; [split; [exact X1 | exact X2]|].
  split; [split; [exact J1 | split; [exact J2 | exact J4]]|].
  split; [split; [exact S1 | exact S2]|].
  intros Hnd. split; [now apply J3|]. split; [now apply X3|].
  split; [now apply J3 | now apply S3].
Qed.

(** Counterexamples to C7 as stated. When two draws of the identifier
    generator coincide, two model components of the CycloneDX JSON
    document share their reference and the root lists it twice. And
    with identifiers that all differ, the [dependencies] element of
    the CycloneDX XML document holds an entry for a model reference of
    the second synthesis, which names no listed component and has no
    edge from the root. *)
Lemma C7_counterexample :
  (let doc :=
     generateCycloneDXJson Samples.repeatedIds 0 Samples.repository
       [Samples.hfTextModel; Samples.hfImageModel] in
   ~ rootOnce doc)
  /\ (let doc :=
        generateCycloneDXXml Samples.counterIds 0 Samples.repository
          [Samples.hfTextModel] in
      NoDup (map Samples.counterIds (seq 0 2))
      /\ exists d, In d (dependencies doc)
                   /\ ref d <> mainRef doc
                   /\ ~ In (ref d) (map bom_ref (bom_components doc))
                   /\ incomingFromRoot doc (ref d) = []).
Proof.
  split.
  - intros doc H.
    assert (K : forallb
                  (fun c => Nat.eqb
                              (List.length (incomingFromRoot doc (bom_ref c))) 1)
                  (bom_components doc) = true).
    { apply forallb_forall. intros c Hc. apply Nat.eqb_eq. now apply H. }
    vm_compute in K. discriminate K.
  - intros doc. split.
    + vm_compute. repeat constructor; simpl; intuition discriminate.
    + exists (mkDependency "model-1" ["lib-transformers"]).
      split; [vm_compute; tauto|].
      split; [vm_compute; discriminate|].
      split; [vm_compute; intuition discriminate | reflexivity].
Qed.

(** Witness of C7: a dependency, a text-generation model and an
    image-generation model, with identifiers that do not repeat. *)
Lemma C7_witness :
  let fs := [Samples.depTorch; Samples.hfTextModel; Samples.hfImageModel] in
  rootOnce (generateCycloneDXJson Samples.counterIds 0 Samples.repository fs)
  /\ rootOnce (generateCycloneDXXml Samples.counterIds 0 Samples.repository fs)
  /\ rootOnce
       (standard_bom
          (generateExtendedAIBOM Samples.counterIds 0 Samples.repository fs))
  /\ spdxRootOnce
       (generateSPDX Samples.counterIds 0 "doc" Samples.repository fs).
Proof.
  apply (C7_graph_well_formed Samples.counterIds 0 "doc" Samples.repository
           [Samples.depTorch; Samples.hfTextModel; Samples.hfImageModel]).
  vm_compute. repeat constructor; simpl; intuition discriminate.
Defined.

(** The edges of the CycloneDX JSON document of that selection. *)
Example json_edges_sample :
  edges (generateCycloneDXJson Samples.counterIds 0 Samples.repository
           [Samples.depTorch; Samples.hfTextModel; Samples.hfImageModel])
  = [("repo-acme-chatbot", "component-0"); ("repo-acme-chatbot", "model-1");
     ("repo-acme-chatbot", "model-2");
     ("repo-acme-chatbot", "lib-transformers");
     ("repo-acme-chatbot", "lib-diffusers");
     ("repo-acme-chatbot", "lib-pytorch");
     ("model-1", "lib-transformers"); ("model-1", "lib-pytorch");
     ("model-2", "lib-diffusers"); ("model-2", "lib-pytorch")].
Proof. reflexivity. Qed.

End GraphFacts.

(* ------------------------------------------------------------------ *)
(** ** The orchestrator: unit failures and resumption *)
(* ------------------------------------------------------------------ *)

Section Orchestrator.
Import Eff CodeSearch Pipeline PipelineSpec.

Lemma neverThrows_ret {A} (a : A) : neverThrows (ret a).
Proof. intros w. now exists a, w. Qed.

Lemma neverThrows_bind {A B} (m : M A) (k : A -> M B) :
  neverThrows m -> (forall a, neverThrows (k a)) -> neverThrows (bind m k).
Proof.
  intros Hm Hk w. unfold bind. destruct (Hm w) as [a [w' ->]]. apply Hk.
Qed.

Lemma neverThrows_tryCatch {A} (m : M A) (h : string -> M A) :
  (forall e, neverThrows (h e)) -> neverThrows (tryCatch m h).
Proof.
  intros Hh w. unfold tryCatch. destruct (m w) as [[a|e] w'].
  - now exists a, w'.
  - apply Hh.
Qed.

Lemma neverThrows_forEach {A S} (xs : list A) (body : S -> A -> M S) :
  (forall st x, neverThrows (body st x)) ->
  forall st, neverThrows (forEach xs body st).
Proof.
  intros Hb. induction xs as [|x r IH]; intros st; simpl.
  - apply neverThrows_ret.
  - apply neverThrows_bind; [apply Hb | exact IH].
Qed.

Lemma neverThrows_sleep ms : neverThrows (sleep ms).
Proof. intros w. unfold sleep. eauto. Qed.

Lemma runDetector_neverThrows input ctx detector :
  neverThrows (runDetector input ctx detector).
Proof.
  unfold runDetector. apply neverThrows_tryCatch.
  intros _. apply neverThrows_ret.
Qed.

Lemma waitForReset_neverThrows now rs : neverThrows (waitForReset now rs).
Proof.
  unfold waitForReset. destruct (resetTime (lastRateLimit rs)).
  - destruct ((0 <? z - now)%Z && (z - now <? 120000)%Z).
    + apply neverThrows_sleep.
    + apply neverThrows_ret.
  - apply neverThrows_ret.
Qed.

Lemma resumeCode_neverThrows u input now ctx :
  neverThrows (resumeCode u input now ctx).
Proof.
  unfold resumeCode. destruct (codeResumeState ctx) as [rs|].
  - destruct (codeDetectorPaused ctx).
    + apply neverThrows_bind; [apply waitForReset_neverThrows|].
      intros _. apply neverThrows_tryCatch. intros _. apply neverThrows_ret.
    + apply neverThrows_ret.
  - apply neverThrows_ret.
Qed.

(** C8. Whatever the unit functions do, the run returns a result; and a
    unit invocation that throws leaves the orchestrator's context as it
    was before the invocation: no finding is added for that unit and the
    loop goes on with the next one. *)
Theorem C8_unit_failure_is_contained (u : Units) (input : AnalysisInput)
    (now : Z) :
  (forall w, exists result w',
      analyzeRepository u input now w = (Returned result, w'))
  /\ (forall ctx detector err w w',
         fn detector (buildInput input ctx detector) w = (Threw err, w') ->
         runDetector input ctx detector w = (Returned ctx, w')).
Proof.
  split.
  - assert (H : neverThrows (analyzeRepository u input now)).
    { unfold analyzeRepository. apply neverThrows_bind.
      - apply neverThrows_forEach. intros st x. apply runDetector_neverThrows.
      - intros ctx. apply neverThrows_bind; [apply resumeCode_neverThrows|].
        intros all. apply neverThrows_ret. }
    exact H.
  - intros ctx detector err w w' H.
    unfold runDetector, tryCatch, bind. now rewrite H.
Qed.

(** Witness of C8: a run whose metadata unit throws returns the same
    findings as the run in which that unit finds nothing. *)
Lemma C8_witness :
  (exists result w',
      analyzeRepository Samples.unitsWithFailure Samples.analysisInput 0
        Samples.emptyWorld = (Returned result, w'))
  /\ runDetector Samples.analysisInput initialContext
       (plain "Metadata" Samples.failingUnit) Samples.emptyWorld
     = (Returned initialContext, Samples.emptyWorld).
Proof.
  destruct (C8_unit_failure_is_contained Samples.unitsWithFailure
              Samples.analysisInput 0) as [H1 H2].
  split.
  - apply H1.
  - apply (H2 initialContext (plain "Metadata" Samples.failingUnit) "TypeError").
    reflexivity.
Defined.

Example failing_unit_run :
  match analyzeRepository Samples.unitsWithFailure Samples.analysisInput 0
          Samples.emptyWorld,
        analyzeRepository Samples.units Samples.analysisInput 0
          Samples.emptyWorld with
  | (Returned r, _), (Returned r', _) => findings r = findings r'
  | _, _ => False
  end.
Proof. vm_compute. reflexivity. Qed.

End Orchestrator.

(* ------------------------------------------------------------------ *)
(** ** Pause and resumption of the code search *)
(* ------------------------------------------------------------------ *)

Section Resumption.
Import Eff CodeSearch Pipeline PipelineSpec.

(** With quota left at every call, the loop sends each remaining query
    once, in order, and completes. *)
Lemma searchLoop_unlimited api resolve fs :
  unlimited api ->
  forall rest i sdk rl w,
  exists out w',
    searchLoop api resolve fs rest i sdk rl w = (Returned out, w')
    /\ searchLog w' = searchLog w ++ map query rest
    /\ so_paused out = false.
Proof.
  intros Hapi. induction rest as [|search rest IH]; intros i sdk rl w; simpl.
  - eexists. eexists. split; [reflexivity|]. split; [now rewrite app_nil_r | reflexivity].
  - unfold bind, searchCodeInRepo. simpl.
    pose proof (Hapi (searchLog w) (query search)) as Hq.
    destruct (api (searchLog w) (query search)) as [| |items [r|]].
    + destruct Hq.
    + match goal with
      | |- context [searchLoop _ _ _ rest ?i' ?s' ?r' ?w0] =>
          destruct (IH i' s' r' w0) as [out [w' [E [Hlog Hp]]]]
      end.
      exists out, w'. split; [exact E|]. split; [|exact Hp].
      rewrite Hlog. simpl. now rewrite <- app_assoc.
    + apply Z.eqb_neq in Hq. rewrite Hq.
      match goal with
      | |- context [searchLoop _ _ _ rest ?i' ?s' ?r' ?w0] =>
          destruct (IH i' s' r' w0) as [out [w' [E [Hlog Hp]]]]
      end.
      exists out, w'. split; [exact E|]. split; [|exact Hp].
      rewrite Hlog. simpl. now rewrite <- app_assoc.
    + match goal with
      | |- context [searchLoop _ _ _ rest ?i' ?s' ?r' ?w0] =>
          destruct (IH i' s' r' w0) as [out [w' [E [Hlog Hp]]]]
      end.
      exists out, w'. split; [exact E|]. split; [|exact Hp].
      rewrite Hlog. simpl. now rewrite <- app_assoc.
Qed.

(** The invocation the orchestrator makes to resume carries neither the
    SBOM flag nor the dependency list: whatever the first invocation
    planned, the resumed one continues, from the recorded index, through
    the fallback query list. *)
Lemma resumed_invocation_queries api resolve scan input rs tok w :
  unlimited api ->
  token input = Some tok ->
  exists result w',
    codeDetectorFn api resolve scan
      {| base := input; in_aiFilesFound := None; in_allFindings := None;
         in_sbomAvailable := None; in_detectedDependencies := None;
         in_parsedDocs := None; in_resumeState := Some rs |} w
    = (Returned result, w')
    /\ searchLog w'
       = searchLog w
         ++ map query
              (skipn (lastSearchIndex rs)
                 (fallbackSearches
                    (codeExtensionsFor (meta_languages (repoMeta input))))).
Proof.
  intros Hapi Htok. unfold codeDetectorFn. simpl. rewrite Htok.
  unfold bind, searchCodeViaAPI, buildSearches. simpl.
  match goal with
  | |- context [searchLoop api resolve ?f ?rest ?i ?s ?r w] =>
      destruct (searchLoop_unlimited api resolve f Hapi rest i s r w)
        as [out [w' [E [Hlog _]]]]
  end.
  rewrite E. eexists. eexists. split; [reflexivity | exact Hlog].
Qed.

(** C1, evaluated. The dependency graph lists [openai] and [cohere], so
    five queries are planned; the quota runs out with the third. The
    run sends the first three planned queries and then, resuming,
    seven queries of the fallback list from index 3 on: the planned
    query for [cohere] is never sent and the [api.openai.com] query is
    sent twice. *)
Theorem C1_resumption_uses_the_fallback_list :
  let planned :=
    map query
      (buildSearches ["Python"] true Samples.sbomDependencies) in
  let log :=
    searchLog (snd (analyzeRepository Samples.units Samples.analysisInput 0
                      Samples.emptyWorld)) in
  planned
  = ["from openai import extension:py extension:pyw";
     "openai.chat.completions extension:py extension:pyw";
     "api.openai.com extension:py extension:pyw";
     "from cohere import extension:py extension:pyw";
     "/v1/chat/completions extension:py extension:pyw"]
  /\ log
     = firstn 3 planned
       ++ map query
            (skipn 3 (fallbackSearches (codeExtensionsFor ["Python"])))
  /\ skipn 3 log <> skipn 3 planned
  /\ timesExecuted log "from cohere import extension:py extension:pyw" = 0
  /\ timesExecuted log "api.openai.com extension:py extension:pyw" = 2.
Proof.
  vm_compute. repeat split. discriminate.
Qed.

(** In fallback mode the same pause is resumed as planned. *)
Example fallback_resumption :
  let planned := map query (buildSearches ["Python"] false []) in
  let u :=
    {| dependenciesDetector := Samples.quietUnit;
       codeDetector := codeDetector Samples.units;
       metadataDetector := Samples.quietUnit;
       modelsIdentifierDetector := Samples.quietUnit;
       configDetector := Samples.quietUnit;
       ciDetector := Samples.quietUnit;
       modelsDetector := Samples.quietUnit;
       promptsDetector := Samples.quietUnit;
       hardwareDetector := Samples.quietUnit;
       infrastructureDetector := Samples.quietUnit;
       documentationParser := Samples.quietUnit;
       riskDetector := Samples.quietUnit |} in
  searchLog (snd (analyzeRepository u Samples.analysisInput 0
                    Samples.emptyWorld))
  = planned.
Proof. vm_compute. reflexivity. Qed.

End Resumption.

(* ------------------------------------------------------------------ *)
(** ** Strings *)
(* ------------------------------------------------------------------ *)

Section StringFacts.

Lemma string_append_assoc (a b c : string) :
  ((a ++ b) ++ c)%string = (a ++ b ++ c)%string.
Proof. induction a as [|x a IH]; simpl; [reflexivity | now rewrite IH]. Qed.

Lemma string_append_nil_r (a : string) : (a ++ "")%string = a.
Proof. induction a as [|x a IH]; simpl; [reflexivity | now rewrite IH]. Qed.

End StringFacts.

(* ------------------------------------------------------------------ *)
(** ** Lists *)
(* ------------------------------------------------------------------ *)

Section ListFacts.

Lemma NoDup_map_on {A B} (g : A -> B) (l : list A) :
  NoDup l -> (forall x y, In x l -> In y l -> g x = g y -> x = y) ->
  NoDup (map g l).
Proof.
  induction 1 as [|x l Hx Hnd IH]; intros Hinj; simpl; constructor.
  - intros K. apply in_map_iff in K as [y [E Hy]].
    assert (y = x) by (apply Hinj; simpl; auto). subst. contradiction.
  - apply IH. intros a b Ha Hb. apply Hinj; simpl; auto.
Qed.

Lemma NoDup_map_inv_on {A B} (g : A -> B) (l : list A) :
  NoDup (map g l) -> forall x y, In x l -> In y l -> g x = g y -> x = y.
Proof.
  induction l as [|a r IH]; simpl; intros Hnd x y Hx Hy E; [tauto|].
  inversion Hnd as [|? ? Hnotin Hnd']; subst.
  destruct Hx as [->|Hx], Hy as [->|Hy].
  - reflexivity.
  - exfalso. apply Hnotin. rewrite E. now apply in_map.
  - exfalso. apply Hnotin. rewrite <- E. now apply in_map.
  - now apply IH.
Qed.

End ListFacts.

(* ------------------------------------------------------------------ *)
(** ** XML text escaping *)
(* ------------------------------------------------------------------ *)

Section XmlEscaping.
Import Xml XmlSpec.

Lemma replaceAll_append c rep (a b : string) :
  replaceAll c rep (a ++ b)
  = (replaceAll c rep a ++ replaceAll c rep b)%string.
Proof.
  induction a as [|x a IH]; simpl; [reflexivity|].
  destruct (Ascii.eqb x c); simpl; rewrite IH; [|reflexivity].
  now rewrite string_append_assoc.
Qed.

(** The four passes amount to one pass that escapes each character on
    its own: no replacement text holds a character a later pass
    rewrites. *)
Lemma escapeXml_each (s : string) : escapeXml s = escapeEach s.
Proof.
  unfold escapeXml. destruct s as [|a0 r0]; [reflexivity|].
  cbn [Js.truthy String.eqb negb].
  generalize (String a0 r0). clear a0 r0. intros s.
  induction s as [|a r IH]; [reflexivity|].
  cbn [escapeEach]. rewrite <- IH. unfold escapeChar.
  cbn [replaceAll].
  destruct (Ascii.eqb_spec a "&") as [->|H1]; [reflexivity|].
  cbn [replaceAll].
  destruct (Ascii.eqb_spec a "<") as [->|H2]; [reflexivity|].
  cbn [replaceAll].
  destruct (Ascii.eqb_spec a ">") as [->|H3]; [reflexivity|].
  cbn [replaceAll].
  destruct (Ascii.eqb_spec a dquote) as [->|H4]; reflexivity.
Qed.

Lemma escapeEach_append (a b : string) :
  escapeEach (a ++ b) = (escapeEach a ++ escapeEach b)%string.
Proof.
  induction a as [|x a IH]; simpl; [reflexivity|].
  now rewrite IH, string_append_assoc.
Qed.

Lemma escapeChar_cases (a : ascii) :
  (a = "&"%char /\ escapeChar a = "&amp;")
  \/ (a = "<"%char /\ escapeChar a = "&lt;")
  \/ (a = ">"%char /\ escapeChar a = "&gt;")
  \/ (a = dquote /\ escapeChar a = "&quot;")
  \/ (a <> "&"%char /\ a <> "<"%char /\ a <> ">"%char /\ a <> dquote
      /\ escapeChar a = String a "").
Proof.
  unfold escapeChar.
  destruct (Ascii.eqb_spec a "&") as [->|H1]; [now left|].
  destruct (Ascii.eqb_spec a "<") as [->|H2]; [now right; left|].
  destruct (Ascii.eqb_spec a ">") as [->|H3]; [now right; right; left|].
  destruct (Ascii.eqb_spec a dquote) as [->|H4];
    [now right; right; right; left|].
  now right; right; right; right.
Qed.

Lemma escapeEach_chars (s : string) (c : ascii) :
  In c (chars (escapeEach s)) ->
  c <> "<"%char /\ c <> ">"%char /\ c <> dquote.
Proof.
  unfold chars. induction s as [|a r IH]; simpl; [tauto|].
  destruct (escapeChar_cases a)
    as [[-> ->]|[[-> ->]|[[-> ->]|[[-> ->]|(H1 & H2 & H3 & H4 & ->)]]]];
    simpl; intros H;
    repeat (destruct H as [<-|H];
            [repeat split; first [discriminate | assumption]|]);
    auto.
Qed.

Lemma escapeEach_entities (s : string) : forall pre post,
  escapeEach s = (pre ++ String "&" post)%string -> entityFollows post.
Proof.
  unfold entityFollows.
  induction s as [|a r IH]; intros pre post; simpl.
  - destruct pre; discriminate.
  - destruct (escapeChar_cases a)
      as [[-> ->]|[[-> ->]|[[-> ->]|[[-> ->]|(H1 & H2 & H3 & H4 & ->)]]]];
      simpl; intros H.
    + destruct pre as [|p pre]; simpl in H;
        [injection H as <-; left; exact (startsWith_append "amp;" _)
        | injection H as <- H].
      do 4 (destruct pre as [|p pre]; simpl in H;
            [discriminate H | injection H as <- H]).
      exact (IH _ _ H).
    + destruct pre as [|p pre]; simpl in H;
        [injection H as <-; right; left; exact (startsWith_append "lt;" _)
        | injection H as <- H].
      do 3 (destruct pre as [|p pre]; simpl in H;
            [discriminate H | injection H as <- H]).
      exact (IH _ _ H).
    + destruct pre as [|p pre]; simpl in H;
        [injection H as <-; right; right; left;
         exact (startsWith_append "gt;" _)
        | injection H as <- H].
      do 3 (destruct pre as [|p pre]; simpl in H;
            [discriminate H | injection H as <- H]).
      exact (IH _ _ H).
    + destruct pre as [|p pre]; simpl in H;
        [injection H as <-; right; right; right;
         exact (startsWith_append "quot;" _)
        | injection H as <- H].
      do 5 (destruct pre as [|p pre]; simpl in H;
            [discriminate H | injection H as <- H]).
      exact (IH _ _ H).
    + destruct pre as [|p pre]; simpl in H;
        [injection H as E _; congruence | injection H as _ H].
      exact (IH _ _ H).
Qed.

Lemma escapeChar_prefix_code (x y : ascii) (u v : string) :
  (escapeChar x ++ u)%string = (escapeChar y ++ v)%string -> x = y /\ u = v.
Proof.
  destruct (escapeChar_cases x)
    as [[-> ->]|[[-> ->]|[[-> ->]|[[-> ->]|(X1 & X2 & X3 & X4 & ->)]]]];
    destruct (escapeChar_cases y)
      as [[-> ->]|[[-> ->]|[[-> ->]|[[-> ->]|(Y1 & Y2 & Y3 & Y4 & ->)]]]];
    simpl; intros H; try discriminate H;
    try (injection H as H; now subst);
    try (injection H as E H; congruence).
Qed.

Lemma escapeEach_injective : forall a b : string,
  escapeEach a = escapeEach b -> a = b.
Proof.
  induction a as [|x a IH]; intros [|y b]; simpl; intros H.
  - reflexivity.
  - exfalso. destruct (escapeChar_cases y)
      as [[-> E]|[[-> E]|[[-> E]|[[-> E]|(_ & _ & _ & _ & E)]]]];
      rewrite E in H; discriminate H.
  - exfalso. destruct (escapeChar_cases x)
      as [[-> E]|[[-> E]|[[-> E]|[[-> E]|(_ & _ & _ & _ & E)]]]];
      rewrite E in H; discriminate H.
  - apply escapeChar_prefix_code in H as [-> H]. f_equal. now apply IH.
Qed.

Lemma escapeEach_length (s : string) :
  String.length s <= String.length (escapeEach s).
Proof.
  induction s as [|a r IH]; simpl; [lia|].
  rewrite string_length_append.
  destruct (escapeChar_cases a)
    as [[-> ->]|[[-> ->]|[[-> ->]|[[-> ->]|(_ & _ & _ & _ & ->)]]]];
    simpl; lia.
Qed.

(** X1. The text [escapeXml] returns holds no [<], no [>] and no double
    quote, and every ampersand in it begins one of the entities
    [&amp;], [&lt;], [&gt;], [&quot;]. *)
Theorem escapeXml_output_is_markup_free (s : string) :
  ~ In "<"%char (chars (escapeXml s))
  /\ ~ In ">"%char (chars (escapeXml s))
  /\ ~ In dquote (chars (escapeXml s))
  /\ (forall pre post,
         escapeXml s = (pre ++ String "&" post)%string -> entityFollows post).
Proof.
  rewrite escapeXml_each. repeat split.
  - intros H. apply escapeEach_chars in H. tauto.
  - intros H. apply escapeEach_chars in H. tauto.
  - intros H. apply escapeEach_chars in H. tauto.
  - apply escapeEach_entities.
Qed.

(** X2. [escapeXml] is injective: two different texts are never
    escaped to the same text, so references that differ still differ
    once written into the XML document. *)
Theorem escapeXml_injective (a b : string) :
  escapeXml a = escapeXml b -> a = b.
Proof. rewrite !escapeXml_each. apply escapeEach_injective. Qed.

Lemma escapeXml_injective_witness :
  escapeXml "model-a<b" = escapeXml "model-a<b" /\ "model-a<b" = "model-a<b".
Proof.
  split; [reflexivity|].
  apply (escapeXml_injective "model-a<b" "model-a<b"). reflexivity.
Defined.

(** X3. [escapeXml] returns its argument unchanged exactly when none
    of [&], [<], [>] and the double quote occurs in it; an apostrophe,
    in particular, is never escaped. *)
Theorem escapeXml_identity_on_plain_text (s : string) :
  escapeXml s = s <-> plainText s.
Proof.
  rewrite escapeXml_each. unfold plainText, chars.
  induction s as [|a r IH]; simpl.
  - split; [tauto | reflexivity].
  - destruct (escapeChar_cases a)
      as [[-> E]|[[-> E]|[[-> E]|[[-> E]|(H1 & H2 & H3 & H4 & E)]]]];
      rewrite E.
    1-4: split;
      [ intros H; apply (f_equal String.length) in H; simpl in H;
        pose proof (escapeEach_length r); lia
      | intros (A & B & C & D); exfalso; tauto ].
    simpl. split.
    + intros H. injection H as H. apply IH in H.
      destruct H as (A & B & C & D).
      repeat split; intros [K|K]; auto.
    + intros (A & B & C & D). f_equal. apply IH.
      repeat split; intros K; [apply A|apply B|apply C|apply D]; now right.
Qed.

End XmlEscaping.

(* ------------------------------------------------------------------ *)
(** ** Repository input *)
(* ------------------------------------------------------------------ *)

Section RepositoryInput.
Import RepoInput RepoInputSpec.

Lemma chars_append (a b : string) :
  list_ascii_of_string (a ++ b)
  = list_ascii_of_string a ++ list_ascii_of_string b.
Proof. induction a as [|x a IH]; simpl; [reflexivity | now rewrite IH]. Qed.

Lemma prefix_split (p s : string) :
  String.prefix p s = true -> exists t, s = (p ++ t)%string.
Proof.
  revert s. induction p as [|c p IH]; intros s H.
  - exists s. reflexivity.
  - destruct s as [|d s]; simpl in H; [discriminate H|].
    destruct (Ascii.ascii_dec c d) as [->|]; [|discriminate H].
    destruct (IH _ H) as [t ->]. now exists t.
Qed.

Lemma substring_all (t : string) : String.substring 0 (String.length t) t = t.
Proof. induction t as [|c t IH]; simpl; [reflexivity | now rewrite IH]. Qed.

Lemma substring_skip (p t : string) :
  String.substring (String.length p)
    (String.length (p ++ t) - String.length p) (p ++ t) = t.
Proof.
  induction p as [|c p IH]; simpl.
  - rewrite Nat.sub_0_r. apply substring_all.
  - exact IH.
Qed.

(** *** Splitting at slashes *)

Lemma splitAcc_plain (sep : ascii) (s : string) : forall cur,
  ~ In sep (list_ascii_of_string s) ->
  Js.splitAcc sep cur s = [(cur ++ s)%string].
Proof.
  induction s as [|c r IH]; intros cur H; simpl.
  - now rewrite string_append_nil_r.
  - destruct (Ascii.eqb_spec c sep) as [->|Hc].
    + exfalso. apply H. now left.
    + rewrite IH; [|intros K; apply H; now right].
      now rewrite string_append_assoc.
Qed.

Lemma splitAcc_at (sep : ascii) (a b : string) : forall cur,
  ~ In sep (list_ascii_of_string a) ->
  Js.splitAcc sep cur (a ++ String sep b)
  = (cur ++ a)%string :: Js.splitAcc sep "" b.
Proof.
  induction a as [|c r IH]; intros cur H; simpl.
  - rewrite Ascii.eqb_refl. now rewrite string_append_nil_r.
  - destruct (Ascii.eqb_spec c sep) as [->|Hc].
    + exfalso. apply H. now left.
    + rewrite IH; [|intros K; apply H; now right].
      now rewrite string_append_assoc.
Qed.

Lemma splitAcc_nonempty (sep : ascii) (s : string) : forall cur,
  exists x l, Js.splitAcc sep cur s = x :: l.
Proof.
  induction s as [|c r IH]; intros cur; simpl; [now eauto|].
  destruct (Ascii.eqb c sep); [now eauto | apply IH].
Qed.

Lemma splitAcc_two (sep : ascii) (s : string) : forall cur,
  In sep (list_ascii_of_string s) ->
  exists x y l, Js.splitAcc sep cur s = x :: y :: l.
Proof.
  induction s as [|c r IH]; intros cur H; simpl in *; [tauto|].
  destruct (Ascii.eqb_spec c sep) as [->|Hc].
  - destruct (splitAcc_nonempty sep r "") as [y [l ->]]. now eauto.
  - destruct H as [H|H]; [congruence | now apply IH].
Qed.

Lemma splitAcc_parts (sep : ascii) (s : string) : forall cur x,
  ~ In sep (list_ascii_of_string cur) ->
  In x (Js.splitAcc sep cur s) -> ~ In sep (list_ascii_of_string x).
Proof.
  induction s as [|c r IH]; intros cur x Hcur; simpl.
  - intros [<-|[]]. exact Hcur.
  - destruct (Ascii.eqb_spec c sep) as [->|Hc].
    + intros [<-|H]; [exact Hcur|]. apply (IH "" x); simpl; tauto.
    + apply IH. rewrite chars_append, in_app_iff. simpl.
      intros [K|[K|[]]]; [tauto | congruence].
Qed.

(** *** The URL pattern *)

Lemma segment_spec (s : string) :
  s = (fst (segment s) ++ snd (segment s))%string
  /\ slashFree (fst (segment s))
  /\ (snd (segment s) = "" \/ exists t, snd (segment s) = String "/" t).
Proof.
  unfold slashFree. induction s as [|c r IH]; simpl.
  - repeat split; [tauto | now left].
  - destruct (Ascii.eqb_spec c "/") as [->|Hc]; simpl.
    + repeat split; [tauto | right; now eexists].
    + destruct (segment r) as [seg rest]. simpl in *.
      destruct IH as (E & Hs & Hr). repeat split.
      * now rewrite <- E.
      * intros [K|K]; [congruence | tauto].
      * exact Hr.
Qed.

Lemma segment_append (a t : string) :
  slashFree a -> (t = "" \/ exists t', t = String "/" t') ->
  segment (a ++ t) = (a, t).
Proof.
  unfold slashFree. induction a as [|c r IH]; simpl; intros Ha Ht.
  - destruct Ht as [->|[t' ->]]; reflexivity.
  - destruct (Ascii.eqb_spec c "/") as [->|Hc]; [exfalso; tauto|].
    rewrite IH; [reflexivity | tauto | exact Ht].
Qed.

Lemma ownerAndRepo_sound (s owner repo : string) :
  ownerAndRepo s = Some (owner, repo) ->
  slashFree owner /\ slashFree repo /\ owner <> "" /\ repo <> ""
  /\ exists rest, s = (owner ++ "/" ++ repo ++ rest)%string.
Proof.
  unfold ownerAndRepo.
  pose proof (segment_spec s) as (E & Ho & Hr).
  destruct (segment s) as [o rest]. simpl in *.
  destruct o as [|c o]; [discriminate|].
  destruct Hr as [->|[t ->]]; [discriminate|].
  pose proof (segment_spec t) as (E' & Hr' & _).
  destruct (segment t) as [r rest']. simpl in *.
  destruct r as [|d r]; [discriminate|].
  intros [= <- <-]. repeat split; try assumption; try discriminate.
  exists rest'. rewrite E at 1. simpl. now rewrite E'.
Qed.

Lemma urlMatch_sound (s owner repo : string) :
  urlMatch s = Some (owner, repo) ->
  slashFree owner /\ slashFree repo /\ owner <> "" /\ repo <> ""
  /\ exists pre rest,
       s = (pre ++ "github.com/" ++ owner ++ "/" ++ repo ++ rest)%string.
Proof.
  induction s as [|c r IH].
  - simpl. discriminate.
  - cbn [urlMatch].
    destruct (Js.startsWith (String c r) "github.com/") eqn:Hp.
    + destruct (ownerAndRepo
                  (String.substring 11 (String.length (String c r) - 11)
                     (String c r))) as [[o' r']|] eqn:Hm.
      * intros [= -> ->].
        apply prefix_split in Hp as [t Ht]. rewrite Ht in Hm.
        change 11 with (String.length "github.com/") in Hm.
        rewrite substring_skip in Hm.
        apply ownerAndRepo_sound in Hm as (A & B & C & D & rest & ->).
        repeat split; try assumption.
        exists "", rest. exact Ht.
      * intros H. destruct (IH H) as (A & B & C & D & pre & rest & ->).
        repeat split; try assumption.
        exists (String c pre), rest. reflexivity.
    + intros H. destruct (IH H) as (A & B & C & D & pre & rest & ->).
      repeat split; try assumption.
      exists (String c pre), rest. reflexivity.
Qed.

Lemma urlMatch_here (t : string) (m : string * string) :
  ownerAndRepo t = Some m -> urlMatch ("github.com/" ++ t) = Some m.
Proof.
  intros H.
  change ("github.com/" ++ t)%string
    with (String "g" ("ithub.com/" ++ t)).
  cbn [urlMatch].
  change (String "g" ("ithub.com/" ++ t)) with ("github.com/" ++ t)%string.
  rewrite startsWith_append.
  change 11 with (String.length "github.com/").
  now rewrite substring_skip, H.
Qed.

Lemma urlMatch_skip (c : ascii) (s : string) :
  Js.startsWith (String c s) "github.com/" = false ->
  urlMatch (String c s) = urlMatch s.
Proof. intros H. cbn [urlMatch]. now rewrite H. Qed.

Lemma urlMatch_slashFree (s : string) : slashFree s -> urlMatch s = None.
Proof.
  intros Hs. destruct (urlMatch s) as [[o r]|] eqn:E; [|reflexivity].
  apply urlMatch_sound in E as (_ & _ & _ & _ & pre & rest & ->).
  exfalso. apply Hs. rewrite chars_append, in_app_iff. right.
  simpl. do 10 right. now left.
Qed.

Lemma stripGit_slashFree (str : string) :
  slashFree str -> slashFree (stripGit str).
Proof.
  unfold stripGit, slashFree. intros H.
  destruct (Js.endsWith str ".git"); [|exact H].
  intros K. apply H. clear H.
  revert K. generalize (String.length str - 4). revert str.
  induction str as [|c r IH]; intros n; destruct n; simpl; try tauto.
  intros [K|K]; [now left | right; exact (IH _ K)].
Qed.

(** X4. [parseRepoInput] throws its format error exactly when the
    trimmed input holds no slash; any input with a slash is accepted,
    even if a name comes out empty. *)
Theorem parseRepoInput_rejects_exactly_slashless_input (input : string) :
  parseRepoInput input = InvalidFormat <-> slashFree (trim input).
Proof.
  unfold parseRepoInput. generalize (trim input). clear input. intros s.
  split.
  - destruct (urlMatch s) as [[o r]|]; [discriminate|].
    intros H K. unfold Js.split in H.
    destruct (splitAcc_two "/" s "" K) as [x [y [l E]]].
    rewrite E in H. discriminate H.
  - intros Hs. rewrite (urlMatch_slashFree s Hs).
    unfold Js.split. now rewrite (splitAcc_plain "/" s "" Hs).
Qed.

(** X5. Neither name [parseRepoInput] returns holds a slash. *)
Theorem parseRepoInput_names_are_slash_free (input owner repo : string) :
  parseRepoInput input = Repo owner repo ->
  slashFree owner /\ slashFree repo.
Proof.
  unfold parseRepoInput. generalize (trim input). clear input. intros s.
  destruct (urlMatch s) as [[o r]|] eqn:E.
  - intros [= <- <-].
    apply urlMatch_sound in E as (A & B & _).
    split; [exact A | now apply stripGit_slashFree].
  - unfold Js.split.
    pose proof (splitAcc_parts "/" s "") as Hp.
    destruct (Js.splitAcc "/" "" s) as [|x [|y l]]; try discriminate.
    intros [= <- <-]. split; apply (Hp _ (fun K => K)); simpl; auto.
Qed.

Lemma parseRepoInput_names_witness :
  parseRepoInput "https://github.com/cyfinoid/aibommaker.git"
  = Repo "cyfinoid" "aibommaker"
  /\ slashFree "cyfinoid" /\ slashFree "aibommaker".
Proof.
  split; [reflexivity|].
  apply (parseRepoInput_names_are_slash_free
           "https://github.com/cyfinoid/aibommaker.git").
  reflexivity.
Defined.

(** X6. The short form round-trips: for names without a slash, the
    input [owner/repo] (already trimmed) is read back as exactly these
    two names. *)
Theorem parseRepoInput_reads_owner_slash_repo (owner repo : string) :
  slashFree owner -> slashFree repo ->
  trim (owner ++ "/" ++ repo) = (owner ++ "/" ++ repo)%string ->
  parseRepoInput (owner ++ "/" ++ repo) = Repo owner repo.
Proof.
  intros Ho Hr Ht. unfold parseRepoInput. rewrite Ht.
  destruct (urlMatch (owner ++ "/" ++ repo)) as [[o r]|] eqn:E.
  - exfalso.
    apply urlMatch_sound in E as (_ & _ & _ & _ & pre & rest & E).
    apply (f_equal list_ascii_of_string) in E.
    apply (f_equal (count_occ Ascii.ascii_dec)) in E.
    apply (f_equal (fun f => f "/"%char)) in E.
    rewrite !chars_append, !count_occ_app in E. simpl in E.
    rewrite (proj1 (count_occ_not_In Ascii.ascii_dec _ _) Ho) in E.
    rewrite (proj1 (count_occ_not_In Ascii.ascii_dec _ _) Hr) in E.
    lia.
  - unfold Js.split.
    change (owner ++ "/" ++ repo)%string with (owner ++ String "/" repo)%string.
    rewrite (splitAcc_at "/" owner repo "" Ho).
    now rewrite (splitAcc_plain "/" repo "" Hr).
Qed.

Lemma parseRepoInput_short_witness :
  parseRepoInput ("cyfinoid" ++ "/" ++ "aibommaker")
  = Repo "cyfinoid" "aibommaker".
Proof.
  apply (parseRepoInput_reads_owner_slash_repo "cyfinoid" "aibommaker").
  - unfold slashFree. simpl. intuition discriminate.
  - unfold slashFree. simpl. intuition discriminate.
  - reflexivity.
Defined.

(** X7. A GitHub URL is read by its first two path segments: after
    [https://github.com/] come the owner and the repository name, a
    further path is ignored and a final [.git] of the name is cut
    off. *)
Theorem parseRepoInput_reads_github_url (owner repo rest : string) :
  slashFree owner -> slashFree repo -> owner <> "" -> repo <> "" ->
  (rest = "" \/ exists t, rest = String "/" t) ->
  trim ("https://github.com/" ++ owner ++ "/" ++ repo ++ rest)
  = ("https://github.com/" ++ owner ++ "/" ++ repo ++ rest)%string ->
  parseRepoInput ("https://github.com/" ++ owner ++ "/" ++ repo ++ rest)
  = Repo owner (stripGit repo).
Proof.
  intros Ho Hr Hno Hnr Hrest Ht. unfold parseRepoInput. rewrite Ht.
  assert (E : urlMatch ("https://github.com/" ++ owner ++ "/" ++ repo ++ rest)
              = Some (owner, repo)).
  { change ("https://github.com/" ++ owner ++ "/" ++ repo ++ rest)%string
      with (String "h" (String "t" (String "t" (String "p" (String "s"
             (String ":" (String "/" (String "/"
                ("github.com/" ++ owner ++ "/" ++ repo ++ rest)))))))))%string.
    do 8 (rewrite urlMatch_skip by reflexivity).
    apply urlMatch_here. unfold ownerAndRepo.
    rewrite (segment_append owner ("/" ++ repo ++ rest) Ho)
      by (right; now eexists).
    destruct owner as [|c o]; [congruence|].
    cbn [append]. rewrite (segment_append repo rest Hr Hrest).
    destruct repo; [congruence | reflexivity]. }
  now rewrite E.
Qed.

Lemma parseRepoInput_url_witness :
  parseRepoInput
    ("https://github.com/" ++ "cyfinoid" ++ "/" ++ "aibommaker.git"
     ++ "/tree/main")
  = Repo "cyfinoid" "aibommaker".
Proof.
  apply (parseRepoInput_reads_github_url "cyfinoid" "aibommaker.git"
           "/tree/main").
  - unfold slashFree. simpl. intuition discriminate.
  - unfold slashFree. simpl. intuition discriminate.
  - discriminate.
  - discriminate.
  - right. now eexists.
  - reflexivity.
Defined.

End RepositoryInput.

(* ------------------------------------------------------------------ *)
(** ** Reconciler: running it again, scores, lists without dependencies *)
(* ------------------------------------------------------------------ *)

Section ReconcilerAlgebra.
Import Reconciler ReconcilerSpec ReconcilerFacts.

Lemma set_absent {V} (m : JsMap.t V) (k : string) (v : V) :
  ~ In k (JsMap.keys m) -> JsMap.set m k v = m ++ [(k, v)].
Proof.
  unfold JsMap.keys. induction m as [|[k0 v0] r IH]; simpl; intros H.
  - reflexivity.
  - destruct (String.eqb_spec k0 k) as [->|Hne]; [exfalso; tauto|].
    rewrite IH; [reflexivity | tauto].
Qed.

Lemma fold_collect_skip fs : forall m,
  (forall f, In f fs -> depKey f = None) ->
  fold_left collectDependency fs m = m.
Proof.
  induction fs as [|f r IH]; intros m H; simpl; [reflexivity|].
  rewrite collectDependency_spec, (H f) by now left.
  apply IH. intros g Hg. apply H. now right.
Qed.

Lemma fold_collect_fresh (l : list (string * Finding)) : forall m,
  NoDup (JsMap.keys m ++ JsMap.keys l) ->
  (forall k d, In (k, d) l -> depKey d = Some k) ->
  fold_left collectDependency (map snd l) m = m ++ l.
Proof.
  induction l as [|[k d] r IH]; intros m Hnd Hk; simpl.
  - now rewrite app_nil_r.
  - rewrite collectDependency_spec, (Hk k d) by now left.
    assert (Hfresh : ~ In k (JsMap.keys m)).
    { intros K. apply NoDup_app_remove_r in Hnd as Hm.
      unfold JsMap.keys in *. simpl in Hnd.
      apply NoDup_remove_2 in Hnd. apply Hnd.
      apply in_or_app. now left. }
    rewrite set_absent by exact Hfresh.
    rewrite IH.
    + now rewrite <- app_assoc.
    + unfold JsMap.keys in *. rewrite map_app, <- app_assoc. exact Hnd.
    + intros k' d' H. apply Hk. now right.
Qed.

Lemma depKey_outputFor fs k d :
  depKey d = Some k -> depKey (outputFor fs k d) = Some k.
Proof.
  intros Hk. unfold outputFor. destruct (codeFor fs k); [exact Hk|].
  unfold depKey in *. simpl.
  destruct (dependencyInfo d); [|discriminate].
  now destruct (String.eqb (category d) "dependencies").
Qed.

Lemma kept_depKey pc f : kept pc f = true -> depKey f = None.
Proof.
  intros H. apply kept_not_dependency in H. unfold depKey.
  destruct (dependencyInfo f); [|reflexivity]. now rewrite H.
Qed.

Lemma matchesKey_code k f : matchesKey k f = true -> category f = "code".
Proof.
  unfold matchesKey, eligibleCode. intros H.
  apply andb_true_iff in H as [H _]. apply andb_true_iff in H as [H _].
  apply andb_true_iff in H as [H _]. now apply String.eqb_eq in H.
Qed.

(** The dependency map of the output: the same keys in the same order,
    each now holding the finding the output has for it. *)
Lemma dependencyMap_of_output fs :
  buildDependencyMap (mergeDependencyAndCodeFindings fs)
  = map (fun e => (fst e, outputFor fs (fst e) (snd e)))
      (buildDependencyMap fs).
Proof.
  rewrite merge_unfold. unfold buildDependencyMap at 1.
  rewrite fold_left_app.
  rewrite (fold_collect_skip (filter _ fs)).
  2:{ intros f Hf. apply filter_In in Hf as [_ Hf].
      exact (kept_depKey _ f Hf). }
  set (dm := buildDependencyMap fs).
  replace (map (fun entry => outputFor fs (fst entry) (snd entry)) dm)
    with (map snd (map (fun e => (fst e, outputFor fs (fst e) (snd e))) dm))
    by (rewrite map_map; reflexivity).
  rewrite fold_collect_fresh; [reflexivity | |].
  - simpl. unfold JsMap.keys. rewrite map_map. simpl.
    apply (dependencyMap_NoDup fs).
  - intros k d H. apply in_map_iff in H as [[k0 d0] [E H]].
    simpl in E. injection E as <- <-.
    apply depKey_outputFor.
    apply dependencyMap_entry in H. now apply lastDependency_In in H.
Qed.

Lemma has_dependencyMap_of_output fs k :
  JsMap.has (buildDependencyMap (mergeDependencyAndCodeFindings fs)) k
  = JsMap.has (buildDependencyMap fs) k.
Proof.
  rewrite dependencyMap_of_output. apply eq_true_iff_eq.
  rewrite !has_In_keys. unfold JsMap.keys. rewrite map_map. reflexivity.
Qed.

(** No code finding of the output matches a registered package. *)
Lemma codeFor_output fs k :
  JsMap.has (buildDependencyMap fs) k = true ->
  codeFor (mergeDependencyAndCodeFindings fs) k = [].
Proof.
  intros Hk. unfold codeFor. apply filter_none. intros f Hf.
  destruct (matchesKey k f) eqn:Em; [exfalso|reflexivity].
  pose proof (matchesKey_code _ _ Em) as Hcode.
  rewrite merge_unfold in Hf. apply in_app_iff in Hf as [Hf|Hf].
  - apply in_map_iff in Hf as [[k0 d0] [<- Hin]]. simpl in Hcode.
    apply dependencyMap_entry, lastDependency_In in Hin as [_ Hd].
    pose proof (depKey_outputFor fs _ _ Hd) as Ho.
    apply depKey_category in Ho. congruence.
  - apply filter_In in Hf as [Hin Hkept].
    unfold kept in Hkept. rewrite Hcode in Hkept. simpl in Hkept.
    rewrite orb_false_r in Hkept. apply negb_true_iff in Hkept.
    assert (Hpc : In (id f) (processedCode fs)).
    { apply processedCode_In.
      unfold JsMap.has in Hk.
      destruct (JsMap.get (buildDependencyMap fs) k) as [d|] eqn:E;
        [|discriminate].
      rewrite dependencyMap_get in E.
      exists k, d, f. repeat split; [exact E|].
      unfold codeFor. apply filter_In. auto. }
    apply set_has_In in Hpc. congruence.
Qed.

Lemma processedCode_output fs x :
  ~ In x (processedCode (mergeDependencyAndCodeFindings fs)).
Proof.
  intros H. apply processedCode_In in H as [k [d [cf [Hd [Hcf _]]]]].
  rewrite <- dependencyMap_get in Hd.
  assert (Hk : JsMap.has (buildDependencyMap fs) k = true).
  { rewrite <- has_dependencyMap_of_output. unfold JsMap.has. now rewrite Hd. }
  rewrite (codeFor_output fs k Hk) in Hcf. destruct Hcf.
Qed.

Lemma kept_without_processed pc f :
  (forall x, ~ In x pc) -> String.eqb (category f) "dependencies" = false ->
  kept pc f = true.
Proof.
  intros Hpc Hcat. unfold kept. rewrite Hcat. simpl.
  destruct (String.eqb (category f) "code"); simpl; [|reflexivity].
  rewrite orb_false_r. apply negb_true_iff.
  destruct (JsSet.has pc (id f)) eqn:E; [|reflexivity].
  apply set_has_In in E. now apply Hpc in E.
Qed.

(** X8. Reconciling is idempotent: applied to its own output, the
    reconciler returns that output unchanged. *)
Theorem reconciler_is_idempotent (fs : list Finding) :
  mergeDependencyAndCodeFindings (mergeDependencyAndCodeFindings fs)
  = mergeDependencyAndCodeFindings fs.
Proof.
  rewrite (merge_unfold (mergeDependencyAndCodeFindings fs)).
  rewrite dependencyMap_of_output, map_map. cbn [fst snd].
  rewrite (merge_unfold fs) at 3. f_equal.
  - apply map_ext_in. intros [k d] Hin. cbn [fst snd].
    unfold outputFor at 1. rewrite codeFor_output; [reflexivity|].
    apply has_In_keys. unfold JsMap.keys. now apply (in_map fst) in Hin.
  - rewrite (merge_unfold fs) at 2. rewrite filter_app.
    rewrite filter_none, filter_all; [reflexivity | |].
    + intros f Hf. apply filter_In in Hf as [_ Hf].
      apply kept_without_processed; [apply processedCode_output|].
      exact (kept_not_dependency _ f Hf).
    + intros f Hf. apply in_map_iff in Hf as [[k d] [<- Hin]]. cbn [fst snd].
      apply dependencyMap_entry, lastDependency_In in Hin as [_ Hd].
      pose proof (depKey_outputFor fs _ _ Hd) as Ho.
      apply depKey_category in Ho.
      destruct (kept _ _) eqn:E; [|reflexivity].
      apply kept_not_dependency in E. rewrite Ho in E. discriminate E.
Qed.

Lemma processedCode_without_dependencies fs :
  buildDependencyMap fs = [] -> processedCode fs = [].
Proof. intros H. unfold processedCode. now rewrite H. Qed.

(** X9. A finding list without any finding of category
    [dependencies] comes back unchanged, order included. *)
Theorem reconciler_keeps_lists_without_dependencies (fs : list Finding) :
  (forall f, In f fs -> category f <> "dependencies") ->
  mergeDependencyAndCodeFindings fs = fs.
Proof.
  intros H.
  assert (Hdm : buildDependencyMap fs = []).
  { unfold buildDependencyMap. apply fold_collect_skip. intros f Hf.
    destruct (depKey f) eqn:E; [|reflexivity].
    apply depKey_category in E. now apply H in Hf. }
  rewrite merge_unfold, Hdm, (processedCode_without_dependencies fs Hdm).
  simpl. apply filter_all. intros f Hf.
  apply kept_without_processed; [intros x []|].
  apply String.eqb_neq. now apply H.
Qed.

Lemma reconciler_keeps_witness :
  mergeDependencyAndCodeFindings
    [Samples.codeOpenAI; Samples.metadataFinding; Samples.codeCompatible]
  = [Samples.codeOpenAI; Samples.metadataFinding; Samples.codeCompatible].
Proof.
  apply (reconciler_keeps_lists_without_dependencies
           [Samples.codeOpenAI; Samples.metadataFinding;
            Samples.codeCompatible]).
  intros f [<-|[<-|[<-|[]]]]; discriminate.
Defined.

(** *** Scores *)

Lemma sumWeights_values_set (m : JsMap.t Finding) (k : string) (f : Finding) :
  (forall g, In g (JsMap.values m) -> (0 <= weight g)%Z) ->
  (sumWeights (JsMap.values (JsMap.set m k f))
   <= sumWeights (JsMap.values m) + weight f)%Z.
Proof.
  unfold JsMap.values. induction m as [|[k0 v0] r IH]; simpl; intros H.
  - lia.
  - destruct (String.eqb k0 k); simpl.
    + specialize (H v0 (or_introl eq_refl)). lia.
    + specialize (IH (fun g Hg => H g (or_intror Hg))). lia.
Qed.

Lemma In_values_set (m : JsMap.t Finding) (k : string) (f g : Finding) :
  In g (JsMap.values (JsMap.set m k f)) -> g = f \/ In g (JsMap.values m).
Proof.
  unfold JsMap.values. induction m as [|[k0 v0] r IH]; simpl.
  - intros [<-|[]]. now left.
  - destruct (String.eqb k0 k); simpl.
    + intros [<-|H]; auto.
    + intros [<-|H]; auto. destruct (IH H); auto.
Qed.

Lemma fold_collect_weight fs : forall m,
  (forall g, In g (JsMap.values m) -> (0 <= weight g)%Z) ->
  (forall f, In f fs -> (0 <= weight f)%Z) ->
  (sumWeights (JsMap.values (fold_left collectDependency fs m))
   <= sumWeights (JsMap.values m)
      + sumWeights
          (filter (fun f => String.eqb (category f) "dependencies") fs))%Z.
Proof.
  induction fs as [|f r IH]; intros m Hm Hfs; simpl; [lia|].
  assert (Hf : (0 <= weight f)%Z) by (apply Hfs; now left).
  assert (Hr : forall g, In g r -> (0 <= weight g)%Z)
    by (intros g Hg; apply Hfs; now right).
  rewrite collectDependency_spec.
  destruct (depKey f) as [k|] eqn:E.
  - apply depKey_category in E as Hcat. rewrite Hcat. simpl.
    etransitivity; [apply IH; [|exact Hr]|].
    + intros g Hg. apply In_values_set in Hg as [->|Hg]; auto.
    + pose proof (sumWeights_values_set m k f Hm). lia.
  - etransitivity; [apply IH; [exact Hm | exact Hr]|].
    destruct (String.eqb (category f) "dependencies"); simpl; lia.
Qed.

Lemma sumWeights_disjoint (P Q : Finding -> bool) (fs : list Finding) :
  (forall f, P f = true -> Q f = false) ->
  (forall f, In f fs -> (0 <= weight f)%Z) ->
  (sumWeights (filter P fs) + sumWeights (filter Q fs) <= sumWeights fs)%Z.
Proof.
  intros H. induction fs as [|f r IH]; intros Hw; simpl; [lia|].
  assert (Hf : (0 <= weight f)%Z) by (apply Hw; now left).
  specialize (IH (fun g Hg => Hw g (or_intror Hg))).
  destruct (P f) eqn:EP.
  - rewrite (H f EP). simpl. lia.
  - destruct (Q f); simpl; lia.
Qed.

Lemma weight_outputFor fs k d : weight (outputFor fs k d) = weight d.
Proof. unfold outputFor. now destruct (codeFor fs k). Qed.

(** X10. When no weight is negative, reconciling never raises the
    score. *)
Theorem reconciler_never_raises_the_score (fs : list Finding) :
  (forall f, In f fs -> (0 <= weight f)%Z) ->
  (calculateScore (mergeDependencyAndCodeFindings fs) <= calculateScore fs)%Z.
Proof.
  intros Hw. unfold calculateScore. rewrite !fold_score.
  rewrite merge_unfold, sumWeights_app.
  assert (Hv : sumWeights
                 (map (fun entry => outputFor fs (fst entry) (snd entry))
                    (buildDependencyMap fs))
               = sumWeights (JsMap.values (buildDependencyMap fs))).
  { unfold JsMap.values. induction (buildDependencyMap fs) as [|[k d] r IH];
      simpl; [reflexivity|]. now rewrite weight_outputFor, IH. }
  rewrite Hv.
  pose proof (fold_collect_weight fs [] (fun g (H : In g []) => match H with end) Hw)
    as Hdeps.
  fold (buildDependencyMap fs) in Hdeps. simpl in Hdeps.
  pose proof (sumWeights_disjoint
                (fun f => String.eqb (category f) "dependencies")
                (kept (processedCode fs)) fs) as Hd.
  assert (Hdisj : forall f, String.eqb (category f) "dependencies" = true ->
                            kept (processedCode fs) f = false).
  { intros f Hf. destruct (kept (processedCode fs) f) eqn:E; [|reflexivity].
    apply kept_not_dependency in E. congruence. }
  specialize (Hd Hdisj Hw). lia.
Qed.

Lemma reconciler_score_witness :
  (calculateScore
     (mergeDependencyAndCodeFindings [Samples.depOpenAI; Samples.codeOpenAI])
   <= calculateScore [Samples.depOpenAI; Samples.codeOpenAI])%Z.
Proof.
  apply (reconciler_never_raises_the_score
           [Samples.depOpenAI; Samples.codeOpenAI]).
  intros f [<-|[<-|[]]]; simpl; lia.
Defined.

End ReconcilerAlgebra.

(* ------------------------------------------------------------------ *)
(** ** Extended AIBOM metadata *)
(* ------------------------------------------------------------------ *)

Section ExtendedMetadataFacts.
Import Extended ExtendedSpec.

(** *** De-duplication by library name *)

Lemma deduplicateFrom_spec (items : list PipelineLibrary) : forall seen,
  NoDup (map libraryKey (deduplicateFrom seen items))
  /\ (forall y, In y (deduplicateFrom seen items) ->
                In y items /\ ~ In (libraryKey y) seen)
  /\ (forall x, In x items ->
                In (libraryKey x) seen
                \/ exists y, In y (deduplicateFrom seen items)
                             /\ libraryKey y = libraryKey x).
Proof.
  induction items as [|item rest IH]; intros seen; simpl.
  - split; [constructor | split]; [intros y [] | intros x []].
  - fold (libraryKey item).
    destruct (JsSet.has seen (libraryKey item)) eqn:E.
    + destruct (IH seen) as (A & B & C). split; [exact A | split].
      * intros y Hy. apply B in Hy as [H1 H2]. auto.
      * intros x [<-|Hx]; [left; now apply set_has_In | now apply C].
    + destruct (IH (JsSet.add seen (libraryKey item))) as (A & B & C).
      assert (Hnot : ~ In (libraryKey item) seen).
      { intros K. apply set_has_In in K. congruence. }
      split; [|split].
      * simpl. constructor; [|exact A].
        intros K. apply in_map_iff in K as [y [Ey Hy]].
        apply B in Hy as [_ Hy]. apply Hy. apply In_set_add. now right.
      * intros y [<-|H]; [split; [now left | exact Hnot]|].
        apply B in H as [H1 H2]. split; [now right|].
        intros K. apply H2. apply In_set_add. now left.
      * intros x [<-|Hx].
        -- right. exists item. split; [now left | reflexivity].
        -- destruct (C x Hx) as [K|[y [Hy Ey]]].
           ++ apply In_set_add in K as [K|K]; [now left|].
              right. exists item. split; [now left | now symmetry].
           ++ right. exists y. split; [now right | exact Ey].
Qed.

Lemma deduplicateFrom_again (items : list PipelineLibrary) : forall seen,
  deduplicateFrom seen (deduplicateFrom seen items)
  = deduplicateFrom seen items.
Proof.
  induction items as [|item rest IH]; intros seen; simpl; [reflexivity|].
  destruct (JsSet.has seen (Js.toLowerCase (pl_library item))) eqn:E.
  - apply IH.
  - simpl. rewrite E. f_equal. apply IH.
Qed.

Lemma deduplicateByLibrary_NoDup (items : list PipelineLibrary) :
  NoDup (map libraryKey (deduplicateByLibrary items)).
Proof. apply (deduplicateFrom_spec items []). Qed.

(** X11. [deduplicateByLibrary] keeps items of its input only, no two
    of them with the same library name up to letter case, and it loses
    no library: every input item has its name among those kept.
    Applied a second time it changes nothing. *)
Theorem deduplicateByLibrary_keeps_one_item_per_library
    (items : list PipelineLibrary) :
  NoDup (map libraryKey (deduplicateByLibrary items))
  /\ incl (deduplicateByLibrary items) items
  /\ (forall x, In x items ->
                exists y, In y (deduplicateByLibrary items)
                          /\ libraryKey y = libraryKey x)
  /\ deduplicateByLibrary (deduplicateByLibrary items)
     = deduplicateByLibrary items.
Proof.
  unfold deduplicateByLibrary.
  destruct (deduplicateFrom_spec items []) as (A & B & C).
  repeat split.
  - exact A.
  - intros y Hy. now apply B.
  - intros x Hx. destruct (C x Hx) as [[]|H]. exact H.
  - apply deduplicateFrom_again.
Qed.

(** *** Data pipeline *)

Lemma pipelineEntries_nonempty test fs :
  pipelineEntries test fs <> []
  <-> existsb (fun f => test (pipelineDepName f)) fs = true.
Proof.
  unfold pipelineEntries. induction fs as [|f r IH]; simpl.
  - split; [congruence | discriminate].
  - destruct (test (pipelineDepName f)); simpl.
    + split; [reflexivity | discriminate].
    + exact IH.
Qed.

Lemma deduplicateByLibrary_nonempty items :
  deduplicateByLibrary items = [] <-> items = [].
Proof.
  unfold deduplicateByLibrary. destruct items as [|x r]; simpl.
  - tauto.
  - split; discriminate.
Qed.

(** X12. [extractDataPipeline] reports a pipeline exactly when some
    dependency finding bears a listed library name. The three lists
    it then returns are free of repeated library names (up to letter
    case) and not all empty; the feature-engineering list is always
    empty. *)
Theorem extractDataPipeline_shapes (fs : list Finding) :
  match extractDataPipeline fs with
  | NoDataPipeline _ =>
      forall f, In f fs -> category f = "dependencies" ->
                pipelineLibraryName (pipelineDepName f) = false
  | DataPipelineFound loading preprocessing feature frameworks =>
      (exists f, In f fs /\ category f = "dependencies"
                 /\ pipelineLibraryName (pipelineDepName f) = true)
      /\ feature = []
      /\ NoDup (map libraryKey loading)
      /\ NoDup (map libraryKey preprocessing)
      /\ NoDup (map libraryKey frameworks)
      /\ (loading <> [] \/ preprocessing <> [] \/ frameworks <> [])
  end.
Proof.
  unfold extractDataPipeline.
  set (deps := filter (inCategory "dependencies") fs).
  destruct (existsb _ deps) eqn:E; simpl.
  - apply existsb_exists in E as [f [Hf Ht]].
    apply filter_In in Hf as [Hin Hcat]. apply String.eqb_eq in Hcat.
    repeat split.
    + exists f. auto.
    + apply deduplicateByLibrary_NoDup.
    + apply deduplicateByLibrary_NoDup.
    + apply deduplicateByLibrary_NoDup.
    + assert (Hd : In f deps)
        by (apply filter_In; split; [exact Hin | now apply String.eqb_eq]).
      apply orb_true_iff in Ht as [Ht|Ht];
        [apply orb_true_iff in Ht as [Ht|Ht]|].
      * left. rewrite deduplicateByLibrary_nonempty.
        apply pipelineEntries_nonempty, existsb_exists. eauto.
      * right; left. rewrite deduplicateByLibrary_nonempty.
        apply pipelineEntries_nonempty, existsb_exists. eauto.
      * right; right. rewrite deduplicateByLibrary_nonempty.
        apply pipelineEntries_nonempty, existsb_exists. eauto.
  - intros f Hin Hcat.
    destruct (pipelineLibraryName (pipelineDepName f)) eqn:Ep; [|reflexivity].
    assert (K : existsb
                  (fun finding =>
                     isDataLoading (pipelineDepName finding)
                     || isPreprocessing (pipelineDepName finding)
                     || isFramework (pipelineDepName finding)) deps = true).
    { apply existsb_exists. exists f. split; [|exact Ep].
      apply filter_In. split; [exact Hin | now apply String.eqb_eq]. }
    congruence.
Qed.

(** *** Risk assessment *)

Lemma filter_inCategory_none c fs :
  (forall f, In f fs -> category f <> c) -> filter (inCategory c) fs = [].
Proof.
  intros H. apply filter_none. intros f Hf. apply String.eqb_neq.
  now apply H.
Qed.

Lemma riskLevel_monotone (s : Z) :
  levelRank (riskLevel (s - 1)) <= levelRank (riskLevel s).
Proof.
  unfold riskLevel.
  destruct (Z.leb_spec (s - 1) 0), (Z.leb_spec s 0);
    destruct (Z.leb_spec (s - 1) 3), (Z.leb_spec s 3);
    unfold levelRank; simpl; lia.
Qed.

Lemma riskLevel_low (s : Z) : (s <= 0)%Z -> riskLevel s = "low".
Proof.
  intros H. unfold riskLevel. destruct (Z.leb_spec s 0); [reflexivity | lia].
Qed.

Lemma missingDocumentation_throws items rs :
  missingDocumentation items rs = None
  <-> exists f, In f rs /\ isMissingDocumentation f = true /\ items f = None.
Proof.
  induction rs as [|r rs IH]; simpl.
  - split; [discriminate | intros (f & [] & _)].
  - destruct (isMissingDocumentation r) eqn:Em.
    + destruct (items r) as [pushed|] eqn:Ei.
      * destruct (missingDocumentation items rs) as [rest|]; simpl.
        -- split; [discriminate|].
           intros (f & [<-|Hf] & Hm & Hi); [congruence|].
           exfalso. assert (K : Some rest = None) by (apply IH; eauto).
           discriminate.
        -- split; [|reflexivity]. intros _.
           destruct (proj1 IH eq_refl) as (f & Hf & Hm & Hi). eauto.
      * split; [|reflexivity]. intros _. exists r. auto.
    + rewrite IH. split.
      * intros (f & Hf & Hm & Hi). eauto.
      * intros (f & [<-|Hf] & Hm & Hi); [congruence | eauto].
Qed.

(** X13. On a finding list without findings of category [risk] (no
    unit creates one) the risk assessment returns: the level is [low],
    no risk is identified and no missing documentation named; every
    governance finding is a positive indicator; and a recommendation
    is made exactly when models were found without any governance
    finding. *)
Theorem risk_assessment_without_risk_findings
    (items : Finding -> option (list string)) (fs : list Finding) :
  (forall f, In f fs -> category f <> "risk") ->
  exists assessment,
    extractRiskAssessment items fs = Some assessment
    /\ overall_risk_level assessment = "low"
    /\ identified_risks assessment = []
    /\ missing_documentation assessment = []
    /\ positive_indicators assessment
       = map (fun f => mkIndicator (title f) (description f))
           (filter (inCategory "governance") fs)
    /\ (recommendations assessment <> []
        <-> hasModels fs = true
            /\ forall f, In f fs -> category f <> "governance").
Proof.
  intros H. unfold extractRiskAssessment.
  rewrite (filter_inCategory_none "risk" fs H).
  cbn [missingDocumentation]. eexists. split; [reflexivity|].
  cbn [overall_risk_level identified_risks missing_documentation
       positive_indicators recommendations flat_map List.length Nat.ltb
       Nat.leb andb app].
  split; [|split; [reflexivity | split; [reflexivity | split; [reflexivity|]]]].
  - apply riskLevel_low. unfold riskScore. cbn [fold_left]. lia.
  - rewrite app_nil_r, length_map. split.
    + intros Hrec.
      destruct (filter (inCategory "governance") fs) as [|g r] eqn:E;
        cbn [List.length Nat.eqb andb] in Hrec; [|congruence].
      split.
      * destruct (hasModels fs); [reflexivity | congruence].
      * intros f Hf Hc.
        assert (K : In f (filter (inCategory "governance") fs))
          by (apply filter_In; split; [exact Hf | now apply String.eqb_eq]).
        rewrite E in K. destruct K.
    + intros [Hm Hg].
      rewrite (filter_inCategory_none "governance" fs Hg), Hm. discriminate.
Qed.

Lemma risk_assessment_witness :
  exists assessment,
    extractRiskAssessment (fun _ => None)
      [Samples.depOpenAI; Samples.hfTextModel] = Some assessment
    /\ overall_risk_level assessment = "low".
Proof.
  destruct (risk_assessment_without_risk_findings (fun _ => None)
              [Samples.depOpenAI; Samples.hfTextModel])
    as (assessment & E & Hlow & _).
  - intros f [<-|[<-|[]]]; discriminate.
  - exists assessment. split; [exact E | exact Hlow].
Defined.

Lemma filter_insert_other c fs1 fs2 (g : Finding) :
  inCategory c g = false ->
  filter (inCategory c) (fs1 ++ g :: fs2) = filter (inCategory c) (fs1 ++ fs2).
Proof. intros H. rewrite !filter_app. simpl. now rewrite H. Qed.

Lemma filter_insert_same c fs1 fs2 (g : Finding) :
  inCategory c g = true ->
  List.length (filter (inCategory c) (fs1 ++ g :: fs2))
  = S (List.length (filter (inCategory c) (fs1 ++ fs2))).
Proof.
  intros H. rewrite !filter_app, !length_app. simpl. rewrite H. simpl. lia.
Qed.

(** X14. One more governance finding never raises the risk level, and
    does not change whether the assessment throws. *)
Theorem governance_finding_never_raises_risk_level
    (items : Finding -> option (list string)) (fs1 fs2 : list Finding)
    (g : Finding) :
  category g = "governance" ->
  match extractRiskAssessment items (fs1 ++ g :: fs2),
        extractRiskAssessment items (fs1 ++ fs2) with
  | Some more, Some fewer =>
      levelRank (overall_risk_level more)
      <= levelRank (overall_risk_level fewer)
  | None, None => True
  | _, _ => False
  end.
Proof.
  intros Hg. unfold extractRiskAssessment.
  rewrite (filter_insert_other "risk" fs1 fs2 g)
    by (unfold inCategory; now rewrite Hg).
  destruct (missingDocumentation items _); [|exact I].
  cbn [overall_risk_level].
  unfold riskScore.
  rewrite (filter_insert_same "governance" fs1 fs2 g)
    by (unfold inCategory; now rewrite Hg).
  set (base := fold_left _ _ 0%Z).
  set (n := List.length (filter (inCategory "governance") (fs1 ++ fs2))).
  replace (base - Z.of_nat (S n))%Z with (base - Z.of_nat n - 1)%Z by lia.
  apply riskLevel_monotone.
Qed.

Lemma governance_finding_witness :
  match extractRiskAssessment (fun _ => None)
          ([Samples.hfTextModel]
           ++ Risk.governanceFinding "risk-limitations-documented"
                "Limitations Documented"
                "Model limitations are documented in "
                [mkDocExtract "README.md" "May hallucinate."] "limitations"
           :: []),
        extractRiskAssessment (fun _ => None) ([Samples.hfTextModel] ++ []) with
  | Some more, Some fewer =>
      levelRank (overall_risk_level more)
      <= levelRank (overall_risk_level fewer)
  | None, None => True
  | _, _ => False
  end.
Proof.
  apply (governance_finding_never_raises_risk_level (fun _ => None)
           [Samples.hfTextModel] []).
  reflexivity.
Defined.

(** X15. The risk assessment, and with it the extraction of the
    extended metadata, throws exactly when a finding of category
    [risk] records missing documentation without an [items] list; the
    findings the units of this program build never do. *)
Theorem risk_assessment_throws_exactly_on_absent_items
    (items : Finding -> option (list string)) (fs : list Finding) :
  let absent :=
    exists f, In f fs /\ category f = "risk"
              /\ hasRiskType "missing-documentation" f = true
              /\ items f = None in
  (extractRiskAssessment items fs = None <-> absent)
  /\ (extractExtendedMetadata items fs = None <-> absent).
Proof.
  assert (H : extractRiskAssessment items fs = None
              <-> exists f, In f fs /\ category f = "risk"
                            /\ hasRiskType "missing-documentation" f = true
                            /\ items f = None).
  { unfold extractRiskAssessment.
    destruct (missingDocumentation items (filter (inCategory "risk") fs))
      as [missing|] eqn:E.
    - split; [discriminate|].
      intros (f & Hf & Hc & Hm & Hi). exfalso.
      assert (K : missingDocumentation items (filter (inCategory "risk") fs)
                  = None).
      { apply missingDocumentation_throws. exists f. repeat split; auto.
        apply filter_In. split; [exact Hf | now apply String.eqb_eq]. }
      congruence.
    - split; [|reflexivity]. intros _.
      apply missingDocumentation_throws in E as (f & Hf & Hm & Hi).
      apply filter_In in Hf as [Hf Hc]. apply String.eqb_eq in Hc.
      exists f. auto. }
  cbv zeta. split; [exact H|].
  rewrite <- H. unfold extractExtendedMetadata.
  destruct (extractRiskAssessment items fs); split; congruence.
Qed.

(** *** Governance metadata and the risk unit *)

Lemma riskFindings_governance pd f :
  In f (Risk.riskFindings pd) -> inCategory "governance" f = true.
Proof.
  intros H. apply riskFindings_weight in H as [_ H].
  unfold inCategory. now rewrite H.
Qed.

Lemma filter_governance_of_run fs gs pd :
  (forall f, In f (fs ++ gs) -> category f <> "governance") ->
  filter (inCategory "governance") (fs ++ Risk.riskFindings pd ++ gs)
  = Risk.riskFindings pd.
Proof.
  intros H. rewrite !filter_app.
  rewrite (filter_inCategory_none "governance" fs)
    by (intros f Hf; apply H, in_or_app; now left).
  rewrite (filter_inCategory_none "governance" gs)
    by (intros f Hf; apply H, in_or_app; now right).
  rewrite app_nil_r. simpl. apply filter_all, riskFindings_governance.
Qed.

(** X16. What the risk unit found documented is what the governance
    metadata reports: in a run whose other findings are not of
    category governance, [limitations_documented],
    [bias_fairness_documented] and [ethical_considerations_documented]
    hold exactly when the parsed documentation has a limitations, bias
    or ethics section, each consideration carries the number of
    sections found, and [intended_use_documented] is false whatever
    was parsed. *)
Theorem governance_metadata_follows_risk_unit
    (fs gs : list Finding) (pd : ParsedDocs) :
  (forall f, In f (fs ++ gs) -> category f <> "governance") ->
  let governance :=
    extractGovernanceMetadata (fs ++ Risk.riskFindings pd ++ gs) in
  let status := documentation_status governance in
  limitations_documented status = (0 <? List.length (limitations pd))%nat
  /\ bias_fairness_documented status
     = (0 <? List.length (biasInformation pd))%nat
  /\ ethical_considerations_documented status
     = (0 <? List.length (ethicalConsiderations pd))%nat
  /\ intended_use_documented status = false
  /\ map (fun c => (cons_type c, cons_count c))
       (detected_considerations governance)
     = (if (0 <? List.length (limitations pd))%nat
        then [("limitations", List.length (limitations pd))] else [])
       ++ (if (0 <? List.length (biasInformation pd))%nat
           then [("bias_fairness", List.length (biasInformation pd))] else [])
       ++ (if (0 <? List.length (ethicalConsiderations pd))%nat
           then [("ethical", List.length (ethicalConsiderations pd))]
           else []).
Proof.
  intros H. unfold extractGovernanceMetadata.
  rewrite (filter_governance_of_run fs gs pd H).
  cbn [documentation_status detected_considerations limitations_documented
       bias_fairness_documented ethical_considerations_documented
       intended_use_documented].
  unfold Risk.riskFindings.
  destruct (0 <? List.length (limitations pd))%nat,
    (0 <? List.length (biasInformation pd))%nat,
    (0 <? List.length (ethicalConsiderations pd))%nat;
    repeat split.
Qed.

Lemma governance_metadata_witness :
  limitations_documented
    (documentation_status
       (extractGovernanceMetadata
          ([Samples.depOpenAI] ++ Risk.riskFindings Samples.docs ++ [])))
  = true.
Proof.
  apply (governance_metadata_follows_risk_unit [Samples.depOpenAI] []
           Samples.docs).
  intros f [<-|[]]. discriminate.
Defined.

(** *** Documentation completeness *)

(** X17. The documentation completeness score is twenty points per
    check passed, out of the five checks README, model card, security
    document, limitations and ethical considerations; the level is
    [excellent] from four checks on, [good] at three, [fair] at two and
    [poor] below. Whether bias or intended use is documented does not
    enter. *)
Theorem documentation_completeness_counts_five_checks (g : Governance) :
  let c := calculateDocumentationCompleteness g in
  let passed :=
    List.length
      (filter (fun b : bool => b)
         [readme_present (transparency g);
          model_cards_present (transparency g);
          security_documentation (transparency g);
          limitations_documented (documentation_status g);
          ethical_considerations_documented (documentation_status g)]) in
  checks_passed c = passed
  /\ total_checks c = 5
  /\ completeness_score c = 20 * passed
  /\ completeness_level c
     = (if (4 <=? passed)%nat then "excellent"
        else if (3 <=? passed)%nat then "good"
        else if (2 <=? passed)%nat then "fair"
        else "poor").
Proof.
  unfold calculateDocumentationCompleteness.
  destruct (readme_present (transparency g)),
    (model_cards_present (transparency g)),
    (security_documentation (transparency g)),
    (limitations_documented (documentation_status g)),
    (ethical_considerations_documented (documentation_status g));
    vm_compute; repeat split.
Qed.

(** *** Analysis notes *)

(** X18. The analysis notes and the governance metadata read the same
    evidence: a file is listed as missing exactly when the matching
    transparency flag is false, README.md first, then MODEL_CARD.md,
    then SECURITY.md, and the first suggested improvement names
    exactly the missing files. *)
Theorem analysis_notes_mirror_transparency (fs : list Finding) :
  let notes := extractAnalysisNotes fs in
  let shown := transparency (extractGovernanceMetadata fs) in
  missingFiles notes
  = (if readme_present shown then [] else ["README.md"])
    ++ (if model_cards_present shown then [] else ["MODEL_CARD.md"])
    ++ (if security_documentation shown then [] else ["SECURITY.md"])
  /\ (missingFiles notes <> [] ->
      exists first rest,
        suggested_improvements notes = first :: rest
        /\ imp_files first = missingFiles notes)
  /\ (missingFiles notes = [] ->
      forall i, In i (suggested_improvements notes) ->
                imp_action i = "Create model documentation").
Proof.
  unfold extractAnalysisNotes, extractGovernanceMetadata, missingFiles.
  cbn [transparency readme_present model_cards_present security_documentation
       notes_missing_documentation suggested_improvements].
  destruct (someFileMentions "readme" (allFiles fs)),
    (someFileMentions "model" (allFiles fs)),
    (someFileMentions "security" (allFiles fs)); cbn;
    (split; [reflexivity | split]); try (intros K; now contradiction K);
    try (intros _; eexists; eexists; split; reflexivity);
    try discriminate.
  intros _ i Hi.
  destruct (hasModels fs && negb (existsb (inCategory "governance") fs));
    simpl in Hi; rewrite ?andb_false_r in Hi; simpl in Hi;
    [destruct Hi as [<-|[]]; reflexivity | destruct Hi].
Qed.

(** *** Summary *)

Lemma category_counts_disjoint (fs : list Finding) :
  List.length (filter (inCategory "dependencies") fs)
  + List.length (filter (inCategory "hardware") fs)
  + List.length (filter (inCategory "infrastructure") fs)
  + List.length (filter (inCategory "governance") fs)
  + List.length (filter (inCategory "risk") fs)
  <= List.length fs.
Proof.
  unfold inCategory. induction fs as [|f r IH]; simpl; [lia|].
  destruct (String.eqb_spec (category f) "dependencies") as [E|H1];
    [rewrite E; simpl; lia|].
  destruct (String.eqb_spec (category f) "hardware") as [E|H2];
    [rewrite E; simpl; lia|].
  destruct (String.eqb_spec (category f) "infrastructure") as [E|H3];
    [rewrite E; simpl; lia|].
  destruct (String.eqb_spec (category f) "governance") as [E|H4];
    [rewrite E; simpl; lia|].
  destruct (String.eqb (category f) "risk"); simpl; lia.
Qed.

(** X19. In the summary of a finding list and its extended metadata
    the five category counts (dependencies, hardware, infrastructure,
    governance, risks) never add up to more than the total, and the
    model count is at most the total; hardware and infrastructure are
    reported detected exactly when their count is positive, and a
    detected data pipeline needs a dependency. *)
Theorem summary_counts_are_consistent
    (items : Finding -> option (list string)) (fs : list Finding)
    (metadata : ExtendedMetadata) :
  extractExtendedMetadata items fs = Some metadata ->
  let s := generateSummary metadata fs in
  let n := categories s in
  n_dependencies n + n_hardware n + n_infrastructure n + n_governance n
  + n_risks n <= total_findings s
  /\ n_models n <= total_findings s
  /\ hardware_detected s = (0 <? n_hardware n)%nat
  /\ infrastructure_detected s = (0 <? n_infrastructure n)%nat
  /\ (data_pipeline_detected s = true -> 0 < n_dependencies n).
Proof.
  unfold extractExtendedMetadata.
  destruct (extractRiskAssessment items fs) as [risks|]; [|discriminate].
  intros E. injection E as <-.
  unfold generateSummary.
  cbn [categories n_dependencies n_hardware n_infrastructure n_governance
       n_risks n_models total_findings hardware_detected
       infrastructure_detected data_pipeline_detected hardware infrastructure
       data_pipeline].
  split; [apply category_counts_disjoint | split; [apply filter_length_le | split]].
  - unfold extractHardwareMetadata.
    destruct (filter (inCategory "hardware") fs); reflexivity.
  - split.
    + unfold extractInfrastructureMetadata.
      destruct (filter (inCategory "infrastructure") fs); reflexivity.
    + unfold extractDataPipeline.
      destruct (filter (inCategory "dependencies") fs); simpl;
        [discriminate | lia].
Qed.

Lemma summary_counts_witness :
  exists metadata,
    extractExtendedMetadata (fun _ => None)
      [Samples.depOpenAI; Samples.hfTextModel] = Some metadata
    /\ n_models
         (categories
            (generateSummary metadata [Samples.depOpenAI; Samples.hfTextModel]))
       <= 2.
Proof.
  eexists. split; [reflexivity|].
  exact (proj1 (proj2 (summary_counts_are_consistent (fun _ => None)
                         [Samples.depOpenAI; Samples.hfTextModel] _ eq_refl))).
Defined.

End ExtendedMetadataFacts.

(* ------------------------------------------------------------------ *)
(** ** Local model files *)
(* ------------------------------------------------------------------ *)

Section ModelFileFacts.
Import ModelFiles ModelFilesSpec.

Lemma recordMatch_get entry m p k :
  JsMap.get (recordMatch entry m p) k
  = if keyIs k p && isMatch p entry
    then Some (pushed (JsMap.get m k) (mp_description p) entry)
    else JsMap.get m k.
Proof.
  unfold recordMatch, keyIs.
  destruct (isMatch p entry); [|now rewrite andb_false_r].
  rewrite andb_true_r.
  destruct (String.eqb_spec (patternKey p) k) as [<-|Hne].
  - unfold JsMap.has.
    destruct (JsMap.get m (patternKey p)) as [g|] eqn:E; simpl.
    + rewrite E. apply get_set_same.
    + rewrite get_set_same. apply get_set_same.
  - unfold JsMap.has.
    destruct (JsMap.get m (patternKey p)) as [g|] eqn:E; simpl.
    + rewrite E. now apply get_set_other.
    + rewrite get_set_same. now rewrite !get_set_other.
Qed.

Lemma recordMatch_NoDup entry m p :
  NoDup (JsMap.keys m) -> NoDup (JsMap.keys (recordMatch entry m p)).
Proof.
  intros H. unfold recordMatch. destruct (isMatch p entry); [|exact H].
  destruct (negb (JsMap.has m (patternKey p))).
  - rewrite get_set_same. now apply NoDup_keys_set, NoDup_keys_set.
  - destruct (JsMap.get m (patternKey p)); [now apply NoDup_keys_set | exact H].
Qed.

Lemma find_keyIs_absent k ps :
  ~ In k (map patternKey ps) -> find (keyIs k) ps = None.
Proof.
  induction ps as [|p r IH]; simpl; [reflexivity|]. intros H.
  unfold keyIs at 1. destruct (String.eqb_spec (patternKey p) k); [tauto|].
  apply IH. tauto.
Qed.

(** The inner loop, for one entry. *)
Lemma inner_loop_get entry ps : forall m k,
  NoDup (map patternKey ps) ->
  JsMap.get (fold_left (recordMatch entry) ps m) k
  = match find (keyIs k) ps with
    | Some p =>
        if isMatch p entry
        then Some (pushed (JsMap.get m k) (mp_description p) entry)
        else JsMap.get m k
    | None => JsMap.get m k
    end.
Proof.
  induction ps as [|p r IH]; intros m k Hnd; [reflexivity|].
  inversion Hnd as [|? ? Hnotin Hnd']; subst.
  cbn [fold_left find]. rewrite IH by exact Hnd'. rewrite recordMatch_get.
  destruct (keyIs k p) eqn:E; simpl; [|reflexivity].
  unfold keyIs in E. apply String.eqb_eq in E. subst k.
  now rewrite (find_keyIs_absent _ r Hnotin).
Qed.

Lemma inner_loop_NoDup entry ps : forall m,
  NoDup (JsMap.keys m) -> NoDup (JsMap.keys (fold_left (recordMatch entry) ps m)).
Proof.
  induction ps as [|p r IH]; intros m H; simpl; [exact H|].
  apply IH. now apply recordMatch_NoDup.
Qed.

Lemma expected_snoc ps tree entry k :
  expected ps (tree ++ [entry]) k
  = match find (keyIs k) ps with
    | Some p =>
        if isMatch p entry
        then Some (pushed (expected ps tree k) (mp_description p) entry)
        else expected ps tree k
    | None => expected ps tree k
    end.
Proof.
  unfold expected, matching. destruct (find (keyIs k) ps) as [p|]; [|reflexivity].
  rewrite filter_app. simpl.
  destruct (isMatch p entry).
  - destruct (filter (isMatch p) tree) as [|x l]; simpl; [reflexivity|].
    now rewrite map_app.
  - now rewrite app_nil_r.
Qed.

Lemma outer_loop ps rest : forall m tree,
  NoDup (map patternKey ps) ->
  NoDup (JsMap.keys m) ->
  (forall k, JsMap.get m k = expected ps tree k) ->
  let m' :=
    fold_left (fun modelFiles entry => fold_left (recordMatch entry) ps modelFiles)
      rest m in
  NoDup (JsMap.keys m')
  /\ forall k, JsMap.get m' k = expected ps (tree ++ rest) k.
Proof.
  induction rest as [|entry r IH]; intros m tree Hps Hm Hget; simpl.
  - rewrite app_nil_r. auto.
  - replace (tree ++ entry :: r) with ((tree ++ [entry]) ++ r)
      by (rewrite <- app_assoc; reflexivity).
    apply IH.
    + exact Hps.
    + now apply inner_loop_NoDup.
    + intros k. rewrite inner_loop_get by exact Hps.
      rewrite expected_snoc, Hget. reflexivity.
Qed.

Lemma patternKeys_NoDup : NoDup (map patternKey MODEL_FILE_PATTERNS).
Proof. simpl. repeat constructor; simpl; intuition discriminate. Qed.

Lemma collectModelFiles_spec tree :
  NoDup (JsMap.keys (collectModelFiles MODEL_FILE_PATTERNS tree))
  /\ forall k g,
       In (k, g) (collectModelFiles MODEL_FILE_PATTERNS tree)
       <-> expected MODEL_FILE_PATTERNS tree k = Some g.
Proof.
  destruct (outer_loop MODEL_FILE_PATTERNS tree [] [] patternKeys_NoDup)
    as [Hnd Hget].
  - constructor.
  - intros k. unfold expected. cbn [JsMap.get].
    destruct (find (keyIs k) MODEL_FILE_PATTERNS); reflexivity.
  - cbn [app] in Hget. fold (collectModelFiles MODEL_FILE_PATTERNS tree) in *.
    split; [exact Hnd|]. intros k g. rewrite <- Hget. split.
    + now apply In_get.
    + apply get_In.
Qed.

Lemma find_keyIs_own ps p :
  NoDup (map patternKey ps) -> In p ps ->
  find (keyIs (patternKey p)) ps = Some p.
Proof.
  induction ps as [|q r IH]; simpl; [tauto|].
  intros Hnd [->|Hin].
  - unfold keyIs. now rewrite String.eqb_refl.
  - inversion Hnd as [|? ? Hnotin Hnd']; subst.
    unfold keyIs at 1.
    destruct (String.eqb_spec (patternKey q) (patternKey p)) as [E|_].
    + exfalso. apply Hnotin. rewrite E. now apply in_map.
    + now apply IH.
Qed.

Lemma modelsDetector_findings tree f :
  In f (modelsDetector tree)
  <-> exists p, In p MODEL_FILE_PATTERNS /\ matching p tree <> []
                /\ f = findingFor p tree.
Proof.
  unfold modelsDetector. rewrite in_map_iff.
  destruct (collectModelFiles_spec tree) as [_ Hin]. split.
  - intros [[k g] [<- H]]. apply Hin in H. unfold expected in H.
    destruct (find (keyIs k) MODEL_FILE_PATTERNS) as [p|] eqn:E; [|discriminate].
    apply find_some in E as [Hp Hk]. unfold keyIs in Hk.
    apply String.eqb_eq in Hk. subst k.
    exists p. split; [exact Hp|].
    unfold findingFor. simpl.
    destruct (matching p tree) as [|x l] eqn:Em; [discriminate|].
    injection H as <-. split; [discriminate | reflexivity].
  - intros [p [Hp [Hm ->]]].
    exists (patternKey p,
            mkModelFileGroup (mp_description p) (map fileOf (matching p tree))).
    split; [reflexivity|]. apply Hin. unfold expected.
    rewrite (find_keyIs_own _ p patternKeys_NoDup Hp).
    destruct (matching p tree); [congruence | reflexivity].
Qed.

(** X20. [modelsDetector] reports exactly one finding for every
    pattern of [MODEL_FILE_PATTERNS] that matches some tree entry, and
    nothing else; that finding counts all the entries the pattern
    matches. An empty tree, or one without such a file, gives no
    finding. *)
Theorem modelsDetector_reports_matched_patterns
    (tree : list Pipeline.TreeEntry) (f : Finding) :
  In f (modelsDetector tree)
  <-> exists p, In p MODEL_FILE_PATTERNS /\ matching p tree <> []
                /\ f = findingFor p tree.
Proof. apply modelsDetector_findings. Qed.

(** X21. Every finding of [modelsDetector] has category [models], a
    weight between 5 and 8 (4 plus the number of files, capped at 8)
    and between 1 and 10 evidence entries. *)
Theorem modelsDetector_weights_and_evidence
    (tree : list Pipeline.TreeEntry) (f : Finding) :
  In f (modelsDetector tree) ->
  category f = "models"
  /\ (5 <= weight f <= 8)%Z
  /\ 1 <= List.length (evidence f) <= 10.
Proof.
  intros H. apply modelsDetector_findings in H as [p [_ [Hm ->]]].
  unfold findingFor, modelFinding, plainFinding.
  cbn [category weight evidence mg_files].
  rewrite !length_map, length_firstn, length_map.
  destruct (matching p tree) as [|x l]; [congruence|]. cbn [List.length].
  repeat split; lia.
Qed.

Lemma modelsDetector_weights_witness :
  let tree := [Pipeline.mkTreeEntry "models/llama.Q4.gguf" (Some 4096);
               Pipeline.mkTreeEntry "src/app.py" (Some 120)] in
  let f := ModelFilesSpec.findingFor
             (byExtension ".gguf" "GGUF model file (llama.cpp format)" None)
             tree in
  category f = "models" /\ (5 <= weight f <= 8)%Z
  /\ 1 <= List.length (evidence f) <= 10.
Proof.
  apply (modelsDetector_weights_and_evidence
           [Pipeline.mkTreeEntry "models/llama.Q4.gguf" (Some 4096);
            Pipeline.mkTreeEntry "src/app.py" (Some 120)]).
  now left.
Defined.

Lemma sanitized_keys_distinct :
  NoDup (map (fun p => sanitize (patternKey p)) MODEL_FILE_PATTERNS).
Proof. simpl. repeat constructor; simpl; intuition discriminate. Qed.

(** X22. The findings of [modelsDetector] have pairwise different
    ids, and there are at most eleven of them, whatever the tree. *)
Theorem modelsDetector_ids_are_distinct (tree : list Pipeline.TreeEntry) :
  NoDup (map id (modelsDetector tree))
  /\ List.length (modelsDetector tree) <= 11.
Proof.
  destruct (collectModelFiles_spec tree) as [Hnd Hin].
  set (m := collectModelFiles MODEL_FILE_PATTERNS tree) in *.
  assert (Hkeys : incl (JsMap.keys m) (map patternKey MODEL_FILE_PATTERNS)).
  { intros k Hk. unfold JsMap.keys in Hk.
    apply in_map_iff in Hk as [[k' g] [<- H]]. cbn [fst].
    apply Hin in H. unfold expected in H.
    destruct (find (keyIs k') MODEL_FILE_PATTERNS) as [p|] eqn:E; [|discriminate].
    apply find_some in E as [Hp Hk]. unfold keyIs in Hk.
    apply String.eqb_eq in Hk. subst k'. now apply in_map. }
  split.
  - unfold modelsDetector. fold m. rewrite map_map.
    unfold modelFinding, plainFinding. cbn [id].
    replace (map (fun x => ("models-" ++ sanitize (fst x))%string) m)
      with (map (fun k => ("models-" ++ sanitize k)%string) (JsMap.keys m))
      by (unfold JsMap.keys; now rewrite map_map).
    apply NoDup_map_on; [exact Hnd|].
    intros x y Hx Hy E. apply prefix_append_inj in E.
    apply Hkeys in Hx, Hy.
    apply in_map_iff in Hx as [px [<- Hpx]].
    apply in_map_iff in Hy as [py [<- Hpy]].
    f_equal.
    apply (NoDup_map_inv_on (fun p => sanitize (patternKey p))
             MODEL_FILE_PATTERNS sanitized_keys_distinct px py Hpx Hpy E).
  - unfold modelsDetector. fold m. rewrite length_map.
    replace (List.length m) with (List.length (JsMap.keys m))
      by (unfold JsMap.keys; apply length_map).
    apply (NoDup_incl_length Hnd) in Hkeys.
    now rewrite length_map in Hkeys.
Qed.

End ModelFileFacts.

(* ------------------------------------------------------------------ *)
(** ** Code search: request budget and the findings it yields *)
(* ------------------------------------------------------------------ *)

Section SearchBudget.
Import Eff CodeSearch Pipeline PipelineSpec.





(** *** Findings made from the search results *)

Lemma convertSearchToFindings_In sdk f :
  In f (convertSearchToFindings sdk) ->
  exists key data,
    In (key, data) sdk /\ sdk_files data <> []
    /\ id f = ("code-sdk-search-" ++ key)%string
    /\ category f = "code" /\ weight f = 5%Z
    /\ filesFound f = Some (List.length (sdk_files data))
    /\ List.length (evidence f) = Nat.min 5 (List.length (sdk_files data)).
Proof.
  unfold convertSearchToFindings. intros H.
  apply in_flat_map in H as [[key data] [Hin H]].
  destruct (Nat.eqb_spec (List.length (sdk_files data)) 0) as [E|E];
    [destruct H|].
  destruct H as [<-|[]]. exists key, data.
  split; [exact Hin|]. split; [intros K; now rewrite K in E|].
  cbn [id category weight filesFound evidence].
  repeat split. now rewrite length_map, length_firstn.
Qed.

Lemma convertSearchToFindings_ids sdk :
  map id (convertSearchToFindings sdk)
  = map (fun key => ("code-sdk-search-" ++ key)%string)
      (JsMap.keys (filter (fun e => negb (Nat.eqb (List.length (sdk_files (snd e))) 0))
                     sdk)).
Proof.
  unfold convertSearchToFindings, JsMap.keys.
  induction sdk as [|[key data] r IH]; [reflexivity|].
  cbn [flat_map filter snd].
  destruct (Nat.eqb (List.length (sdk_files data)) 0);
    cbn [negb app map fst id].
  - exact IH.
  - f_equal. exact IH.
Qed.

Lemma NoDup_keys_filter {V} (P : string * V -> bool) (m : JsMap.t V) :
  NoDup (JsMap.keys m) -> NoDup (JsMap.keys (filter P m)).
Proof.
  unfold JsMap.keys. induction m as [|e r IH]; simpl; intros H; [constructor|].
  inversion H as [|? ? Hnotin Hnd]; subst.
  destruct (P e); simpl.
  - constructor; [|now apply IH].
    intros K. apply Hnotin. apply in_map_iff in K as [x [Ex Hx]].
    apply filter_In in Hx as [Hx _]. rewrite <- Ex. now apply in_map.
  - now apply IH.
Qed.

(** X24. From an accumulator with distinct provider keys,
    [convertSearchToFindings] makes findings with pairwise different
    ids, one for each provider with at least one file and none for a
    provider without; each is a code finding of weight 5 showing at
    most five of the files while [filesFound] counts them all. *)
Theorem convertSearchToFindings_one_finding_per_provider
    (sdk : JsMap.t SdkEntry) :
  NoDup (JsMap.keys sdk) ->
  NoDup (map id (convertSearchToFindings sdk))
  /\ List.length (convertSearchToFindings sdk)
     = List.length (filter (fun e => negb (Nat.eqb (List.length (sdk_files (snd e))) 0))
                      sdk)
  /\ forall f, In f (convertSearchToFindings sdk) ->
               category f = "code" /\ weight f = 5%Z
               /\ exists n, filesFound f = Some n /\ 1 <= n
                            /\ List.length (evidence f) = Nat.min 5 n.
Proof.
  intros Hnd. split; [|split].
  - rewrite convertSearchToFindings_ids.
    apply NoDup_map_on; [now apply NoDup_keys_filter|].
    intros x y _ _ E. now apply prefix_append_inj in E.
  - rewrite <- (length_map id), convertSearchToFindings_ids, length_map.
    unfold JsMap.keys. now rewrite length_map.
  - intros f Hf.
    apply convertSearchToFindings_In in Hf
      as (key & data & _ & Hne & _ & Hc & Hw & Hff & Hev).
    repeat split; try assumption.
    exists (List.length (sdk_files data)). repeat split; try assumption.
    destruct (sdk_files data); [congruence | simpl; lia].
Qed.

Lemma convertSearchToFindings_witness :
  NoDup
    (map id
       (convertSearchToFindings
          [("OpenAI-search",
            mkSdkEntry "OpenAI" [Samples.evApp; Samples.evRequirements]);
           ("Cohere-search", mkSdkEntry "Cohere" [])])).
Proof.
  apply (convertSearchToFindings_one_finding_per_provider
           [("OpenAI-search",
             mkSdkEntry "OpenAI" [Samples.evApp; Samples.evRequirements]);
            ("Cohere-search", mkSdkEntry "Cohere" [])]).
  repeat constructor; simpl; intuition discriminate.
Defined.

End SearchBudget.

(* ------------------------------------------------------------------ *)
(** ** Resumption keeps what was found *)
(* ------------------------------------------------------------------ *)

Section ResumptionKeepsFindings.
Import Eff CodeSearch Pipeline PipelineSpec.

Lemma mergeResumed_spec all resumed :
  exists extra,
    mergeResumed all resumed = all ++ extra
    /\ incl extra resumed
    /\ forall f, In f extra -> ~ In (id f) (map id all).
Proof.
  unfold mergeResumed. eexists. split; [reflexivity|]. split.
  - intros f Hf. now apply filter_In in Hf.
  - intros f Hf K. apply filter_In in Hf as [_ Hf].
    apply negb_true_iff in Hf.
    assert (In (id f) (JsSet.addAll [] (map id all)))
      by (apply In_set_addAll; now right).
    apply set_has_In in H. congruence.
Qed.

Lemma handleResult_appends ctx detector result :
  exists extra,
    allFindings (handleResult ctx detector result) = allFindings ctx ++ extra.
Proof.
  unfold handleResult. destruct (isParser detector).
  - exists []. simpl. now rewrite app_nil_r.
  - destruct result as [fs|r|docs|]; simpl;
      try (exists []; now rewrite app_nil_r); eauto.
Qed.

Lemma runDetector_appends input ctx detector w :
  exists ctx' w' extra,
    runDetector input ctx detector w = (Returned ctx', w')
    /\ allFindings ctx' = allFindings ctx ++ extra.
Proof.
  unfold runDetector, tryCatch, bind.
  destruct (fn detector (buildInput input ctx detector) w) as [[result|err] w1].
  - destruct (handleResult_appends ctx detector result) as [extra E].
    exists (handleResult ctx detector result), w1, extra. auto.
  - exists ctx, w1, []. unfold ret. now rewrite app_nil_r.
Qed.

Lemma detector_loop_appends input ds : forall ctx w,
  exists ctx' w' extra,
    forEach ds (runDetector input) ctx w = (Returned ctx', w')
    /\ allFindings ctx' = allFindings ctx ++ extra.
Proof.
  induction ds as [|d r IH]; intros ctx w; simpl.
  - exists ctx, w, []. unfold ret. now rewrite app_nil_r.
  - unfold bind.
    destruct (runDetector_appends input ctx d w) as (c1 & w1 & e1 & -> & E1).
    destruct (IH c1 w1) as (c2 & w2 & e2 & -> & E2).
    exists c2, w2, (e1 ++ e2). split; [reflexivity|].
    now rewrite E2, E1, <- app_assoc.
Qed.

(** X25. No finding is lost before reconciliation, and collecting
    never throws: whatever the units do, failing included, the
    detector loop only ever appends to the findings collected so far;
    and the resumption of the code unit hands the reconciler all of
    them, followed by resumed findings whose ids were not seen
    before. *)
Theorem collected_findings_are_never_lost (u : Units)
    (input : AnalysisInput) (now : Z) (ctx : Context) (w : World) :
  (exists ctx' w' extra,
      forEach (detectors u) (runDetector input) ctx w = (Returned ctx', w')
      /\ allFindings ctx' = allFindings ctx ++ extra)
  /\ (exists extra w',
         resumeCode u input now ctx w
         = (Returned (allFindings ctx ++ extra), w')
         /\ forall f, In f extra -> ~ In (id f) (map id (allFindings ctx))).
Proof.
  split; [apply detector_loop_appends|].
  unfold resumeCode.
  assert (Hsame : forall w0,
             exists extra w',
               (@ret (list Finding) (allFindings ctx)) w0
               = (Returned (allFindings ctx ++ extra), w')
               /\ forall f, In f extra -> ~ In (id f) (map id (allFindings ctx))).
  { intros w0. exists [], w0. rewrite app_nil_r. split; [reflexivity|].
    intros f []. }
  destruct (codeResumeState ctx) as [rs|]; [|apply Hsame].
  destruct (codeDetectorPaused ctx); [|apply Hsame].
  unfold bind at 1.
  assert (Hwait : exists w1, waitForReset now rs w = (Returned tt, w1)).
  { unfold waitForReset. destruct (resetTime (lastRateLimit rs)) as [t|];
      [|now eexists].
    destruct ((0 <? t - now)%Z && (t - now <? 120000)%Z); now eexists. }
  destruct Hwait as [w1 ->].
  unfold tryCatch, bind.
  destruct (codeDetector u _ w1) as [[result|err] w2].
  - destruct result as [fs|r|docs|]; try apply Hsame.
    destruct (mergeResumed_spec (allFindings ctx) (r_findings r))
      as (extra & E & _ & Hids).
    exists extra, w2. unfold ret. rewrite E. auto.
  - apply Hsame.
Qed.

End ResumptionKeepsFindings.

(* ------------------------------------------------------------------ *)
(** ** Confidence levels *)
(* ------------------------------------------------------------------ *)

Section Confidence.
Import ConfidenceSpec.

(** X26. The confidence level is monotone in the score: a higher
    score never gives a lower level; it is [NoDetection] exactly for
    scores below 1 and [VeryHigh] exactly from 10 on. *)
Theorem confidence_is_monotone_in_score (s1 s2 : Z) :
  ((s1 <= s2)%Z ->
   confidenceRank (getConfidenceLevel s1)
   <= confidenceRank (getConfidenceLevel s2))
  /\ (getConfidenceLevel s1 = NoDetection <-> (s1 < 1)%Z)
  /\ (getConfidenceLevel s1 = VeryHigh <-> (10 <= s1)%Z).
Proof.
  unfold getConfidenceLevel.
  destruct (Z.leb_spec 10 s1), (Z.leb_spec 5 s1), (Z.leb_spec 1 s1),
    (Z.leb_spec 10 s2), (Z.leb_spec 5 s2), (Z.leb_spec 1 s2);
    simpl; repeat split; intros; try lia; try discriminate; try reflexivity.
Qed.

End Confidence.

(* ------------------------------------------------------------------ *)
(** ** Model names *)
(* ------------------------------------------------------------------ *)

Section ModelNames.
Import ModelName RepoInputSpec.

Lemma splitAcc_join (sep : ascii) (s : string) : forall cur,
  String.concat (String sep "") (Js.splitAcc sep cur s) = (cur ++ s)%string.
Proof.
  induction s as [|c r IH]; intros cur; simpl.
  - now rewrite string_append_nil_r.
  - destruct (Ascii.eqb_spec c sep) as [->|Hc].
    + destruct (splitAcc_nonempty sep r "") as [x [l E]].
      specialize (IH ""). rewrite E in *. simpl in *. now rewrite IH.
    + rewrite IH. now rewrite string_append_assoc.
Qed.

Lemma split_two (s a b : string) (sep : ascii) :
  Js.split s sep = [a; b] ->
  s = (a ++ String sep b)%string
  /\ ~ In sep (list_ascii_of_string a) /\ ~ In sep (list_ascii_of_string b).
Proof.
  unfold Js.split. intros E.
  pose proof (splitAcc_join sep s "") as J. rewrite E in J. simpl in J.
  split; [now symmetry|].
  split; apply (splitAcc_parts sep s "" _ (fun K => K)); rewrite E; simpl; auto.
Qed.

(** X27. For the HuggingFace provider, [isValidModelName] accepts a
    name only if it is of the form [org/model] with exactly one slash,
    the organisation 2 to 50 characters long and starting with a
    letter or digit, the model name 2 to 100 characters long, and no
    URL marker ([://], [www.], [.com], [.org]) in it. *)
Theorem isValidModelName_accepts_only_org_slash_model (name : string) :
  isValidModelName name "HuggingFace" = true ->
  exists org model,
    name = (org ++ "/" ++ model)%string
    /\ slashFree org /\ slashFree model
    /\ 2 <= String.length org <= 50
    /\ 2 <= String.length model <= 100
    /\ firstIsAlnum org = true
    /\ Js.includes name "://" = false /\ Js.includes name "www." = false
    /\ Js.includes name ".com" = false /\ Js.includes name ".org" = false.
Proof.
  unfold isValidModelName.
  destruct (negb (Js.truthy name)); [discriminate|].
  cbn [String.eqb Ascii.eqb Bool.eqb negb].
  destruct (existsb _ mimeTypePrefixes); [discriminate|].
  destruct (existsb _ frameworkPatterns); [discriminate|].
  destruct (existsb _ cssPrefixes); [discriminate|].
  destruct (Js.arrIncludes invalidNames _); [discriminate|].
  destruct (Js.split name "/") as [|org [|model [|x l]]] eqn:E;
    try discriminate.
  destruct (Nat.ltb_spec (String.length org) 2); [discriminate|].
  destruct (Nat.ltb_spec 50 (String.length org)); [discriminate|].
  destruct (firstIsAlnum org) eqn:Ef; [|discriminate]. cbn [negb orb].
  destruct (Nat.ltb_spec (String.length model) 2); [discriminate|].
  destruct (Nat.ltb_spec 100 (String.length model)); [discriminate|].
  cbn [orb].
  destruct (Js.includes name "://"); [discriminate|].
  destruct (Js.includes name "www."); [discriminate|].
  destruct (Js.includes name ".com"); [discriminate|].
  destruct (Js.includes name ".org"); [discriminate|].
  intros _. apply split_two in E as (E & Ho & Hm).
  exists org, model. repeat split; try assumption; lia.
Qed.

Lemma isValidModelName_witness :
  exists org model,
    "meta-llama/Llama-3-8B" = (org ++ "/" ++ model)%string
    /\ slashFree org /\ slashFree model
    /\ 2 <= String.length org <= 50
    /\ 2 <= String.length model <= 100
    /\ firstIsAlnum org = true
    /\ Js.includes "meta-llama/Llama-3-8B" "://" = false
    /\ Js.includes "meta-llama/Llama-3-8B" "www." = false
    /\ Js.includes "meta-llama/Llama-3-8B" ".com" = false
    /\ Js.includes "meta-llama/Llama-3-8B" ".org" = false.
Proof.
  apply (isValidModelName_accepts_only_org_slash_model "meta-llama/Llama-3-8B").
  reflexivity.
Defined.

End ModelNames.

(* ------------------------------------------------------------------ *)
(** ** Requirements files *)
(* ------------------------------------------------------------------ *)

Section RequirementsFiles.
Import RepoInput Manifest ManifestSpec.

(** *** Character runs *)

Lemma takeWhile_dropWhile (p : ascii -> bool) (s : string) :
  (takeWhile p s ++ dropWhile p s)%string = s.
Proof.
  induction s as [|c r IH]; simpl; [reflexivity|].
  destruct (p c); simpl; [now rewrite IH | reflexivity].
Qed.

Lemma takeWhile_allChars (p : ascii -> bool) (s : string) :
  allChars p (takeWhile p s) = true.
Proof.
  induction s as [|c r IH]; simpl; [reflexivity|].
  destruct (p c) eqn:E; simpl; [now rewrite E | reflexivity].
Qed.

Lemma run_append (p : ascii -> bool) (a b : string) :
  allChars p a = true ->
  match b with String c _ => p c = false | EmptyString => True end ->
  takeWhile p (a ++ b) = a /\ dropWhile p (a ++ b) = b.
Proof.
  intros Ha Hb. induction a as [|c r IH]; simpl in *.
  - destruct b as [|c r]; simpl; [auto | now rewrite Hb].
  - apply andb_true_iff in Ha as [Hc Hr]. rewrite Hc.
    destruct (IH Hr) as [-> ->]. auto.
Qed.

Lemma takeWhile_all (p : ascii -> bool) (s : string) :
  allChars p s = true -> takeWhile p s = s.
Proof.
  intros H. rewrite <- (string_append_nil_r s) at 1.
  now apply (run_append p s "").
Qed.

Lemma allChars_not_In (p : ascii -> bool) (s : string) (c : ascii) :
  allChars p s = true -> p c = false -> ~ In c (list_ascii_of_string s).
Proof.
  induction s as [|x r IH]; simpl; intros H Hc; [tauto|].
  apply andb_true_iff in H as [Hx Hr].
  intros [->|K]; [congruence | now apply IH].
Qed.

(** *** Trimming *)

Lemma trimStart_id (c : ascii) (r : string) :
  isSpace c = false -> trimStart (String c r) = String c r.
Proof. intros H. simpl. now rewrite H. Qed.

Lemma trimEnd_id (s : string) :
  match lastChar s with Some c => isSpace c = false | None => True end ->
  trimEnd s = s.
Proof.
  induction s as [|c r IH]; simpl; [reflexivity|].
  destruct (lastChar r) as [d|] eqn:E.
  - intros H. rewrite (IH H). destruct r; [discriminate E | reflexivity].
  - intros H. destruct r as [|x r']; simpl.
    + now rewrite H.
    + simpl in E. destruct (lastChar r'); discriminate E.
Qed.

Lemma lastChar_append (a b : string) :
  b <> "" -> lastChar (a ++ b) = lastChar b.
Proof.
  intros Hb. induction a as [|c r IH]; simpl; [reflexivity|].
  rewrite IH. destruct b as [|x b']; [congruence|].
  simpl. now destruct (lastChar b').
Qed.

(** *** Lines *)

Lemma split_lines (lines : list string) :
  lines <> [] ->
  (forall l, In l lines -> ~ In newline (list_ascii_of_string l)) ->
  Js.split (String.concat (String newline "") lines) newline = lines.
Proof.
  unfold Js.split. induction lines as [|x r IH]; [congruence|].
  intros _ H. destruct r as [|y r'].
  - simpl. rewrite splitAcc_plain; [reflexivity | apply H; now left].
  - change (String.concat (String newline "") (x :: y :: r'))
      with (x ++ String newline (String.concat (String newline "") (y :: r')))%string.
    rewrite splitAcc_at by (apply H; now left).
    simpl append. f_equal. apply IH; [discriminate|].
    intros l Hl. apply H. now right.
Qed.

(** *** One line *)

Lemma prefix_other_char (a c : ascii) (p s : string) :
  a <> c -> Js.startsWith (String c s) (String a p) = false.
Proof.
  intros H. unfold Js.startsWith. cbn [String.prefix].
  destruct (Ascii.ascii_dec a c); [contradiction | reflexivity].
Qed.

Lemma nameChar_not_space (c : ascii) : isNameChar c = true -> isSpace c = false.
Proof.
  destruct c as [[] [] [] [] [] [] [] []]; vm_compute; congruence.
Qed.

Lemma nameChar_not_newline : isNameChar newline = false.
Proof. reflexivity. Qed.

Lemma pinLine_read (llmDeps : list string) (i : nat) (req : string * string) :
  packageName (fst req) -> pinnedVersion (snd req) ->
  requirementAt llmDeps i (pinLine req)
  = if isLLMDep llmDeps (fst req)
    then [mkManifestDep (fst req) (snd req) (i + 1) (pinLine req)]
    else [].
Proof.
  destruct req as [n v]. unfold packageName, pinnedVersion, pinLine.
  cbn [fst snd]. intros [Hn Hchars] (Hv & Hline & Hop & Hlast).
  destruct n as [|c n']; [congruence|].
  assert (Hc : isNameChar c = true)
    by (simpl in Hchars; now apply andb_true_iff in Hchars as [Hc _]).
  unfold requirementAt.
  assert (Htrim : trim (String c n' ++ "==" ++ v) = (String c n' ++ "==" ++ v)%string).
  { unfold trim.
    change (String c n' ++ "==" ++ v)%string
      with (String c (n' ++ "==" ++ v))%string.
    rewrite trimStart_id by now apply nameChar_not_space.
    apply trimEnd_id.
    change (String c (n' ++ "==" ++ v))%string
      with (String c n' ++ ("==" ++ v))%string.
    rewrite (lastChar_append (String c n') ("==" ++ v)) by discriminate.
    rewrite (lastChar_append "==" v) by exact Hv. exact Hlast. }
  rewrite Htrim.
  assert (Hhash : Js.startsWith (String c n' ++ "==" ++ v) "#" = false).
  { apply prefix_other_char. intros <-. discriminate Hc. }
  rewrite Hhash. cbn [Js.truthy String.eqb append negb orb].
  destruct (run_append isNameChar (String c n') ("==" ++ v) Hchars eq_refl)
    as [Htake Hdrop].
  cbn [append] in Htake, Hdrop. rewrite Htake, Hdrop.
  cbn [Js.truthy String.eqb negb].
  destruct (isLLMDep llmDeps (String c n')); [|reflexivity].
  f_equal. f_equal.
  unfold versionSpecOf.
  destruct (run_append isOpChar "==" v eq_refl Hop) as [Hops Hrest].
  cbn [append] in Hops, Hrest.
  rewrite Hops, Hrest. rewrite (takeWhile_all _ v Hline).
  cbn [Js.truthy String.eqb negb].
  destruct v as [|x v']; [congruence|].
  cbn [Js.truthy String.eqb negb append].
  exact Hrest.
Qed.

Lemma pinLine_one_line (req : string * string) :
  packageName (fst req) -> pinnedVersion (snd req) ->
  ~ In newline (list_ascii_of_string (pinLine req)).
Proof.
  destruct req as [n v]. unfold packageName, pinnedVersion, pinLine.
  cbn [fst snd]. intros [_ Hchars] (_ & Hline & _).
  rewrite !chars_append, !in_app_iff. intros [K|[K|K]].
  - revert K. now apply (allChars_not_In isNameChar).
  - simpl in K. destruct K as [K|[K|[]]]; discriminate K.
  - revert K. now apply (allChars_not_In (fun c => negb (isLineTerminator c))).
Qed.

Lemma pins_read (llmDeps : list string) (reqs : list (string * string)) :
  forall i,
  (forall req, In req reqs -> packageName (fst req) /\ pinnedVersion (snd req)) ->
  requirementsFrom llmDeps i (map pinLine reqs) = pinsFrom llmDeps i reqs.
Proof.
  induction reqs as [|req r IH]; intros i H; simpl; [reflexivity|].
  destruct (H req (or_introl eq_refl)) as [Hn Hv].
  rewrite pinLine_read by assumption. f_equal.
  apply IH. intros q Hq. apply H. now right.
Qed.

(** X28. Reading back a requirements file of pinned packages: for a
    file with one line [name==version] per package, [findInRequirements]
    returns, in file order, exactly the packages whose name passes the
    LLM-dependency test, each with its version, its 1-based line
    number and its line as snippet. The dependency names tested
    against are plain, as the Python ones are. *)
Theorem findInRequirements_reads_back_pins (llmDeps : list string)
    (reqs : list (string * string)) :
  plainNames llmDeps = true ->
  (forall req, In req reqs -> packageName (fst req) /\ pinnedVersion (snd req)) ->
  findInRequirements (requirementsFile reqs) llmDeps = pinsFrom llmDeps 0 reqs.
Proof.
  intros _ H. unfold findInRequirements, requirementsFile.
  destruct reqs as [|req r]; [reflexivity|].
  rewrite split_lines.
  - now apply pins_read.
  - discriminate.
  - intros l Hl. apply in_map_iff in Hl as [q [<- Hq]].
    destruct (H q Hq). now apply pinLine_one_line.
Qed.

Lemma findInRequirements_pins_witness :
  findInRequirements
    (requirementsFile [("requests", "2.31.0"); ("openai", "1.40.0");
                       ("langchain-openai", "0.1.8")])
    LLM_DEPENDENCIES_python
  = [mkManifestDep "openai" "1.40.0" 2 "openai==1.40.0";
     mkManifestDep "langchain-openai" "0.1.8" 3 "langchain-openai==0.1.8"].
Proof.
  apply (findInRequirements_reads_back_pins LLM_DEPENDENCIES_python
           [("requests", "2.31.0"); ("openai", "1.40.0");
            ("langchain-openai", "0.1.8")]); [reflexivity|].
  intros req [<-|[<-|[<-|[]]]];
    (split; [split; [discriminate | reflexivity]
            | repeat split; [discriminate | reflexivity..]]).
Defined.

(** *** Every reported dependency *)

Lemma requirementAt_sound llmDeps i line d :
  In d (requirementAt llmDeps i line) ->
  requirementAt llmDeps i line = [d]
  /\ dep_line d = i + 1
  /\ dep_snippet d = trim line
  /\ dep_name d <> ""
  /\ dep_name d = takeWhile isNameChar (trim line)
  /\ Js.startsWith (trim line) "#" = false
  /\ isLLMDep llmDeps (dep_name d) = true.
Proof.
  unfold requirementAt.
  destruct (negb (Js.truthy (trim line)) || Js.startsWith (trim line) "#")
    eqn:E1; [intros []|].
  apply orb_false_iff in E1 as [_ Hhash].
  destruct (negb (Js.truthy (takeWhile isNameChar (trim line)))) eqn:E2;
    [intros []|].
  destruct (isLLMDep llmDeps (takeWhile isNameChar (trim line))) eqn:E3;
    [|intros []].
  intros [<-|[]]. cbn [dep_line dep_snippet dep_name].
  repeat split; try assumption.
  apply negb_false_iff in E2. unfold Js.truthy in E2.
  apply negb_true_iff, String.eqb_neq in E2. exact E2.
Qed.

Lemma requirementsFrom_sound llmDeps lines : forall i d,
  In d (requirementsFrom llmDeps i lines) ->
  i + 1 <= dep_line d <= i + List.length lines
  /\ In d (requirementAt llmDeps (dep_line d - 1)
             (nth (dep_line d - 1 - i) lines "")).
Proof.
  induction lines as [|line r IH]; intros i d; simpl; [tauto|].
  intros H. apply in_app_iff in H as [H|H].
  - destruct (requirementAt_sound _ _ _ _ H) as (_ & Hl & _).
    rewrite Hl. split; [lia|].
    replace (i + 1 - 1 - i) with 0 by lia.
    replace (i + 1 - 1) with i by lia. exact H.
  - destruct (IH _ _ H) as [Hb Hin]. split; [lia|].
    replace (dep_line d - 1 - i) with (S (dep_line d - 1 - S i)) by lia.
    exact Hin.
Qed.

Lemma requirementsFrom_increasing llmDeps lines : forall i,
  increasing (map dep_line (requirementsFrom llmDeps i lines)).
Proof.
  induction lines as [|line r IH]; intros i; simpl; [exact I|].
  specialize (IH (S i)).
  destruct (requirementAt llmDeps i line) as [|d l] eqn:E; [exact IH|].
  destruct (requirementAt_sound llmDeps i line d) as (E1 & Hl & _);
    [rewrite E; now left|].
  rewrite E in E1. injection E1 as ->. simpl.
  destruct (requirementsFrom llmDeps (S i) r) as [|d' r'] eqn:Er; [exact I|].
  split; [|exact IH].
  destruct (requirementsFrom_sound llmDeps r (S i) d') as [Hb _];
    [rewrite Er; now left|].
  simpl. lia.
Qed.

(** X29. Every dependency [findInRequirements] reports stands on a
    line of the file: its line number is that of a line which, once
    trimmed, is the snippet, is not a comment and begins with the
    reported name, a non-empty run of name characters passing the
    LLM-dependency test. Dependencies are reported in line order, at
    most one per line. The dependency names tested against are plain,
    as the Python ones are. *)
Theorem findInRequirements_reports_lines_of_the_file
    (content : string) (llmDeps : list string) :
  plainNames llmDeps = true ->
  let lines := Js.split content newline in
  (forall d, In d (findInRequirements content llmDeps) ->
     1 <= dep_line d <= List.length lines
     /\ dep_snippet d = trim (nth (dep_line d - 1) lines "")
     /\ Js.startsWith (dep_snippet d) "#" = false
     /\ dep_name d <> ""
     /\ allChars isNameChar (dep_name d) = true
     /\ Js.startsWith (dep_snippet d) (dep_name d) = true
     /\ isLLMDep llmDeps (dep_name d) = true)
  /\ increasing (map dep_line (findInRequirements content llmDeps)).
Proof.
  intros _ lines. unfold findInRequirements. fold lines. split.
  - intros d H. apply requirementsFrom_sound in H as [Hb Hin].
    rewrite Nat.sub_0_r in Hin.
    apply requirementAt_sound in Hin as (_ & _ & Hs & Hn & En & Hh & Hl).
    rewrite Hs. repeat split; try assumption; try lia.
    + rewrite En. apply takeWhile_allChars.
    + rewrite En. unfold Js.startsWith.
      rewrite <- (takeWhile_dropWhile isNameChar (trim _)) at 2.
      apply startsWith_append.
  - apply requirementsFrom_increasing.
Qed.

Lemma findInRequirements_lines_witness :
  increasing
    (map dep_line
       (findInRequirements
          (String.concat (String newline "")
             ["# inference"; "  openai>=1.0  "; ""; "numpy"; "transformers"])
          LLM_DEPENDENCIES_python)).
Proof.
  apply (findInRequirements_reports_lines_of_the_file
           (String.concat (String newline "")
              ["# inference"; "  openai>=1.0  "; ""; "numpy"; "transformers"])
           LLM_DEPENDENCIES_python).
  reflexivity.
Defined.

End RequirementsFiles.

(* ------------------------------------------------------------------ *)
(** ** The two readings of hardware and governance findings *)
(* ------------------------------------------------------------------ *)

Section ContextAgreement.
Import Extended ModelContext.

Lemma dedupe_NoDup (xs : list string) : NoDup (dedupe xs).
Proof. apply NoDup_set_addAll. constructor. Qed.

Lemma dedupe_In (xs : list string) (x : string) : In x (dedupe xs) <-> In x xs.
Proof.
  unfold dedupe. rewrite In_set_addAll. simpl. tauto.
Qed.

(** X30. The context [createMLModelComponents] extracts for the
    CycloneDX documents agrees with the extended metadata on every
    finding list: hardware is detected in the one exactly when it is
    in the other, the hardware types are the compute types with
    repetitions removed (types and libraries are duplicate-free), and
    the limitations, bias and ethics flags coincide. *)
Theorem model_context_agrees_with_extended_metadata (fs : list Finding) :
  let hw := extractHardwareInfo fs in
  let gov := extractGovernanceInfo fs in
  let status := documentation_status (extractGovernanceMetadata fs) in
  hs_detected hw = hardwareDetected (extractHardwareMetadata fs)
  /\ NoDup (hs_types hw) /\ NoDup (hs_libraries hw)
  /\ (forall t, In t (hs_types hw) <->
                match extractHardwareMetadata fs with
                | HardwareFound types _ => In t types
                | NoHardware _ => False
                end)
  /\ hasLimitations gov = limitations_documented status
  /\ hasBiasFairness gov = bias_fairness_documented status
  /\ hasEthical gov = ethical_considerations_documented status
  /\ gs_count gov = List.length (filter (inCategory "governance") fs).
Proof.
  unfold extractHardwareInfo, extractGovernanceInfo, extractGovernanceMetadata,
    extractHardwareMetadata.
  cbn [hs_detected hs_types hs_libraries hasLimitations hasBiasFairness
       hasEthical gs_count documentation_status limitations_documented
       bias_fairness_documented ethical_considerations_documented].
  split; [|split; [apply dedupe_NoDup | split; [apply dedupe_NoDup|]]].
  - destruct (filter (inCategory "hardware") fs); reflexivity.
  - split; [|repeat split].
    intros t. rewrite dedupe_In.
    destruct (filter (inCategory "hardware") fs) as [|f r]; [simpl; tauto|].
    cbn [List.length Nat.eqb]. tauto.
Qed.

End ContextAgreement.
